(** * Whitepaper categorizer: a shallow embedding of [app.py]

    The development follows the layout of the program:

    - [Py]: the operations on Python strings that the program calls
      ([strip], [find], [rfind], slicing, [join], comparison);
    - [Json]: the values and the decoder behind [json.loads];
    - [Classifier]: [classify], from the model's reply to the
      classification;
    - [Store]: the [whitepapers] table, the staged files and the three
      SQL helpers;
    - [App]: the [index] view (upload pipeline, deletion, filters,
      sorting).

    The services the program calls and does not define (the HTTP
    client, the PDF reader, the chat-completion endpoint, the clock)
    are the fields of [App.Env]; the effects of a request are a
    function from state to state.  The definitions come first; the
    vocabulary of the statements, the lemmas of each module and the
    properties of the program follow.

    A Python [str] is a sequence of Unicode code points; it is modelled
    as a list of code points so that [strip] and the decoder's [\uXXXX]
    escapes mean what they mean in Python. *)

From Stdlib Require Import ZArith NArith List String Ascii Lia.
From Stdlib Require Import Sorting.Sorted Sorting.Permutation.
From stdpp Require Import gmap list sorting.

Local Open Scope Z_scope.
#[local] Set Warnings "-register-all".

(** ** Python strings *)

Abbreviation char := N (only parsing).
Abbreviation str := (list N) (only parsing).
Abbreviation bytes := (list Byte.byte) (only parsing).

(** [py "abc"] is the Python string ['abc']. *)
Definition py (s : string) : str :=
  List.map N_of_ascii (list_ascii_of_string s).

Definition DQUOTE : char := 34%N.
Definition BACKSLASH : char := 92%N.
Definition NEWLINE : char := 10%N.
Definition LBRACE : char := 123%N.
Definition RBRACE : char := 125%N.

(** [pyq] writes a literal that contains double quotes: every apostrophe
    of the argument stands for a double quote. *)
Definition pyq (s : string) : str :=
  List.map (fun c => if (c =? 39)%N then DQUOTE else c) (py s).

Module Py.

(** [str.isspace] on one code point (CPython's [Py_UNICODE_ISSPACE]). *)
Definition isspace (c : char) : bool :=
  ((9 <=? c) && (c <=? 13) || (28 <=? c) && (c <=? 32)
   || (c =? 133) || (c =? 160) || (c =? 5760)
   || (8192 <=? c) && (c <=? 8202)
   || (c =? 8232) || (c =? 8233) || (c =? 8239) || (c =? 8287)
   || (c =? 12288))%N.

Fixpoint lstrip (s : str) : str :=
  match s with
  | c :: r => if isspace c then lstrip r else s
  | [] => []
  end.

Definition rstrip (s : str) : str := rev (lstrip (rev s)).

(** [s.strip()] *)
Definition strip (s : str) : str := rstrip (lstrip s).

(** [s.find(c)] for a one-character needle: the lowest index, or [-1]. *)
Fixpoint find_from (c : char) (s : str) (i : Z) : Z :=
  match s with
  | [] => -1
  | x :: r => if (x =? c)%N then i else find_from c r (i + 1)
  end.

Definition find (s : str) (c : char) : Z := find_from c s 0.

(** [s.rfind(c)]: the highest index, or [-1]. *)
Fixpoint rfind_from (c : char) (s : str) (i : Z) : Z :=
  match s with
  | [] => -1
  | x :: r =>
      let j := rfind_from c r (i + 1) in
      if j =? -1 then (if (x =? c)%N then i else -1) else j
  end.

Definition rfind (s : str) (c : char) : Z := rfind_from c s 0.

(** [s[a:b]] for [0 <= a]; the program only slices under that guard
    (negative bounds, which Python counts from the end, do not occur). *)
Definition slice (s : str) (a b : Z) : str :=
  take (Z.to_nat (b - a)) (drop (Z.to_nat a) s).

(** Truthiness of a string: [bool(s)]. *)
Definition truthy (s : str) : bool :=
  match s with [] => false | _ => true end.

(** [sep.join(parts)] *)
Fixpoint join (sep : str) (parts : list str) : str :=
  match parts with
  | [] => []
  | [p] => p
  | p :: ps => p ++ sep ++ join sep ps
  end.

(** Comparison of strings: code point by code point, a proper prefix
    being smaller. *)
Fixpoint compare (a b : str) : comparison :=
  match a, b with
  | [], [] => Eq
  | [], _ :: _ => Lt
  | _ :: _, [] => Gt
  | x :: a', y :: b' =>
      match (x ?= y)%N with
      | Eq => compare a' b'
      | o => o
      end
  end.

(** [a <= b] on strings *)
Definition le (a b : str) : bool :=
  match compare a b with Gt => false | _ => true end.

(** [a < b] on strings *)
Definition lt (a b : str) : bool :=
  match compare a b with Lt => true | _ => false end.

(** [str(n)] for a non-negative integer: its decimal digits. *)
Definition digit (d : N) : char := (48 + d)%N.

Fixpoint digits_fuel (fuel : nat) (n : N) (acc : str) : str :=
  match fuel with
  | O => acc
  | S f =>
      let acc' := digit (n mod 10) :: acc in
      if (n <? 10)%N then acc' else digits_fuel f (n / 10)%N acc'
  end.

Definition str_of_N (n : N) : str := digits_fuel (S (N.to_nat (N.log2 n))) n [].

Definition str_of_nat (n : nat) : str := str_of_N (N.of_nat n).

Definition str_of_Z (z : Z) : str :=
  if z <? 0 then 45%N :: str_of_N (Z.to_N (- z)) else str_of_N (Z.to_N z).

End Py.

(** ** The JSON decoder behind [json.loads]

    [json] is the Python value that [json.loads] builds; the decoder
    follows CPython's [json.decoder] / [json.scanner]: RFC 8259 plus the
    constants [NaN], [Infinity] and [-Infinity], strict strings.  The
    interpreter's resource limits (recursion depth, the bound on the
    digits of an integer literal) are not part of the model. *)

Module Json.

Inductive json : Type :=
| JNull
| JBool (b : bool)
| JInt (n : Z)
| JFloat (lexeme : str)
| JStr (s : str)
| JList (l : list json)
| JDict (d : list (str * json)).

(** A [dict] keeps one entry per key, in insertion order; storing under
    an existing key replaces the value in place. *)
Fixpoint dict_set (k : str) (v : json) (d : list (str * json)) : list (str * json) :=
  match d with
  | [] => [(k, v)]
  | (k', v') :: d' =>
      if decide (k' = k) then (k, v) :: d' else (k', v') :: dict_set k v d'
  end.

(** [dict(pairs)] *)
Definition dict (pairs : list (str * json)) : list (str * json) :=
  fold_left (fun d kv => dict_set (fst kv) (snd kv) d) pairs [].

(** [d.get(k)] as an option: [None] when the key is absent. *)
Fixpoint dict_lookup (k : str) (d : list (str * json)) : option json :=
  match d with
  | [] => None
  | (k', v) :: d' => if decide (k' = k) then Some v else dict_lookup k d'
  end.

(** [d.get(k, default)] *)
Definition dict_get (d : list (str * json)) (k : str) (default : json) : json :=
  match dict_lookup k d with
  | Some v => v
  | None => default
  end.

(** Outcome of a scanning function: the value with the text that
    follows it, a decoding error (message and number of characters
    left at the offending index), or exhausted fuel. *)
Inductive scanned (A : Type) : Type :=
| Got (v : A) (rest : str)
| Bad (msg : str) (left : nat)
| Deep.
Arguments Got {A} v rest.
Arguments Bad {A} msg left.
Arguments Deep {A}.

Definition is_ws (c : char) : bool :=
  ((c =? 32) || (c =? 9) || (c =? 10) || (c =? 13))%N.

(** [WHITESPACE.match(s, idx).end()] *)
Fixpoint skip_ws (s : str) : str :=
  match s with
  | c :: r => if is_ws c then skip_ws r else s
  | [] => []
  end.

Definition is_digit (c : char) : bool := ((48 <=? c) && (c <=? 57))%N.

Definition hexval (c : char) : option N :=
  if is_digit c then Some (c - 48)%N
  else if ((97 <=? c) && (c <=? 102))%N then Some (c - 87)%N
  else if ((65 <=? c) && (c <=? 70))%N then Some (c - 55)%N
  else None.

Definition hex4 (a b c d : char) : option N :=
  match hexval a, hexval b, hexval c, hexval d with
  | Some x, Some y, Some z, Some w => Some (((x * 16 + y) * 16 + z) * 16 + w)%N
  | _, _, _, _ => None
  end.

Definition is_high_surrogate (u : N) : bool := ((55296 <=? u) && (u <=? 56319))%N.
Definition is_low_surrogate (u : N) : bool := ((56320 <=? u) && (u <=? 57343))%N.
Definition join_surrogates (hi lo : N) : N :=
  (65536 + ((hi - 55296) * 1024 + (lo - 56320)))%N.

(** The one-character escapes [BACKSLASH] of the decoder. *)
Definition unescape (e : char) : option char :=
  if (e =? 34)%N then Some 34%N
  else if (e =? 92)%N then Some 92%N
  else if (e =? 47)%N then Some 47%N
  else if (e =? 98)%N then Some 8%N
  else if (e =? 102)%N then Some 12%N
  else if (e =? 110)%N then Some 10%N
  else if (e =? 114)%N then Some 13%N
  else if (e =? 116)%N then Some 9%N
  else None.

(** [scanstring(s, end)]: [s] starts just after the opening quote;
    [left0] is the number of characters left at that quote and [acc]
    the decoded characters so far, last first. *)
Fixpoint scanstring (left0 : nat) (acc : str) (s : str) {struct s} : scanned str :=
  match s with
  | [] => Bad (py "Unterminated string starting at") left0
  | c :: r =>
      if (c =? DQUOTE)%N then Got (rev acc) r
      else if (c =? BACKSLASH)%N then
        match r with
        | [] => Bad (py "Unterminated string starting at") left0
        | e :: r1 =>
            if (e =? 117)%N then
              match r1 with
              | h1 :: h2 :: h3 :: h4 :: r2 =>
                  match hex4 h1 h2 h3 h4 with
                  | None => Bad (py "Invalid \uXXXX escape") (length r)
                  | Some u =>
                      if is_high_surrogate u then
                        match r2 with
                        | b :: u' :: l1 :: l2 :: l3 :: l4 :: r3 =>
                            if ((b =? BACKSLASH) && (u' =? 117))%N then
                              match hex4 l1 l2 l3 l4 with
                              | None =>
                                  Bad (py "Invalid \uXXXX escape")
                                    (length (u' :: l1 :: l2 :: l3 :: l4 :: r3))
                              | Some u2 =>
                                  if is_low_surrogate u2
                                  then scanstring left0 (join_surrogates u u2 :: acc) r3
                                  else scanstring left0 (u :: acc) r2
                              end
                            else scanstring left0 (u :: acc) r2
                        | _ => scanstring left0 (u :: acc) r2
                        end
                      else scanstring left0 (u :: acc) r2
                  end
              | _ => Bad (py "Invalid \uXXXX escape") (length r)
              end
            else
              match unescape e with
              | Some x => scanstring left0 (x :: acc) r1
              | None => Bad (py "Invalid \escape") (length s)
              end
        end
      else if (c <? 32)%N then Bad (py "Invalid control character at") (length s)
      else scanstring left0 (c :: acc) r
  end.

(** The number pattern of the scanner: an optional minus sign, then
    either a single 0 or a non-zero digit followed by digits; an
    optional fraction (a dot and at least one digit); an optional
    exponent (e or E, an optional sign, at least one digit). *)
Fixpoint span_digits (s : str) : str * str :=
  match s with
  | c :: r =>
      if is_digit c then let '(d, r') := span_digits r in (c :: d, r')
      else ([], s)
  | [] => ([], [])
  end.

Definition match_integer (s : str) : option (str * str) :=
  let '(sign, s1) :=
    match s with
    | c :: r => if (c =? 45)%N then ([c], r) else ([], s)
    | [] => ([], s)
    end in
  match s1 with
  | c :: r =>
      if (c =? 48)%N then Some (sign ++ [c], r)
      else if is_digit c then
        let '(d, r') := span_digits s1 in Some (sign ++ d, r')
      else None
  | [] => None
  end.

Definition match_frac (s : str) : str * str :=
  match s with
  | c :: r =>
      if (c =? 46)%N then
        match span_digits r with
        | ([], _) => ([], s)
        | (d, r') => (c :: d, r')
        end
      else ([], s)
  | [] => ([], s)
  end.

Definition match_exp (s : str) : str * str :=
  match s with
  | c :: r =>
      if ((c =? 101) || (c =? 69))%N then
        let '(sg, r1) :=
          match r with
          | x :: r' => if ((x =? 43) || (x =? 45))%N then ([x], r') else ([], r)
          | [] => ([], r)
          end in
        match span_digits r1 with
        | ([], _) => ([], s)
        | (d, r') => (c :: sg ++ d, r')
        end
      else ([], s)
  | [] => ([], s)
  end.

(** [int(lexeme)] for a lexeme of the integer pattern. *)
Definition int_of_digits (d : str) : Z :=
  fold_left (fun a c => a * 10 + Z.of_N (c - 48)) d 0.

Definition int_of_lexeme (l : str) : Z :=
  match l with
  | c :: d => if (c =? 45)%N then - int_of_digits d else int_of_digits l
  | [] => 0
  end.

Definition match_number (s : str) : option (json * str) :=
  match match_integer s with
  | None => None
  | Some (integer, s1) =>
      let '(frac, s2) := match_frac s1 in
      let '(exp, s3) := match_exp s2 in
      match frac, exp with
      | [], [] => Some (JInt (int_of_lexeme integer), s3)
      | _, _ => Some (JFloat (integer ++ frac ++ exp), s3)
      end
  end.

(** [s[idx:idx + len(w)] == w], with the text after it. *)
Fixpoint after_word (w s : str) : option str :=
  match w, s with
  | [], _ => Some s
  | x :: w', y :: s' => if (x =? y)%N then after_word w' s' else None
  | _ :: _, [] => None
  end.

(** [JSONObject]: [s] starts just after the opening brace; [scan] is
    the scanner for member values (the [scan_once] argument of the
    Python function); [acc] holds the pairs read so far, last first. *)
Fixpoint object_members (scan : str -> scanned json) (fuel : nat)
    (acc : list (str * json)) (s : str) : scanned json :=
  match fuel with
  | O => Deep
  | S f =>
      match scanstring (S (length s)) [] s with
      | Got key s1 =>
          match skip_ws s1 with
          | c :: s3 =>
              if (c =? 58)%N then
                match scan (skip_ws s3) with
                | Got v s5 =>
                    match skip_ws s5 with
                    | d :: s7 =>
                        if (d =? RBRACE)%N then
                          Got (JDict (dict (rev ((key, v) :: acc)))) s7
                        else if (d =? 44)%N then
                          match skip_ws s7 with
                          | q :: s9 =>
                              if (q =? DQUOTE)%N
                              then object_members scan f ((key, v) :: acc) s9
                              else Bad (py "Expecting property name enclosed in double quotes")
                                     (length (q :: s9))
                          | [] => Bad (py "Expecting property name enclosed in double quotes") 0
                          end
                        else Bad (py "Expecting ',' delimiter") (length (d :: s7))
                    | [] => Bad (py "Expecting ',' delimiter") 0
                    end
                | Bad m l => Bad m l
                | Deep => Deep
                end
              else Bad (py "Expecting ':' delimiter") (length (c :: s3))
          | [] => Bad (py "Expecting ':' delimiter") 0
          end
      | Bad m l => Bad m l
      | Deep => Deep
      end
  end.

Definition JSONObject (scan : str -> scanned json) (fuel : nat) (s : str) : scanned json :=
  match skip_ws s with
  | c :: r =>
      if (c =? RBRACE)%N then Got (JDict []) r
      else if (c =? DQUOTE)%N then object_members scan fuel [] r
      else Bad (py "Expecting property name enclosed in double quotes") (length (c :: r))
  | [] => Bad (py "Expecting property name enclosed in double quotes") 0
  end.

(** [JSONArray]: [s] starts at the first element. *)
Fixpoint array_items (scan : str -> scanned json) (fuel : nat)
    (acc : list json) (s : str) : scanned json :=
  match fuel with
  | O => Deep
  | S f =>
      match scan s with
      | Got v s1 =>
          match skip_ws s1 with
          | d :: s3 =>
              if (d =? 93)%N then Got (JList (rev (v :: acc))) s3
              else if (d =? 44)%N then array_items scan f (v :: acc) (skip_ws s3)
              else Bad (py "Expecting ',' delimiter") (length (d :: s3))
          | [] => Bad (py "Expecting ',' delimiter") 0
          end
      | Bad m l => Bad m l
      | Deep => Deep
      end
  end.

Definition JSONArray (scan : str -> scanned json) (fuel : nat) (s : str) : scanned json :=
  match skip_ws s with
  | c :: r =>
      if (c =? 93)%N then Got (JList []) r
      else array_items scan fuel [] (c :: r)
  | [] => array_items scan fuel [] []
  end.

(** [scan_once(string, idx)]; a [StopIteration] is reported as the
    [Expecting value] error that every caller turns it into. *)
Fixpoint scan_once (fuel : nat) (s : str) : scanned json :=
  match fuel with
  | O => Deep
  | S f =>
      match s with
      | [] => Bad (py "Expecting value") 0
      | c :: r =>
          if (c =? DQUOTE)%N then
            match scanstring (length s) [] r with
            | Got v r' => Got (JStr v) r'
            | Bad m l => Bad m l
            | Deep => Deep
            end
          else if (c =? LBRACE)%N then JSONObject (scan_once f) f r
          else if (c =? 91)%N then JSONArray (scan_once f) f r
          else
            match after_word (py "null") s, after_word (py "true") s,
                  after_word (py "false") s with
            | Some r', _, _ => Got JNull r'
            | None, Some r', _ => Got (JBool true) r'
            | None, None, Some r' => Got (JBool false) r'
            | None, None, None =>
                match match_number s with
                | Some (v, r') => Got v r'
                | None =>
                    match after_word (py "NaN") s, after_word (py "Infinity") s,
                          after_word (py "-Infinity") s with
                    | Some r', _, _ => Got (JFloat (py "NaN")) r'
                    | None, Some r', _ => Got (JFloat (py "Infinity")) r'
                    | None, None, Some r' => Got (JFloat (py "-Infinity")) r'
                    | None, None, None => Bad (py "Expecting value") (length s)
                    end
                end
            end
      end
  end.

(** The exception [json.JSONDecodeError(msg, doc, pos)]. *)
Record JSONDecodeError : Type := { msg : str; doc : str; pos : nat }.

Inductive loaded : Type :=
| Loaded (v : json)
| DecodeError (e : JSONDecodeError)
| Unfinished.

(** [JSONDecoder.decode(s)]: one value, with white space around it. *)
Definition decode (s : str) : loaded :=
  match scan_once (S (length s)) (skip_ws s) with
  | Got v r =>
      match skip_ws r with
      | [] => Loaded v
      | r' => DecodeError {| msg := py "Extra data"; doc := s;
                             pos := length s - length r' |}
      end
  | Bad m l => DecodeError {| msg := m; doc := s; pos := length s - l |}
  | Deep => Unfinished
  end.

(** [s.startswith('\ufeff')] *)
Definition starts_with_bom (s : str) : bool :=
  match s with
  | c :: _ => (c =? 65279)%N
  | [] => false
  end.

(** [json.loads(s)] *)
Definition loads (s : str) : loaded :=
  if starts_with_bom s then
    DecodeError {| msg := py "Unexpected UTF-8 BOM (decode using utf-8-sig)";
                   doc := s; pos := 0 |}
  else decode s.

(** [str(e)] for a [JSONDecodeError]:
    [msg: line L column C (char P)]. *)
Definition lineno (d : str) (p : nat) : nat :=
  S (length (List.filter (fun c => (c =? NEWLINE)%N) (take p d))).

Fixpoint since_newline (rev_prefix : str) : nat :=
  match rev_prefix with
  | [] => 0
  | c :: r => if (c =? NEWLINE)%N then 0 else S (since_newline r)
  end.

Definition colno (d : str) (p : nat) : nat :=
  S (since_newline (rev (take p d))).

Definition str_of_error (e : JSONDecodeError) : str :=
  msg e ++ py ": line " ++ Py.str_of_nat (lineno (doc e) (pos e))
    ++ py " column " ++ Py.str_of_nat (colno (doc e) (pos e))
    ++ py " (char " ++ Py.str_of_nat (pos e) ++ py ")".

End Json.


(** ** Exceptions

    The exceptions the program can see.  [str(e)] of each of them is its
    message. *)

Inductive exn : Type :=
| ValueError (message : str)
| AttributeError (message : str)
| RecursionError
| External (message : str).

Definition str_of_exn (e : exn) : str :=
  match e with
  | ValueError m | AttributeError m | External m => m
  | RecursionError => py "maximum recursion depth exceeded"
  end.

Inductive result (A : Type) : Type :=
| Ok (a : A)
| Raise (e : exn).
Arguments Ok {A} a.
Arguments Raise {A} e.

Definition rbind {A B : Type} (m : result A) (k : A -> result B) : result B :=
  match m with
  | Ok a => k a
  | Raise e => Raise e
  end.

Notation "'try!' x <- m ; k" := (rbind m (fun x => k))
  (at level 10, x name, m at level 100, k at level 200).

(** ** The classifier: from the model's reply to the classification *)

Module Classifier.
Import Json.

Definition INDUSTRIES : list str :=
  [ py "Banking"; py "Insurance"; py "Asset Management"; py "Hedge Funds";
    py "Pension Funds"; py "Energy"; py "Technology"; py "Healthcare";
    py "Industrials"; py "Consumer"; py "Real Estate"; py "Telecom";
    py "Utilities"; py "Other" ].

Definition MAIN_CATEGORIES : list str :=
  [ py "Retail"; py "Institutional"; py "Nondescript" ].

(** [x in l] for a list of strings *)
Definition str_in (x : str) (l : list str) : bool := bool_decide (x ∈ l).

(** The dictionary [classify] returns; every key is always set. *)
Record classification : Type := {
  title : str;
  main_category : str;
  industry : str;
  short_summary : str;
  audience : str;
  audience_confidence : json;
  audience_rationale : str
}.

(** [type(v).__name__] *)
Definition type_name (v : json) : str :=
  match v with
  | JNull => py "NoneType"
  | JBool _ => py "bool"
  | JInt _ => py "int"
  | JFloat _ => py "float"
  | JStr _ => py "str"
  | JList _ => py "list"
  | JDict _ => py "dict"
  end.

Definition no_attribute (v : json) (attr : str) : exn :=
  AttributeError (py "'" ++ type_name v ++ py "' object has no attribute '"
                    ++ attr ++ py "'").

(** [data.get(k, default)]: only a dict has the method. *)
Definition get (data : json) (k : str) (default : json) : result json :=
  match data with
  | JDict d => Ok (dict_get d k default)
  | _ => Raise (no_attribute data (py "get"))
  end.

(** [v.strip()]: only a string has the method. *)
Definition strip (v : json) : result str :=
  match v with
  | JStr s => Ok (Py.strip s)
  | _ => Raise (no_attribute v (py "strip"))
  end.

(** [data.get(k, default).strip()] *)
Definition get_strip (data : json) (k : str) (default : str) : result str :=
  try! v <- get data k (JStr default); strip v.

(** The text handed to [json.loads]: the span from the first opening
    brace to the last closing brace when there is one, else the whole
    reply. *)
Definition json_str (content : str) : str :=
  let first_brace := Py.find content LBRACE in
  let last_brace := Py.rfind content RBRACE in
  if negb (first_brace =? -1) && negb (last_brace =? -1) && (last_brace >? first_brace)
  then Py.slice content first_brace (last_brace + 1)
  else content.

(** The message of the [ValueError] raised when [json.loads] fails. *)
Definition format_error (content : str) (e : JSONDecodeError) : exn :=
  ValueError (py "Model did not return valid JSON." ++ [NEWLINE; NEWLINE]
              ++ py "Raw reply was:" ++ [NEWLINE]
              ++ content ++ [NEWLINE; NEWLINE]
              ++ py "JSON error: " ++ str_of_error e).

(** [json.loads] under the [try] ... [except json.JSONDecodeError].
    The decoder never runs out of fuel ([JsonFacts.loads_finishes]), so
    the third case does not arise. *)
Definition load_json (content : str) : result json :=
  match loads (json_str content) with
  | Loaded data => Ok data
  | DecodeError e => Raise (format_error content e)
  | Unfinished => Raise RecursionError
  end.

(** Field extraction, coercion and the returned dictionary. *)
Definition extract_fields (data : json) : result classification :=
  try! title <- get_strip data (py "title") (py "Untitled");
  try! audience <- get_strip data (py "audience") (py "Nondescript");
  try! industry <- get_strip data (py "industry") (py "Other");
  try! short_summary <- get_strip data (py "short_summary") [];
  let main_category :=
    if negb (str_in audience MAIN_CATEGORIES) then py "Nondescript" else audience in
  let industry :=
    if negb (str_in industry INDUSTRIES) then py "Other" else industry in
  try! audience_confidence <- get data (py "audience_confidence") (JInt 0);
  try! audience_rationale <- get_strip data (py "audience_rationale") [];
  Ok {| title := title;
        main_category := main_category;
        industry := industry;
        short_summary := short_summary;
        audience := audience;
        audience_confidence := audience_confidence;
        audience_rationale := audience_rationale |}.

(** What [classify] does with [response.choices[0].message.content]. *)
Definition parse_reply (reply : str) : result classification :=
  let content := Py.strip reply in
  try! data <- load_json content;
  extract_fields data.

(** [classify(api_key, text)].  [create] stands for the chat-completion
    call of the OpenAI client: the model name, the temperature and the
    two prompts are constants of the call except for the snippet, so
    the call is a function of the key and of the snippet; it yields the
    content of the first choice or raises. *)
Definition classify (create : str -> str -> result str) (api_key text : str)
    : result classification :=
  let snippet := take (Z.to_nat 8000) text in
  try! reply <- create api_key snippet;
  parse_reply reply.

End Classifier.

(** ** The persistent store and the file stage *)

Module Store.

(** A row of the table [whitepapers]. *)
Record whitepaper : Type := {
  id : Z;
  title : str;
  source : str;
  main_category : str;
  industry : str;
  short_summary : str;
  file_path : option str;
  created_at : str
}.

(** The table: its rows in rowid order, and the largest id ever
    assigned (the AUTOINCREMENT counter of the id column). *)
Record table : Type := {
  rows : list whitepaper;
  last_id : Z
}.

(** The database file together with the [uploads] directory: each
    staged file is a path with its contents. *)
Record disk : Type := {
  db : table;
  files : gmap str bytes
}.

(** [init_db()] on a fresh database file *)
Definition empty_table : table := {| rows := []; last_id := 0 |}.

(** [save_whitepaper(...)]; [now] is [datetime.utcnow().isoformat()]. *)
Definition save_whitepaper (now : str)
    (title source main_category industry short_summary : str)
    (file_path : option str) (d : disk) : disk :=
  let new_id := last_id (db d) + 1 in
  {| db := {| rows := rows (db d) ++
                [ {| id := new_id; title := title; source := source;
                     main_category := main_category; industry := industry;
                     short_summary := short_summary; file_path := file_path;
                     created_at := now |} ];
              last_id := new_id |};
     files := files d |}.

(** [SELECT file_path FROM whitepapers WHERE id = ?] and [fetchone()] *)
Definition select_file_path (wp_id : Z) (t : table) : option (option str) :=
  file_path <$> List.find (fun r => id r =? wp_id) (rows t).

(** [os.path.isfile(path)] *)
Definition isfile (path : str) (fs : gmap str bytes) : bool :=
  bool_decide (is_Some (fs !! path)).

(** [delete_whitepaper(wp_id)]; [remove_fails path] tells whether
    [os.remove(path)] raises [OSError], which the function swallows. *)
Definition delete_whitepaper (remove_fails : str -> bool) (wp_id : Z) (d : disk) : disk :=
  let files' :=
    match select_file_path wp_id (db d) with
    | Some (Some path) =>
        if Py.truthy path && isfile path (files d) && negb (remove_fails path)
        then delete path (files d)
        else files d
    | _ => files d
    end in
  {| db := {| rows := List.filter (fun r => negb (id r =? wp_id)) (rows (db d));
              last_id := last_id (db d) |};
     files := files' |}.

(** [load_whitepapers()] *)
Definition load_whitepapers (d : disk) : list whitepaper := rows (db d).

End Store.

(** ** The [index] view *)

Module App.
Import Store.

(** The collaborators of one request: the libraries and services the
    program calls and does not define. *)
Record Env : Type := {
  (** [requests.get(url, timeout=60)] then [raise_for_status()]: the
      body of the response, or the error raised *)
  requests_get : str -> result bytes;
  (** [pdfplumber.open] and [page.extract_text()] for each page *)
  pdf_pages : bytes -> result (list (option str));
  (** the chat-completion call made by [classify] *)
  chat_create : str -> str -> result str;
  (** [int(time.time())] *)
  time_time : Z;
  (** [datetime.utcnow().isoformat()] *)
  utcnow_isoformat : str;
  (** [werkzeug.utils.secure_filename] *)
  secure_filename : str -> str;
  (** the builtin [int] on a string *)
  builtin_int : str -> result Z;
  (** whether [os.remove] raises [OSError] on a path *)
  remove_fails : str -> bool
}.

(** An uploaded file of the form ([werkzeug.FileStorage]). *)
Record FileStorage : Type := {
  filename : str;
  stream : bytes
}.

(** [bool(pdf_file)]: a missing part is [None], and a [FileStorage] is
    true when its filename is not empty. *)
Definition file_truthy (f : option FileStorage) : bool :=
  match f with
  | Some fs => Py.truthy (filename fs)
  | None => false
  end.

Inductive http_method : Type := GET | POST.

Record Request : Type := {
  method : http_method;
  args : list (str * str);
  form : list (str * str);
  files_ : list (str * FileStorage)
}.

(** [m.get(k)] on a multi-dict: the first value stored under the key. *)
Fixpoint lookup_first {A : Type} (k : str) (m : list (str * A)) : option A :=
  match m with
  | [] => None
  | (k', v) :: m' => if decide (k' = k) then Some v else lookup_first k m'
  end.

(** [m.get(k, default)] *)
Definition get (m : list (str * str)) (k : str) (default : str) : str :=
  match lookup_first k m with
  | Some v => v
  | None => default
  end.

(** The calls that leave the process; the state keeps their log. *)
Inductive call : Type :=
| FileSaved (path : str)
| HttpGet (url : str)
| PdfOpened (pdf_bytes : bytes)
| ChatCompletion (api_key snippet : str).

Record state : Type := {
  disk_ : disk;
  calls : list call
}.

(** Computations of the upload branch: they run on the state and end in
    a value or in an exception; what was done before an exception stays
    done. *)
Definition M (A : Type) : Type := state -> state * result A.

Definition ret {A : Type} (a : A) : M A := fun s => (s, Ok a).

Definition bind {A B : Type} (m : M A) (k : A -> M B) : M B :=
  fun s =>
    match m s with
    | (s', Ok a) => k a s'
    | (s', Raise e) => (s', Raise e)
    end.

Definition lift {A : Type} (r : result A) : M A := fun s => (s, r).

Definition log (c : call) : M unit :=
  fun s => ({| disk_ := disk_ s; calls := calls s ++ [c] |}, Ok tt).

Definition on_disk (f : disk -> disk) : M unit :=
  fun s => ({| disk_ := f (disk_ s); calls := calls s |}, Ok tt).

Notation "'do!' x <- m ; k" := (bind m (fun x => k))
  (at level 10, x name, m at level 100, k at level 200).
Notation "m ;; k" := (bind m (fun _ => k))
  (at level 100, k at level 200, right associativity).

Definition UPLOAD_FOLDER : str := py "uploads".

(** [pdf_file.save(file_path)] followed by reading the file back; the
    write and the read are taken to succeed, and [ensure_upload_folder]
    has nothing to do in a file stage that is a map from paths. *)
Definition save_and_read (path : str) (f : FileStorage) : M bytes :=
  log (FileSaved path) ;;
  on_disk (fun d => {| db := db d; files := <[path := stream f]> (files d) |}) ;;
  ret (stream f).

(** [extract_text(pdf_bytes)] *)
Definition extract_text (env : Env) (pdf_bytes : bytes) : M str :=
  log (PdfOpened pdf_bytes) ;;
  do! pages <- lift (pdf_pages env pdf_bytes);
  ret (Py.join [NEWLINE] (List.map (fun t => default [] t) pages)).

(** [classify(api_key, text)], with its call logged. *)
Definition classify (env : Env) (api_key text : str) : M Classifier.classification :=
  log (ChatCompletion api_key (take (Z.to_nat 8000) text)) ;;
  lift (Classifier.classify (chat_create env) api_key text).

(** What the upload branch ends in when no exception escapes it. *)
Inductive outcome : Type :=
| Redirected
| Message (message : str).

(** The body of the [try] of the upload branch.  The dictionary that
    [classify] returns has all its keys, so each [result.get] of the
    call to [save_whitepaper] reads the field. *)
Definition upload_body (env : Env) (rq : Request) : M outcome :=
  let api_key := Py.strip (get (form rq) (py "api_key") []) in
  let pdf_file := lookup_first (py "pdf_file") (files_ rq) in
  let pdf_url := Py.strip (get (form rq) (py "pdf_url") []) in
  if negb (Py.truthy api_key) then
    ret (Message (py "OpenAI API key is required."))
  else if negb (file_truthy pdf_file) && negb (Py.truthy pdf_url) then
    ret (Message (py "Please upload a PDF file or provide a PDF URL."))
  else
    do! staged <-
      match pdf_file with
      | Some f =>
          if Py.truthy (filename f) then
            let safe_name := secure_filename env (filename f) in
            let unique_name := Py.str_of_Z (time_time env) ++ py "_" ++ safe_name in
            let file_path := UPLOAD_FOLDER ++ py "/" ++ unique_name in
            do! pdf_bytes <- save_and_read file_path f;
            ret (Some file_path, py "File: " ++ filename f, pdf_bytes)
          else
            log (HttpGet pdf_url) ;;
            do! pdf_bytes <- lift (requests_get env pdf_url);
            ret (None, py "URL: " ++ pdf_url, pdf_bytes)
      | None =>
          log (HttpGet pdf_url) ;;
          do! pdf_bytes <- lift (requests_get env pdf_url);
          ret (None, py "URL: " ++ pdf_url, pdf_bytes)
      end;
    let '(file_path, source, pdf_bytes) := staged in
    do! text <- extract_text env pdf_bytes;
    if negb (Py.truthy (Py.strip text)) then
      ret (Message (py "Could not extract any text from the PDF."))
    else
      do! result <- classify env api_key text;
      on_disk (save_whitepaper (utcnow_isoformat env)
                 (Classifier.title result) source
                 (Classifier.main_category result) (Classifier.industry result)
                 (Classifier.short_summary result) file_path) ;;
      ret Redirected.

(** The upload branch with its [except Exception as e]. *)
Definition upload (env : Env) (rq : Request) (s : state) : state * outcome :=
  match upload_body env rq s with
  | (s', Ok o) => (s', o)
  | (s', Raise e) => (s', Message (py "Error: " ++ str_of_exn e))
  end.

(** [sorted(l, key=..., reverse=...)]: a stable sort on the keys; with
    [reverse] the list is reversed, sorted and reversed again, which
    keeps equal keys in their original order. *)
Fixpoint insert_sorted {A : Type} (key : A -> str) (x : A) (l : list A) : list A :=
  match l with
  | [] => [x]
  | y :: l' =>
      if Py.le (key x) (key y) then x :: l else y :: insert_sorted key x l'
  end.

Fixpoint sort_stable {A : Type} (key : A -> str) (l : list A) : list A :=
  match l with
  | [] => []
  | x :: l' => insert_sorted key x (sort_stable key l')
  end.

Definition sorted {A : Type} (l : list A) (key : A -> str) (reverse : bool) : list A :=
  if reverse then rev (sort_stable key (rev l)) else sort_stable key l.

(** [a == b] on strings *)
Definition str_eq (a b : str) : bool := bool_decide (a = b).

(** The two list comprehensions of the view. *)
Definition apply_filters (filter_main_category filter_industry : str)
    (whitepapers : list whitepaper) : list whitepaper :=
  let whitepapers :=
    if Py.truthy filter_main_category
    then List.filter (fun w => str_eq (main_category w) filter_main_category) whitepapers
    else whitepapers in
  if Py.truthy filter_industry
  then List.filter (fun w => str_eq (industry w) filter_industry) whitepapers
  else whitepapers.

(** The rows handed to the template. *)
Definition listing (filter_main_category filter_industry sort_order : str)
    (d : disk) : list whitepaper :=
  let whitepapers := load_whitepapers d in
  let whitepapers := apply_filters filter_main_category filter_industry whitepapers in
  let reverse := str_eq sort_order (py "newest") in
  sorted whitepapers created_at reverse.

(** The query parameters as the view reads them. *)
Definition filter_main_category_of (rq : Request) : str :=
  Py.strip (get (args rq) (py "filter_main_category") []).

Definition filter_industry_of (rq : Request) : str :=
  Py.strip (get (args rq) (py "filter_industry") []).

Definition sort_order_of (rq : Request) : str :=
  let s := Py.strip (get (args rq) (py "sort_order") (py "newest")) in
  if Py.truthy s then s else py "newest".

Inductive response : Type :=
| Redirect (filter_main_category filter_industry sort_order : option str)
| Rendered (message : option str) (error : bool) (whitepapers : list whitepaper)
    (filter_main_category filter_industry sort_order : str).

(** [index()] *)
Definition index (env : Env) (rq : Request) (s : state) : state * response :=
  let filter_main_category := filter_main_category_of rq in
  let filter_industry := filter_industry_of rq in
  let sort_order := sort_order_of rq in
  let render (s : state) (message : option str) (error : bool) :=
    (s, Rendered message error
          (listing filter_main_category filter_industry sort_order (disk_ s))
          filter_main_category filter_industry sort_order) in
  match method rq with
  | GET => render s None false
  | POST =>
      let action := get (form rq) (py "action") (py "upload") in
      if str_eq action (py "delete") then
        match builtin_int env (get (form rq) (py "delete_id") (py "0")) with
        | Ok delete_id =>
            ({| disk_ := delete_whitepaper (remove_fails env) delete_id (disk_ s);
                calls := calls s |},
             Redirect (Some filter_main_category) (Some filter_industry) (Some sort_order))
        | Raise e =>
            render s (Some (py "Error deleting whitepaper: " ++ str_of_exn e)) true
        end
      else
        match upload env rq s with
        | (s', Redirected) => (s', Redirect None None None)
        | (s', Message m) => render s' (Some m) true
        end
  end.

End App.

(** ** The download route

    The paths of the table are read in one directory: the process is
    taken to run in the application's own directory, so that
    [os.path.isfile] and [send_file] see the same file. *)

Module Download.
Import Store.

(** What the route answers: a body with status 404, or the file sent
    as an attachment under a name. *)
Inductive answer : Type :=
| NotFound (body : str)
| SendFile (file_path : str) (content : bytes) (download_name : str).

(** [os.path.basename(p)]: what follows the last slash. *)
Definition basename (p : str) : str :=
  drop (Z.to_nat (Py.rfind p 47%N + 1)) p.

(** [download_whitepaper(wp_id)] *)
Definition download_whitepaper (wp_id : Z) (d : disk) : answer :=
  match select_file_path wp_id (db d) with
  | Some (Some file_path) =>
      if Py.truthy file_path then
        match files d !! file_path with
        | Some content => SendFile file_path content (basename file_path)
        | None => NotFound (py "File not found on server.")
        end
      else NotFound (py "No local file available for this whitepaper.")
  | _ => NotFound (py "No local file available for this whitepaper.")
  end.

End Download.

(** ** The logic of the page template *)

Module Template.
Import Store.

(** [s.startswith(prefix)] *)
Fixpoint startswith (s prefix : str) : bool :=
  match prefix, s with
  | [], _ => true
  | x :: prefix', y :: s' => (x =? y)%N && startswith s' prefix'
  | _ :: _, [] => false
  end.

(** The cell of the Source column. *)
Inductive source_cell : Type :=
| OpenSource (href : str)
| DownloadPDF (wp_id : Z)
| SmallText (text : str).

(** Truthiness of [wp["file_path"]]. *)
Definition path_truthy (p : option str) : bool :=
  match p with
  | Some path => Py.truthy path
  | None => false
  end.

(** The [if] ... [elif] ... [else] of the Source column. *)
Definition source_of (wp : whitepaper) : source_cell :=
  if startswith (source wp) (py "URL: ") then OpenSource (drop 5 (source wp))
  else if path_truthy (file_path wp) then DownloadPDF (id wp)
  else SmallText (source wp).

(** The hidden fields that the delete form of a row posts; the id is
    rendered as [str(wp["id"])]. *)
Definition delete_form (wp : whitepaper) : list (str * str) :=
  [(py "action", py "delete"); (py "delete_id", Py.str_of_Z (id wp))].

(** The banner: shown when [message] is true, with its class. *)
Definition banner (message : option str) (error : bool) : option (str * str) :=
  match message with
  | Some m =>
      if Py.truthy m
      then Some (if error then py "error" else py "success", m)
      else None
  | None => None
  end.

End Template.

(** ** Vocabulary of the statements

    The predicates and abbreviations used to state what the program
    does; none of them is part of the program. *)

(** [c] occurs in [s] at index [i] and nowhere before (after) it. *)
Definition first_at (c : char) (s : str) (i : nat) : Prop :=
  s !! i = Some c /\ forall j, (j < i)%nat -> s !! j <> Some c.

Definition last_at (c : char) (s : str) (i : nat) : Prop :=
  s !! i = Some c /\ forall j, (i < j)%nat -> s !! j <> Some c.

(** The pair of braces that frames the slice, when there is one. *)
Definition framed (s : str) (i j : nat) : Prop :=
  first_at LBRACE s i /\ last_at RBRACE s j /\ (i < j)%nat.

(** Only white space, in the sense of [str.strip]. *)
Definition blank (s : str) : Prop := Forall (fun c => Py.isspace c = true) s.

(** No white space at either end. *)
Definition trimmed (s : str) : Prop :=
  (forall c r, s = c :: r -> Py.isspace c = false)
  /\ (forall c r, s = r ++ [c] -> Py.isspace c = false).

Definition is_dict (v : Json.json) : Prop :=
  match v with Json.JDict _ => True | _ => False end.

Definition is_text (v : Json.json) : Prop :=
  match v with Json.JStr _ => True | _ => False end.

#[global] Instance is_dict_dec (v : Json.json) : Decision (is_dict v) :=
  match v with
  | Json.JDict _ => left I
  | _ => right (fun H : False => H)
  end.

#[global] Instance is_text_dec (v : Json.json) : Decision (is_text v) :=
  match v with
  | Json.JStr _ => left I
  | _ => right (fun H : False => H)
  end.

(** A key of the object is usable as text: absent, or bound to a string. *)
Definition text_or_absent (d : list (str * Json.json)) (k : str) : Prop :=
  match Json.dict_lookup k d with
  | Some v => is_text v
  | None => True
  end.

#[global] Instance text_or_absent_dec d k : Decision (text_or_absent d k) :=
  match Json.dict_lookup k d as o
    return Decision (match o with Some v => is_text v | None => True end)
  with
  | Some v => is_text_dec v
  | None => left I
  end.

(** [x] is what extraction yields for key [k]: the default when the key
    is absent, the trimmed text when it is bound to a string. *)
Definition extracted (d : list (str * Json.json)) (k : str) (default x : str) : Prop :=
  (Json.dict_lookup k d = None -> x = default)
  /\ (forall s, Json.dict_lookup k d = Some (Json.JStr s) -> x = Py.strip s).

(** The keys whose values [classify] strips. *)
Definition string_keys : list str :=
  [ py "title"; py "audience"; py "industry"; py "short_summary";
    py "audience_rationale" ].

(** A value kept when it is in the list and replaced when it is not. *)
Definition coerce (x : str) (allowed : list str) (fallback : str) : str :=
  if negb (Classifier.str_in x allowed) then fallback else x.

(** [str(e)] of the error [json.loads] raises on [s], if it raises one. *)
Definition error_text (s : str) : option str :=
  match Json.loads s with
  | Json.DecodeError e => Some (Json.str_of_error e)
  | _ => None
  end.

(** What the value scanner must do for the object and array loops. *)
Definition consumes (scan : str -> Json.scanned Json.json) : Prop :=
  forall s v r, scan s = Json.Got v r -> r `suffix_of` s /\ (length r < length s)%nat.

Definition finishes (scan : str -> Json.scanned Json.json) (bound : nat) : Prop :=
  forall s, (length s < bound)%nat -> scan s <> Json.Deep.

(** The form fields of an upload as the view reads them. *)
Definition api_key_of (rq : App.Request) : str :=
  Py.strip (App.get (App.form rq) (py "api_key") []).

Definition pdf_url_of (rq : App.Request) : str :=
  Py.strip (App.get (App.form rq) (py "pdf_url") []).

Definition pdf_file_of (rq : App.Request) : option App.FileStorage :=
  App.lookup_first (py "pdf_file") (App.files_ rq).

(** Where an uploaded file is staged. *)
Definition staged_path (env : App.Env) (f : App.FileStorage) : str :=
  App.UPLOAD_FOLDER ++ py "/" ++ Py.str_of_Z (App.time_time env) ++ py "_"
    ++ App.secure_filename env (App.filename f).

(** The text [extract_text] builds from the pages. *)
Definition text_of (pages : list (option str)) : str :=
  Py.join [NEWLINE] (List.map (fun t => default [] t) pages).

(** A row whose two categories are in the closed lists. *)
Definition closed (w : Store.whitepaper) : Prop :=
  Store.main_category w ∈ Classifier.MAIN_CATEGORIES
  /\ Store.industry w ∈ Classifier.INDUSTRIES.

Definition is_upload (rq : App.Request) : Prop :=
  App.method rq = App.POST
  /\ App.get (App.form rq) (py "action") (py "upload") <> py "delete".

Definition is_delete (rq : App.Request) : Prop :=
  App.method rq = App.POST
  /\ App.get (App.form rq) (py "action") (py "upload") = py "delete".

(** The page [index] renders on the disk [d] with a banner. *)
Definition page (rq : App.Request) (d : Store.disk) (message : option str)
    (error : bool) : App.response :=
  App.Rendered message error
    (App.listing (App.filter_main_category_of rq) (App.filter_industry_of rq)
       (App.sort_order_of rq) d)
    (App.filter_main_category_of rq) (App.filter_industry_of rq)
    (App.sort_order_of rq).

(** A run of requests, each with the collaborators it meets. *)
Fixpoint serve (trace : list (App.Env * App.Request)) (s : App.state) : App.state :=
  match trace with
  | [] => s
  | (env, rq) :: trace' => serve trace' (App.index env rq s).1
  end.

(** The state of a fresh installation. *)
Definition initial : App.state :=
  {| App.disk_ := {| Store.db := Store.empty_table; Store.files := ∅ |};
     App.calls := [] |}.

(** The order on strings and the two directions of a listing. *)
Definition str_le (a b : str) : Prop := Py.le a b = true.

Definition ascending {A : Type} (key : A -> str) (l : list A) : Prop :=
  StronglySorted (fun x y => str_le (key x) (key y)) l.

Definition descending {A : Type} (key : A -> str) (l : list A) : Prop :=
  StronglySorted (fun x y => str_le (key y) (key x)) l.

(** ** Sample data for the closed examples *)
Module Sample.
Import Store App.

Definition pdf : bytes := [Byte.x25; Byte.x50; Byte.x44; Byte.x46].

(** Collaborators with fixed answers: [fetch] for the HTTP request,
    [pages] for the PDF reader, [reply] for the model.  The file names
    used below are already safe, so [secure_filename] returns them, and
    the only number to convert is [1]. *)
Definition env (fetch : result bytes) (pages : result (list (option str)))
    (reply : result str) : Env :=
  {| requests_get := fun _ => fetch;
     pdf_pages := fun _ => pages;
     chat_create := fun _ _ => reply;
     time_time := 1700000000;
     utcnow_isoformat := py "2024-05-01T10:00:00.000001";
     secure_filename := fun name => name;
     builtin_int := fun s =>
       if decide (s = py "1") then Ok 1
       else Raise (ValueError (py "invalid literal for int() with base 10"));
     remove_fails := fun _ => false |}.

Definition good_reply : str :=
  pyq "{'title':'T','audience':'Retail','audience_confidence':90,"
    ++ pyq "'audience_rationale':'r','industry':'Energy','short_summary':'s'}".

Definition one_page : result (list (option str)) := Ok [Some (py "Bonds for beginners")].

Definition upload_file : Request :=
  {| method := POST; args := [];
     form := [(py "api_key", py "sk-test")];
     files_ := [(py "pdf_file", {| filename := py "a.pdf"; stream := pdf |})] |}.

Definition upload_both : Request :=
  {| method := POST; args := [];
     form := [(py "api_key", py "sk-test"); (py "pdf_url", py "http://x.test/b.pdf")];
     files_ := [(py "pdf_file", {| filename := py "a.pdf"; stream := pdf |})] |}.

Definition upload_url : Request :=
  {| method := POST; args := [];
     form := [(py "api_key", py "sk-test"); (py "pdf_url", py "http://x.test/b.pdf")];
     files_ := [] |}.

Definition upload_nothing : Request :=
  {| method := POST; args := []; form := [(py "api_key", py "sk-test")]; files_ := [] |}.

Definition upload_no_key : Request :=
  {| method := POST; args := [];
     form := [(py "pdf_url", py "http://x.test/b.pdf")];
     files_ := [] |}.

Definition staged : str := py "uploads/1700000000_a.pdf".

Definition paper (n : Z) (stamp : string) : whitepaper :=
  {| id := n; title := py "T"; source := py "URL: http://x.test/b.pdf";
     main_category := py "Retail"; industry := py "Energy";
     short_summary := py "s"; file_path := None; created_at := py stamp |}.

End Sample.

(** ** Vocabulary of the further properties *)

(** The ids of a table are pairwise distinct, positive, and at most
    the counter. *)
Definition store_ok (t : Store.table) : Prop :=
  NoDup (Store.id <$> Store.rows t)
  /\ 0 <= Store.last_id t
  /\ Forall (fun w => 0 < Store.id w <= Store.last_id t) (Store.rows t).



#[global] Instance store_ok_dec (t : Store.table) : Decision (store_ok t) :=
  and_dec (NoDup_dec (Store.id <$> Store.rows t))
    (and_dec (Z_le_dec 0 (Store.last_id t))
       (Forall_dec (fun w => 0 < Store.id w <= Store.last_id t) (Store.rows t))).

(** ** Further sample data *)
Module Scenario.
Import Store App Sample.

(** Collaborators that all succeed, and one whose PDF reader finds only
    white space. *)
Definition good : Env := env (Ok pdf) one_page (Ok good_reply).

Definition unreadable : Env :=
  env (Ok pdf) (Ok [Some (py "  "); None; Some [NEWLINE]]) (Ok good_reply).

Definition delete_first : Request :=
  {| method := POST; args := [];
     form := [(py "action", py "delete"); (py "delete_id", py "1")];
     files_ := [] |}.

Definition browse (category order : string) : Request :=
  {| method := GET;
     args := [(py "filter_main_category", py category); (py "sort_order", py order)];
     form := []; files_ := [] |}.

(** The row the sample reply makes. *)
Definition row (n : Z) (src : string) (path : option str) : whitepaper :=
  {| id := n; title := py "T"; source := py src;
     main_category := py "Retail"; industry := py "Energy";
     short_summary := py "s"; file_path := path;
     created_at := py "2024-05-01T10:00:00.000001" |}.

(** One uploaded file; the same file uploaded twice within a second. *)
Definition one_upload : state := serve [(good, upload_file)] initial.

Definition two_uploads : state :=
  serve [(good, upload_file); (good, upload_file)] initial.

End Scenario.

(** * Properties *)

Import Sample.

Module JsonFacts.
Import Json.

Lemma skip_ws_suffix (s : str) : skip_ws s `suffix_of` s.
Proof.
  induction s as [|c r IH]; simpl; [done|].
  destruct (is_ws c); [by apply suffix_cons_r | done].
Qed.

Lemma skip_ws_length (s : str) : (length (skip_ws s) <= length s)%nat.
Proof. apply suffix_length, skip_ws_suffix. Qed.

Lemma skip_ws_head (s : str) c r : skip_ws s = c :: r -> is_ws c = false.
Proof.
  induction s as [|x s IH]; simpl; [done|].
  destruct (is_ws x) eqn:E; [done|]. intros [= -> ->]. done.
Qed.

(** Every string the scanner accepts is closed by a quote it consumed. *)
Lemma scanstring_got (n : nat) :
  forall (s : str) left0 acc v r,
    (length s <= n)%nat ->
    scanstring left0 acc s = Got v r ->
    r `suffix_of` s /\ (length r < length s)%nat.
Proof.
  induction n as [|n IH]; intros s left0 acc v r Hn H.
  - destruct s; [done | simpl in Hn; lia].
  - destruct s as [|c s]; [done|]. simpl in Hn.
    assert (Hrec : forall s' acc', (length s' <= n)%nat ->
               scanstring left0 acc' s' = Got v r ->
               r `suffix_of` c :: s /\ (length r < length (c :: s))%nat ->
               r `suffix_of` c :: s /\ (length r < length (c :: s))%nat) by auto.
    assert (Hstep : forall s' acc', s' `suffix_of` s ->
               scanstring left0 acc' s' = Got v r ->
               r `suffix_of` c :: s /\ (length r < length (c :: s))%nat).
    { intros s' acc' Hs' H'. pose proof (suffix_length _ _ Hs') as Hl.
      destruct (IH s' left0 acc' v r ltac:(lia) H') as [Ha Hb].
      split; [apply suffix_cons_r; by etrans | simpl; lia]. }
    clear Hrec. simpl in H.
    destruct (c =? DQUOTE)%N.
    { injection H as <- <-. split; [by apply suffix_cons_r | simpl; lia]. }
    destruct (c =? BACKSLASH)%N.
    2:{ destruct (c <? 32)%N; [done|]. by eapply Hstep. }
    destruct s as [|e r1]; [done|].
    destruct (e =? 117)%N.
    2:{ destruct (unescape e); [|done].
        eapply Hstep; [|done]. by apply suffix_cons_r. }
    destruct r1 as [|h1 [|h2 [|h3 [|h4 r2]]]]; try done.
    assert (Hr2 : r2 `suffix_of` e :: h1 :: h2 :: h3 :: h4 :: r2)
      by (by do 5 apply suffix_cons_r).
    destruct (hex4 h1 h2 h3 h4) as [u|]; [|done].
    destruct (is_high_surrogate u); [|by eapply Hstep].
    destruct r2 as [|b [|u' [|l1 [|l2 [|l3 [|l4 r3]]]]]];
      try (by eapply Hstep).
    destruct ((b =? BACKSLASH) && (u' =? 117))%N; [|by eapply Hstep].
    destruct (hex4 l1 l2 l3 l4) as [u2|]; [|done].
    destruct (is_low_surrogate u2); [|by eapply Hstep].
    eapply Hstep; [|done]. by do 11 apply suffix_cons_r.
Qed.

Lemma scanstring_not_deep (n : nat) :
  forall (s : str) left0 acc, (length s <= n)%nat -> scanstring left0 acc s <> Deep.
Proof.
  induction n as [|n IH]; intros s left0 acc Hn.
  - destruct s; [done | simpl in Hn; lia].
  - destruct s as [|c s]; [done|]. simpl in Hn. simpl.
    destruct (c =? DQUOTE)%N; [done|].
    destruct (c =? BACKSLASH)%N.
    2:{ destruct (c <? 32)%N; [done|]. apply IH. lia. }
    destruct s as [|e r1]; [done|]. simpl in Hn.
    destruct (e =? 117)%N.
    2:{ destruct (unescape e); [|done]. apply IH. lia. }
    destruct r1 as [|h1 [|h2 [|h3 [|h4 r2]]]]; try done. simpl in Hn.
    destruct (hex4 h1 h2 h3 h4) as [u|]; [|done].
    destruct (is_high_surrogate u); [|apply IH; lia].
    destruct r2 as [|b [|u' [|l1 [|l2 [|l3 [|l4 r3]]]]]];
      try (apply IH; simpl; lia).
    simpl in Hn.
    destruct ((b =? BACKSLASH) && (u' =? 117))%N; [|apply IH; simpl; lia].
    destruct (hex4 l1 l2 l3 l4) as [u2|]; [|done].
    destruct (is_low_surrogate u2); apply IH; simpl; lia.
Qed.


Lemma span_digits_app (s : str) d r : span_digits s = (d, r) -> s = d ++ r.
Proof.
  revert d r. induction s as [|c s IH]; intros d r; simpl.
  - by intros [= <- <-].
  - destruct (is_digit c); [|by intros [= <- <-]].
    destruct (span_digits s) as [d' r'] eqn:E. intros [= <- <-].
    by rewrite (IH d' r').
Qed.

Lemma span_digits_suffix (s : str) d r : span_digits s = (d, r) -> r `suffix_of` s.
Proof. intros H. exists d. by apply span_digits_app. Qed.

Lemma match_integer_got (s : str) i r :
  match_integer s = Some (i, r) -> r `suffix_of` s /\ (length r < length s)%nat.
Proof.
  unfold match_integer.
  assert (Haux : forall s1 : str, forall sign, match s1 with
    | [] => None
    | c :: r0 => if (c =? 48)%N then Some (sign ++ [c], r0)
                 else if is_digit c
                      then let '(d, r') := span_digits s1 in Some (sign ++ d, r')
                      else None
    end = Some (i, r) -> r `suffix_of` s1 /\ (length r < length s1)%nat).
  { intros [|c s1] sign; [done|].
    destruct (c =? 48)%N.
    { intros [= <- <-]. split; [by apply suffix_cons_r | simpl; lia]. }
    destruct (is_digit c) eqn:Ed; [|done].
    simpl. rewrite Ed. destruct (span_digits s1) as [d r'] eqn:E.
    intros [= <- <-]. apply span_digits_suffix in E.
    split; [by apply suffix_cons_r|]. apply suffix_length in E. simpl; lia. }
  destruct s as [|c s]; [done|].
  destruct (c =? 45)%N.
  - intros H. apply Haux in H as [Ha Hb].
    split; [by apply suffix_cons_r | simpl; lia].
  - apply (Haux (c :: s) []).
Qed.

Lemma match_frac_suffix (s : str) f r : match_frac s = (f, r) -> r `suffix_of` s.
Proof.
  destruct s as [|c s]; simpl; [by intros [= <- <-]|].
  destruct (c =? 46)%N; [|by intros [= <- <-]].
  destruct (span_digits s) as [[|d0 d] r'] eqn:E; intros [= <- <-]; [done|].
  apply suffix_cons_r. by eapply span_digits_suffix.
Qed.

Lemma match_exp_suffix (s : str) e r : match_exp s = (e, r) -> r `suffix_of` s.
Proof.
  destruct s as [|c s]; simpl; [by intros [= <- <-]|].
  destruct ((c =? 101) || (c =? 69))%N; [|by intros [= <- <-]].
  destruct s as [|x s'].
  - simpl. by intros [= <- <-].
  - destruct ((x =? 43) || (x =? 45))%N.
    + destruct (span_digits s') as [[|d0 d] r'] eqn:E; intros [= <- <-]; [done|].
      do 2 apply suffix_cons_r. by eapply span_digits_suffix.
    + destruct (span_digits (x :: s')) as [[|d0 d] r'] eqn:E; intros [= <- <-]; [done|].
      apply suffix_cons_r. by eapply span_digits_suffix.
Qed.

Lemma match_number_got (s : str) v r :
  match_number s = Some (v, r) ->
  r `suffix_of` s /\ (length r < length s)%nat /\ ~ is_dict v.
Proof.
  unfold match_number.
  destruct (match_integer s) as [[i s1]|] eqn:Ei; [|done].
  destruct (match_frac s1) as [f s2] eqn:Ef.
  destruct (match_exp s2) as [e s3] eqn:Ee.
  apply match_integer_got in Ei as [Hi1 Hi2].
  apply match_frac_suffix in Ef. apply match_exp_suffix in Ee.
  assert (Hs : r = s3 -> r `suffix_of` s /\ (length r < length s)%nat).
  { intros ->. split; [by do 2 (etrans; [eassumption|])|].
    apply suffix_length in Ef, Ee. lia. }
  destruct f, e; intros [= <- <-]; (split; [by apply Hs | split; [by apply Hs | by intros []]]).
Qed.

Lemma after_word_app (w s : str) r : after_word w s = Some r -> s = w ++ r.
Proof.
  revert s. induction w as [|x w IH]; intros s; simpl.
  - by intros [= ->].
  - destruct s as [|y s]; [done|].
    destruct (x =? y)%N eqn:E; [|done]. apply N.eqb_eq in E as ->.
    intros H. by rewrite (IH _ H).
Qed.

Lemma after_word_got (w s : str) r :
  w <> [] -> after_word w s = Some r ->
  r `suffix_of` s /\ (length r < length s)%nat.
Proof.
  intros Hw H. apply after_word_app in H as ->. split; [by exists w|].
  rewrite length_app. destruct w; [done | simpl; lia].
Qed.

Lemma object_members_got scan (Hscan : consumes scan) (n : nat) :
  forall acc (s : str) v r,
    object_members scan n acc s = Got v r ->
    is_dict v /\ (length r < length s)%nat /\ exists p, s = p ++ RBRACE :: r.
Proof.
  induction n as [|n IH]; intros acc s v r H; [done|]. simpl in H.
  destruct (scanstring (S (length s)) [] s) as [key s1| |] eqn:Ek; try done.
  apply (scanstring_got (length s)) in Ek as [Hk1 Hk2]; [|done].
  destruct (skip_ws s1) as [|c s3] eqn:E2; [done|].
  pose proof (skip_ws_suffix s1) as H2. rewrite E2 in H2.
  destruct (c =? 58)%N; [|done].
  destruct (scan (skip_ws s3)) as [val s5| |] eqn:Ev; try done.
  apply Hscan in Ev as [Hv1 Hv2].
  pose proof (skip_ws_suffix s3) as H4.
  destruct (skip_ws s5) as [|d s7] eqn:E6; [done|].
  pose proof (skip_ws_suffix s5) as H6. rewrite E6 in H6.
  assert (Hd : d :: s7 `suffix_of` s).
  { etrans; [exact H6|]. etrans; [exact Hv1|]. etrans; [exact H4|].
    etrans; [|exact Hk1]. etrans; [|exact H2]. by apply suffix_cons_r. }
  pose proof (suffix_length _ _ Hd) as Hdl. simpl in Hdl.
  destruct (d =? RBRACE)%N eqn:Ed.
  { apply N.eqb_eq in Ed as ->. injection H as <- <-.
    split; [done|]. split; [lia|]. destruct Hd as [p ->]. by exists p. }
  destruct (d =? 44)%N; [|done].
  destruct (skip_ws s7) as [|q s9] eqn:E8; [done|].
  pose proof (skip_ws_suffix s7) as H8. rewrite E8 in H8.
  destruct (q =? DQUOTE)%N; [|done].
  apply IH in H as (Hdict & Hlen & p & Hp).
  assert (Hs9 : s9 `suffix_of` s).
  { etrans; [|exact Hd]. apply suffix_cons_r. etrans; [|exact H8]. by apply suffix_cons_r. }
  split; [done|]. pose proof (suffix_length _ _ Hs9). split; [lia|].
  destruct Hs9 as [p' ->]. exists (p' ++ p). by rewrite Hp, <- app_assoc.
Qed.

Lemma object_members_not_deep scan bound (Hscan : consumes scan)
    (Hfin : finishes scan bound) (n : nat) :
  forall acc (s : str),
    (length s < n)%nat -> (length s < bound)%nat ->
    object_members scan n acc s <> Deep.
Proof.
  induction n as [|n IH]; intros acc s Hn Hb; [lia|]. simpl.
  destruct (scanstring (S (length s)) [] s) as [key s1| |] eqn:Ek; try done.
  2:{ by apply (scanstring_not_deep (length s)) in Ek. }
  apply (scanstring_got (length s)) in Ek as [Hk1 Hk2]; [|done].
  destruct (skip_ws s1) as [|c s3] eqn:E2; [done|].
  pose proof (skip_ws_length s1) as H2. rewrite E2 in H2. simpl in H2.
  destruct (c =? 58)%N; [|done].
  pose proof (skip_ws_length s3) as H4.
  destruct (scan (skip_ws s3)) as [val s5| |] eqn:Ev; try done.
  2:{ apply Hfin in Ev; [done | lia]. }
  apply Hscan in Ev as [Hv1 Hv2].
  destruct (skip_ws s5) as [|d s7] eqn:E6; [done|].
  pose proof (skip_ws_length s5) as H6. rewrite E6 in H6. simpl in H6.
  destruct (d =? RBRACE)%N; [done|].
  destruct (d =? 44)%N; [|done].
  destruct (skip_ws s7) as [|q s9] eqn:E8; [done|].
  pose proof (skip_ws_length s7) as H8. rewrite E8 in H8. simpl in H8.
  destruct (q =? DQUOTE)%N; [|done].
  apply IH; lia.
Qed.

Lemma array_items_got scan (Hscan : consumes scan) (n : nat) :
  forall acc (s : str) v r,
    array_items scan n acc s = Got v r ->
    ~ is_dict v /\ r `suffix_of` s /\ (length r < length s)%nat.
Proof.
  induction n as [|n IH]; intros acc s v r H; [done|]. simpl in H.
  destruct (scan s) as [val s1| |] eqn:Ev; try done.
  apply Hscan in Ev as [Hv1 Hv2].
  destruct (skip_ws s1) as [|d s3] eqn:E2; [done|].
  pose proof (skip_ws_suffix s1) as H2. rewrite E2 in H2.
  assert (Hs3 : s3 `suffix_of` s).
  { etrans; [|exact Hv1]. etrans; [|exact H2]. by apply suffix_cons_r. }
  pose proof (suffix_length _ _ H2) as Hl. simpl in Hl.
  destruct (d =? 93)%N.
  { injection H as <- <-. split; [by intros []|]. split; [done | lia]. }
  destruct (d =? 44)%N; [|done].
  apply IH in H as (Hnd & Hsuf & Hlen).
  pose proof (skip_ws_suffix s3) as H4. pose proof (suffix_length _ _ H4).
  split; [done|]. split; [by do 2 (etrans; [eassumption|]) | lia].
Qed.

Lemma array_items_not_deep scan bound (Hscan : consumes scan)
    (Hfin : finishes scan bound) (n : nat) :
  forall acc (s : str),
    (length s < n)%nat -> (length s < bound)%nat ->
    array_items scan n acc s <> Deep.
Proof.
  induction n as [|n IH]; intros acc s Hn Hb; [lia|]. simpl.
  destruct (scan s) as [val s1| |] eqn:Ev; try done.
  2:{ by apply Hfin in Ev. }
  apply Hscan in Ev as [Hv1 Hv2].
  destruct (skip_ws s1) as [|d s3] eqn:E2; [done|].
  pose proof (skip_ws_length s1) as H2. rewrite E2 in H2. simpl in H2.
  destruct (d =? 93)%N; [done|].
  destruct (d =? 44)%N; [|done].
  pose proof (skip_ws_length s3). apply IH; lia.
Qed.


Lemma JSONObject_got scan (Hscan : consumes scan) n (s : str) v r :
  JSONObject scan n s = Got v r ->
  is_dict v /\ (length r < length s)%nat /\ exists p, s = p ++ RBRACE :: r.
Proof.
  unfold JSONObject. intros H.
  destruct (skip_ws s) as [|c s1] eqn:E; [done|].
  pose proof (skip_ws_suffix s) as Hs. rewrite E in Hs.
  pose proof (suffix_length _ _ Hs) as Hl. simpl in Hl.
  destruct (c =? RBRACE)%N eqn:Ec.
  { apply N.eqb_eq in Ec as ->. injection H as <- <-.
    split; [done|]. split; [lia|]. destruct Hs as [p ->]. by exists p. }
  destruct (c =? DQUOTE)%N; [|done].
  apply object_members_got in H as (Hd & Hlen & p & Hp); [|done].
  split; [done|]. split; [lia|].
  destruct Hs as [p' ->]. exists (p' ++ c :: p).
  by rewrite Hp, <- app_assoc.
Qed.

Lemma JSONObject_not_deep scan bound (Hscan : consumes scan)
    (Hfin : finishes scan bound) n (s : str) :
  (length s < n)%nat -> (length s < bound)%nat -> JSONObject scan n s <> Deep.
Proof.
  unfold JSONObject. intros Hn Hb.
  destruct (skip_ws s) as [|c s1] eqn:E; [done|].
  pose proof (skip_ws_length s) as Hl. rewrite E in Hl. simpl in Hl.
  destruct (c =? RBRACE)%N; [done|].
  destruct (c =? DQUOTE)%N; [|done].
  eapply object_members_not_deep; eauto; lia.
Qed.

Lemma JSONArray_got scan (Hscan : consumes scan) n (s : str) v r :
  JSONArray scan n s = Got v r ->
  ~ is_dict v /\ r `suffix_of` s /\ (length r <= length s)%nat
  /\ (s <> [] -> (length r < length s)%nat).
Proof.
  unfold JSONArray. intros H.
  pose proof (skip_ws_suffix s) as Hs.
  pose proof (suffix_length _ _ Hs) as Hl.
  destruct (skip_ws s) as [|c s1] eqn:E.
  - apply array_items_got in H as (? & ? & ?); [|done]. exfalso. simpl in *. lia.
  - destruct (c =? 93)%N.
    + injection H as <- <-. split; [by intros []|].
      split; [etrans; [|exact Hs]; by apply suffix_cons_r|]. simpl in Hl. lia.
    + apply array_items_got in H as (Hd & Hsuf & Hlen); [|done].
      split; [done|]. split; [by etrans|]. lia.
Qed.

Lemma JSONArray_not_deep scan bound (Hscan : consumes scan)
    (Hfin : finishes scan bound) n (s : str) :
  (length s < n)%nat -> (length s < bound)%nat -> JSONArray scan n s <> Deep.
Proof.
  unfold JSONArray. intros Hn Hb.
  pose proof (skip_ws_length s) as Hl.
  destruct (skip_ws s) as [|c s1] eqn:E.
  - eapply array_items_not_deep; eauto; simpl; lia.
  - destruct (c =? 93)%N; [done|].
    eapply array_items_not_deep; eauto; lia.
Qed.

#[local] Arguments after_word : simpl never.
#[local] Arguments match_number : simpl never.
#[local] Arguments scanstring : simpl never.

(** A value returned by [scan_once] was read from a non-empty prefix of
    the text, and an object from a prefix that opens and closes with a
    brace. *)
Lemma scan_once_got (f : nat) :
  forall (s : str) v r,
    scan_once f s = Got v r ->
    r `suffix_of` s /\ (length r < length s)%nat
    /\ (is_dict v -> exists p, s = LBRACE :: p ++ RBRACE :: r).
Proof.
  induction f as [|f IH]; intros s v r H; [done|].
  assert (Hcons : consumes (scan_once f)).
  { intros s' v' r' H'. apply IH in H' as (? & ? & _). done. }
  simpl in H. destruct s as [|c s]; [done|].
  destruct (c =? DQUOTE)%N.
  { destruct (scanstring (length (c :: s)) [] s) as [x r'| |] eqn:E; try done.
    injection H as <- <-.
    apply (scanstring_got (length s)) in E as [Ha Hb]; [|done].
    split; [by apply suffix_cons_r|]. split; [simpl; lia | by intros []]. }
  destruct (c =? LBRACE)%N eqn:Ec.
  { apply N.eqb_eq in Ec as ->.
    apply JSONObject_got in H as (Hd & Hlen & p & ->); [|done].
    split; [exists (LBRACE :: p ++ [RBRACE]); simpl; by rewrite <- app_assoc|].
    split; [simpl; lia|]. intros _. by exists p. }
  destruct (c =? 91)%N.
  { apply JSONArray_got in H as (Hd & Hsuf & Hlen & _); [|done].
    split; [by apply suffix_cons_r|]. split; [simpl; lia | done]. }
  assert (Hword : forall w r', after_word w (c :: s) = Some r' -> w <> [] ->
            forall v', Got v' r' = Got v r -> ~ is_dict v' ->
            r `suffix_of` c :: s /\ (length r < length (c :: s))%nat
            /\ (is_dict v -> exists p, c :: s = LBRACE :: p ++ RBRACE :: r)).
  { intros w r' Hr' Hw v' [= <- <-] Hv'.
    apply after_word_got in Hr' as [? ?]; done. }
  destruct (after_word (py "null") (c :: s)) eqn:E1;
    [by apply (Hword _ _ E1 ltac:(done) _ H); intros []|].
  destruct (after_word (py "true") (c :: s)) eqn:E2;
    [by apply (Hword _ _ E2 ltac:(done) _ H); intros []|].
  destruct (after_word (py "false") (c :: s)) eqn:E3;
    [by apply (Hword _ _ E3 ltac:(done) _ H); intros []|].
  destruct (match_number (c :: s)) as [[v' r']|] eqn:En.
  { injection H as <- <-. apply match_number_got in En as (? & ? & ?). done. }
  destruct (after_word (py "NaN") (c :: s)) eqn:E4;
    [by apply (Hword _ _ E4 ltac:(done) _ H); intros []|].
  destruct (after_word (py "Infinity") (c :: s)) eqn:E5;
    [by apply (Hword _ _ E5 ltac:(done) _ H); intros []|].
  destruct (after_word (py "-Infinity") (c :: s)) eqn:E6;
    [by apply (Hword _ _ E6 ltac:(done) _ H); intros []|].
  done.
Qed.

Lemma scan_once_consumes f : consumes (scan_once f).
Proof. intros s v r H. apply scan_once_got in H as (? & ? & _). done. Qed.

Lemma scan_once_not_deep (f : nat) : finishes (scan_once f) f.
Proof.
  induction f as [|f IH]; intros s Hs; [lia|].
  pose proof (scan_once_consumes f) as Hcons.
  simpl. destruct s as [|c s]; [done|]. simpl in Hs.
  destruct (c =? DQUOTE)%N.
  { destruct (scanstring (length (c :: s)) [] s) eqn:E; try done.
    by apply (scanstring_not_deep (length s)) in E. }
  destruct (c =? LBRACE)%N.
  { eapply JSONObject_not_deep; eauto; lia. }
  destruct (c =? 91)%N.
  { eapply JSONArray_not_deep; eauto; lia. }
  destruct (after_word (py "null") (c :: s)); [done|].
  destruct (after_word (py "true") (c :: s)); [done|].
  destruct (after_word (py "false") (c :: s)); [done|].
  destruct (match_number (c :: s)) as [[v' r']|]; [done|].
  destruct (after_word (py "NaN") (c :: s)); [done|].
  destruct (after_word (py "Infinity") (c :: s)); [done|].
  destruct (after_word (py "-Infinity") (c :: s)); done.
Qed.

(** [json.loads] always ends: the fuel it starts with is never used up. *)
Lemma loads_finishes (s : str) : loads s <> Unfinished.
Proof.
  unfold loads, decode. destruct (starts_with_bom s); [done|].
  assert (H : scan_once (S (length s)) (skip_ws s) <> Deep).
  { apply scan_once_not_deep. pose proof (skip_ws_length s). lia. }
  destruct (scan_once (S (length s)) (skip_ws s)) as [v r| |]; [|done|done].
  by destruct (skip_ws r).
Qed.


End JsonFacts.

Module PyFacts.

Lemma first_at_split c (s : str) i :
  first_at c s i <-> exists a b, s = a ++ c :: b /\ (c ∉ a) /\ length a = i.
Proof.
  split.
  - intros [Hi Hj]. exists (take i s), (drop (S i) s).
    pose proof (lookup_lt_Some _ _ _ Hi) as Hlt.
    split; [by rewrite <- (take_drop_middle s i c Hi) at 1|].
    split; [|rewrite length_take; lia].
    intros Hin. apply list_elem_of_lookup in Hin as [j Hj'].
    pose proof (lookup_lt_Some _ _ _ Hj') as Hjl. rewrite length_take in Hjl.
    rewrite lookup_take_lt in Hj' by lia. apply (Hj j); [lia | done].
  - intros (a & b & -> & Ha & <-). split.
    + by rewrite list_lookup_middle.
    + intros j Hj Hl. rewrite lookup_app_l in Hl by done.
      apply Ha. apply list_elem_of_lookup. eauto.
Qed.

Lemma last_at_split c (s : str) i :
  last_at c s i <-> exists a b, s = a ++ c :: b /\ (c ∉ b) /\ length a = i.
Proof.
  split.
  - intros [Hi Hj]. exists (take i s), (drop (S i) s).
    pose proof (lookup_lt_Some _ _ _ Hi) as Hlt.
    split; [by rewrite <- (take_drop_middle s i c Hi) at 1|].
    split; [|rewrite length_take; lia].
    intros Hin. apply list_elem_of_lookup in Hin as [j Hj'].
    rewrite lookup_drop in Hj'. apply (Hj (S i + j)%nat); [lia | done].
  - intros (a & b & -> & Hb & <-). split.
    + by rewrite list_lookup_middle.
    + intros j Hj Hl. rewrite lookup_app_r in Hl by lia.
      destruct (j - length a)%nat as [|k] eqn:E; [lia|]. simpl in Hl.
      apply Hb. apply list_elem_of_lookup. eauto.
Qed.

Lemma find_from_absent c (s : str) i : c ∉ s -> Py.find_from c s i = -1.
Proof.
  revert i. induction s as [|x s IH]; intros i Hc; simpl; [done|].
  apply not_elem_of_cons in Hc as [Hx Hs].
  destruct (x =? c)%N eqn:E; [apply N.eqb_eq in E; congruence|]. by apply IH.
Qed.

Lemma find_from_app c (a b : str) i :
  c ∉ a -> Py.find_from c (a ++ c :: b) i = i + Z.of_nat (length a).
Proof.
  revert i. induction a as [|x a IH]; intros i Hc; simpl.
  - rewrite N.eqb_refl. lia.
  - apply not_elem_of_cons in Hc as [Hx Hs].
    destruct (x =? c)%N eqn:E; [apply N.eqb_eq in E; congruence|].
    rewrite IH by done. lia.
Qed.

Lemma rfind_from_absent c (s : str) i : c ∉ s -> Py.rfind_from c s i = -1.
Proof.
  revert i. induction s as [|x s IH]; intros i Hc; simpl; [done|].
  apply not_elem_of_cons in Hc as [Hx Hs]. rewrite IH by done. simpl.
  destruct (x =? c)%N eqn:E; [apply N.eqb_eq in E; congruence|]. done.
Qed.

Lemma rfind_from_app c (a b : str) i :
  0 <= i -> c ∉ b -> Py.rfind_from c (a ++ c :: b) i = i + Z.of_nat (length a).
Proof.
  revert i. induction a as [|x a IH]; intros i Hi Hc; simpl.
  - rewrite rfind_from_absent by done. simpl. rewrite N.eqb_refl. lia.
  - rewrite IH by (done || lia).
    destruct (i + 1 + Z.of_nat (length a) =? -1) eqn:E; lia.
Qed.

Lemma elem_of_split_first c (s : str) :
  c ∈ s -> exists a b, s = a ++ c :: b /\ (c ∉ a).
Proof.
  induction s as [|x s IH]; intros H; [by apply elem_of_nil in H|].
  destruct (decide (x = c)) as [->|Hne].
  - exists [], s. split; [done | apply not_elem_of_nil].
  - apply elem_of_cons in H as [->|H]; [done|].
    destruct (IH H) as (a & b & -> & Ha). exists (x :: a), b.
    split; [done|]. apply not_elem_of_cons. split; [congruence | done].
Qed.

Lemma elem_of_split_last c (s : str) :
  c ∈ s -> exists a b, s = a ++ c :: b /\ (c ∉ b).
Proof.
  intros H. apply elem_of_reverse in H.
  destruct (elem_of_split_first _ _ H) as (a & b & Hs & Ha).
  exists (reverse b), (reverse a). split.
  - rewrite <- (reverse_involutive s), Hs, reverse_app, reverse_cons.
    by rewrite <- app_assoc.
  - by rewrite elem_of_reverse.
Qed.

(** [find] and [rfind] answer [-1] exactly on a text without the
    character, and the position of its first (last) occurrence
    otherwise. *)
Lemma find_spec (s : str) c :
  ((c ∉ s) /\ Py.find s c = -1)
  \/ (exists i, first_at c s i /\ Py.find s c = Z.of_nat i).
Proof.
  destruct (decide (c ∈ s)) as [Hin|Hout].
  - right. destruct (elem_of_split_first _ _ Hin) as (a & b & -> & Ha).
    exists (length a). split; [apply first_at_split; eauto|].
    unfold Py.find. rewrite find_from_app by done. lia.
  - left. split; [done|]. by apply find_from_absent.
Qed.

Lemma rfind_spec (s : str) c :
  ((c ∉ s) /\ Py.rfind s c = -1)
  \/ (exists i, last_at c s i /\ Py.rfind s c = Z.of_nat i).
Proof.
  destruct (decide (c ∈ s)) as [Hin|Hout].
  - right. destruct (elem_of_split_last _ _ Hin) as (a & b & -> & Hb).
    exists (length a). split; [apply last_at_split; eauto|].
    unfold Py.rfind. rewrite rfind_from_app by done. lia.
  - left. split; [done|]. by apply rfind_from_absent.
Qed.

Lemma first_at_unique c (s : str) i j : first_at c s i -> first_at c s j -> i = j.
Proof.
  intros [Hi Hi'] [Hj Hj'].
  destruct (lt_eq_lt_dec i j) as [[H|H]|H]; [|done|].
  - by destruct (Hj' i H). - by destruct (Hi' j H).
Qed.

Lemma last_at_unique c (s : str) i j : last_at c s i -> last_at c s j -> i = j.
Proof.
  intros [Hi Hi'] [Hj Hj'].
  destruct (lt_eq_lt_dec i j) as [[H|H]|H]; [|done|].
  - by destruct (Hi' j H). - by destruct (Hj' i H).
Qed.

Lemma first_at_elem c (s : str) i : first_at c s i -> c ∈ s.
Proof. intros [H _]. apply list_elem_of_lookup. eauto. Qed.

Lemma last_at_elem c (s : str) i : last_at c s i -> c ∈ s.
Proof. intros [H _]. apply list_elem_of_lookup. eauto. Qed.

(** Stripping *)
Lemma lstrip_app_nonspace (a b : str) c :
  Py.isspace c = false -> Py.lstrip (a ++ c :: b) = Py.lstrip a ++ c :: b.
Proof.
  intros Hc. induction a as [|x a IH]; simpl; [by rewrite Hc|].
  by destruct (Py.isspace x).
Qed.

Lemma lstrip_split (s : str) : exists a, s = a ++ Py.lstrip s /\ blank a.
Proof.
  induction s as [|x s IH]; simpl; [exists []; split; [done | constructor]|].
  destruct (Py.isspace x) eqn:E.
  - destruct IH as (a & Hs & Ha). exists (x :: a).
    split; [simpl; congruence | by constructor].
  - exists []. split; [done | constructor].
Qed.

Lemma rstrip_split (s : str) : exists b, s = Py.rstrip s ++ b /\ blank b.
Proof.
  unfold Py.rstrip. destruct (lstrip_split (rev s)) as (a & Hs & Ha).
  exists (rev a). split.
  - rewrite <- (rev_involutive s) at 1. rewrite Hs at 1. by rewrite rev_app_distr.
  - by apply List.Forall_rev.
Qed.

Lemma rstrip_app_nonspace (a b : str) c :
  Py.isspace c = false -> Py.rstrip (a ++ c :: b) = a ++ c :: Py.rstrip b.
Proof.
  intros Hc. unfold Py.rstrip.
  rewrite rev_app_distr. simpl. rewrite <- app_assoc. simpl.
  rewrite lstrip_app_nonspace by done.
  rewrite rev_app_distr. simpl. by rewrite rev_involutive, <- app_assoc.
Qed.

(** The stripped text sits in the original between two blank margins. *)
Lemma strip_split (s : str) :
  exists a b, s = a ++ Py.strip s ++ b /\ blank a /\ blank b.
Proof.
  unfold Py.strip. destruct (lstrip_split s) as (a & Hs & Ha).
  destruct (rstrip_split (Py.lstrip s)) as (b & Hs' & Hb).
  exists a, b. split; [|done]. by rewrite <- Hs', <- Hs.
Qed.

Lemma strip_framed (pre mid post : str) o c :
  Py.isspace o = false -> Py.isspace c = false ->
  Py.strip (pre ++ o :: mid ++ c :: post)
  = Py.lstrip pre ++ o :: mid ++ c :: Py.rstrip post.
Proof.
  intros Ho Hc. unfold Py.strip. rewrite lstrip_app_nonspace by done.
  replace (Py.lstrip pre ++ o :: mid ++ c :: post)
    with ((Py.lstrip pre ++ o :: mid) ++ c :: post)
    by (by rewrite <- app_assoc).
  rewrite rstrip_app_nonspace by done. by rewrite <- app_assoc.
Qed.

Lemma blank_not_elem (a : str) c : blank a -> Py.isspace c = false -> c ∉ a.
Proof.
  intros Ha Hc Hin. unfold blank in Ha. rewrite Forall_forall in Ha.
  apply Ha in Hin. congruence.
Qed.

Lemma lstrip_subset (s : str) c : c ∈ Py.lstrip s -> c ∈ s.
Proof.
  destruct (lstrip_split s) as (a & Hs & _). intros H. rewrite Hs.
  apply elem_of_app. by right.
Qed.

Lemma rstrip_subset (s : str) c : c ∈ Py.rstrip s -> c ∈ s.
Proof.
  destruct (rstrip_split s) as (a & Hs & _). intros H. rewrite Hs.
  apply elem_of_app. by left.
Qed.


Lemma lstrip_head (s : str) c r : Py.lstrip s = c :: r -> Py.isspace c = false.
Proof.
  induction s as [|x s IH]; simpl; [done|].
  destruct (Py.isspace x) eqn:E; [done|]. by intros [= <- _].
Qed.

Lemma rstrip_last (s : str) c r : Py.rstrip s = r ++ [c] -> Py.isspace c = false.
Proof.
  unfold Py.rstrip. intros H. apply (f_equal (@rev N)) in H.
  rewrite rev_involutive, rev_app_distr in H. simpl in H.
  by apply lstrip_head in H.
Qed.

(** What [strip] returns has no white space at either end. *)
Lemma strip_trimmed (s : str) : trimmed (Py.strip s).
Proof.
  unfold Py.strip. split.
  - intros c r H. destruct (Py.lstrip s) as [|x t] eqn:E; [done|].
    pose proof (lstrip_head _ _ _ E) as Hx.
    pose proof (rstrip_app_nonspace [] t x Hx) as Hr. simpl in Hr.
    rewrite Hr in H. by injection H as <- _.
  - intros c r H. by apply rstrip_last in H.
Qed.

Lemma slice_middle (a m b : str) :
  Py.slice (a ++ m ++ b) (Z.of_nat (length a)) (Z.of_nat (length a + length m)) = m.
Proof.
  unfold Py.slice. rewrite Nat2Z.id.
  replace (Z.to_nat (Z.of_nat (length a + length m) - Z.of_nat (length a)))
    with (length m) by lia.
  rewrite drop_app_length. by rewrite take_app_length.
Qed.

End PyFacts.

Module ClassifierFacts.
Import Json JsonFacts PyFacts Classifier.

Lemma json_str_framed (a mid b : str) :
  LBRACE ∉ a -> RBRACE ∉ b ->
  json_str (a ++ LBRACE :: mid ++ RBRACE :: b) = LBRACE :: mid ++ [RBRACE].
Proof.
  intros Ha Hb.
  assert (Hf : Py.find (a ++ LBRACE :: mid ++ RBRACE :: b) LBRACE
               = Z.of_nat (length a)).
  { unfold Py.find. rewrite find_from_app by done. lia. }
  assert (Hr : Py.rfind (a ++ LBRACE :: mid ++ RBRACE :: b) RBRACE
               = Z.of_nat (length a + S (length mid))).
  { unfold Py.rfind.
    replace (a ++ LBRACE :: mid ++ RBRACE :: b)
      with ((a ++ LBRACE :: mid) ++ RBRACE :: b) by (by rewrite <- app_assoc).
    rewrite rfind_from_app by done. rewrite length_app. simpl. lia. }
  unfold json_str. rewrite Hf, Hr.
  destruct (Z.eqb_spec (Z.of_nat (length a)) (-1)); [lia|].
  destruct (Z.eqb_spec (Z.of_nat (length a + S (length mid))) (-1)); [lia|].
  rewrite Z.gtb_ltb.
  destruct (Z.ltb_spec (Z.of_nat (length a))
              (Z.of_nat (length a + S (length mid)))); [|lia].
  simpl.
  replace (a ++ LBRACE :: mid ++ RBRACE :: b)
    with (a ++ (LBRACE :: mid ++ [RBRACE]) ++ b)
    by (simpl; by rewrite <- app_assoc).
  replace (Z.of_nat (length a + S (length mid)) + 1)
    with (Z.of_nat (length a + length (LBRACE :: mid ++ [RBRACE])))
    by (simpl; rewrite length_app; simpl; lia).
  apply slice_middle.
Qed.

Lemma json_str_whole (s : str) : LBRACE ∉ s \/ RBRACE ∉ s -> json_str s = s.
Proof.
  intros [H|H]; unfold json_str, Py.find, Py.rfind.
  - by rewrite find_from_absent.
  - rewrite (rfind_from_absent _ _ _ H). simpl. by rewrite andb_false_r.
Qed.

Lemma json_str_cases (s : str) :
  (exists i j, framed s i j /\ json_str s = take (S (j - i)) (drop i s))
  \/ ((~ exists i j, framed s i j) /\ json_str s = s).
Proof.
  destruct (find_spec s LBRACE) as [[Hout Hf]|(i & Hi & Hf)].
  { right. split; [|by apply json_str_whole; left].
    intros (i & j & Hi & _). by apply first_at_elem in Hi. }
  destruct (rfind_spec s RBRACE) as [[Hout Hr]|(j & Hj & Hr)].
  { right. split; [|by apply json_str_whole; right].
    intros (i' & j' & _ & Hj & _). by apply last_at_elem in Hj. }
  unfold json_str. rewrite Hf, Hr.
  destruct (Z.eqb_spec (Z.of_nat i) (-1)); [lia|].
  destruct (Z.eqb_spec (Z.of_nat j) (-1)); [lia|]. simpl.
  rewrite Z.gtb_ltb.
  destruct (Z.ltb_spec (Z.of_nat i) (Z.of_nat j)) as [E3|E3].
  - left. exists i, j. split; [split; [done | split; [done | lia]]|].
    unfold Py.slice. f_equal; [lia | f_equal; lia].
  - right. split; [|done]. intros (i' & j' & Hi' & Hj' & Hlt).
    rewrite (first_at_unique _ _ _ _ Hi Hi') in E3.
    rewrite (last_at_unique _ _ _ _ Hj Hj') in E3. lia.
Qed.

Lemma framed_split (s : str) i j :
  framed s i j ->
  exists pre mid post, s = pre ++ LBRACE :: mid ++ RBRACE :: post
    /\ (LBRACE ∉ pre) /\ (RBRACE ∉ post)
    /\ take (S (j - i)) (drop i s) = LBRACE :: mid ++ [RBRACE].
Proof.
  intros (Hi & Hj & Hlt).
  apply first_at_split in Hi as (a & b & Hs & Ha & Hla).
  apply last_at_split in Hj as (a' & b' & Hs' & Hb' & Hla').
  assert (Ha' : a' = a ++ LBRACE :: take (j - i - 1) b).
  { transitivity (take j s).
    - rewrite Hs'. by rewrite take_app_length'.
    - rewrite Hs. rewrite take_app_ge by lia. rewrite Hla.
      destruct (j - i)%nat as [|k] eqn:E; [lia|]. simpl.
      do 3 f_equal. lia. }
  set (mid := take (j - i - 1) b) in *.
  exists a, mid, b'. split; [|split; [done|split; [done|]]].
  - rewrite Hs' at 1. rewrite Ha'. by rewrite <- app_assoc.
  - rewrite Hs', Ha'. rewrite <- app_assoc. simpl.
    rewrite drop_app_length' by done.
    replace (S (j - i)) with (length (LBRACE :: mid ++ [RBRACE])).
    + replace (LBRACE :: mid ++ RBRACE :: b')
        with ((LBRACE :: mid ++ [RBRACE]) ++ b')
        by (simpl; by rewrite <- app_assoc).
      by rewrite take_app_length.
    + simpl. rewrite length_app. simpl.
      assert (length a' = (length a + S (length mid))%nat)
        by (rewrite Ha', length_app; done).
      lia.
Qed.

Lemma framed_widen (a s b : str) i j :
  blank a -> blank b -> framed s i j -> framed (a ++ s ++ b) (length a + i) (length a + j).
Proof.
  intros Ha Hb (Hi & Hj & Hlt).
  apply first_at_split in Hi as (x & y & -> & Hx & <-).
  apply last_at_split in Hj as (x' & y' & Hs' & Hy' & <-).
  split; [|split; [|lia]].
  - apply first_at_split. exists (a ++ x), (y ++ b).
    split; [by rewrite <- !app_assoc|]. split; [|by rewrite length_app].
    rewrite elem_of_app. intros [H|H]; [|done].
    by apply (blank_not_elem a LBRACE Ha).
  - apply last_at_split. exists (a ++ x'), (y' ++ b).
    split; [rewrite Hs'; by rewrite <- !app_assoc|].
    split; [|by rewrite length_app].
    rewrite elem_of_app. intros [H|H]; [done|].
    by apply (blank_not_elem b RBRACE Hb).
Qed.

(** The slice of the stripped reply, read off the raw reply. *)
Lemma json_str_strip_cases (reply : str) :
  (exists i j, framed reply i j
     /\ json_str (Py.strip reply) = take (S (j - i)) (drop i reply))
  \/ ((~ exists i j, framed reply i j)
      /\ json_str (Py.strip reply) = Py.strip reply).
Proof.
  assert (Ho : Py.isspace LBRACE = false) by reflexivity.
  assert (Hc : Py.isspace RBRACE = false) by reflexivity.
  destruct (json_str_cases reply) as [(i & j & H & _)|[Hno _]].
  - left. exists i, j. split; [done|].
    destruct (framed_split _ _ _ H) as (pre & mid & post & -> & Hpre & Hpost & ->).
    rewrite strip_framed by done. apply json_str_framed.
    + intros Hin. by apply lstrip_subset in Hin.
    + intros Hin. by apply rstrip_subset in Hin.
  - right. split; [done|].
    destruct (json_str_cases (Py.strip reply)) as [(i & j & H & _)|[_ ?]]; [|done].
    destruct (strip_split reply) as (a & b & Hs & Ha & Hb).
    destruct Hno. exists (length a + i)%nat, (length a + j)%nat.
    rewrite Hs at 1. by apply framed_widen.
Qed.


(** Extraction *)
Lemma get_strip_dict d k default :
  get_strip (JDict d) k default =
    match dict_lookup k d with
    | None => Ok (Py.strip default)
    | Some v => strip v
    end.
Proof. unfold get_strip, get, dict_get. simpl. by destruct (dict_lookup k d). Qed.

Lemma get_strip_ok d k default x :
  get_strip (JDict d) k default = Ok x ->
  text_or_absent d k /\ extracted d k (Py.strip default) x.
Proof.
  rewrite get_strip_dict. unfold text_or_absent, extracted.
  destruct (dict_lookup k d) as [v|].
  - destruct v; try done. simpl. intros [= <-]. split; [done|].
    split; [done|]. by intros s' [= <-].
  - intros [= <-]. done.
Qed.

Lemma get_strip_raises d k default :
  ~ text_or_absent d k ->
  exists v, dict_lookup k d = Some v /\ ~ is_text v
    /\ get_strip (JDict d) k default = Raise (no_attribute v (py "strip")).
Proof.
  rewrite get_strip_dict. unfold text_or_absent.
  destruct (dict_lookup k d) as [v|]; [|done].
  intros Hv. exists v. split; [done|]. split; [done|]. by destruct v.
Qed.

Lemma get_strip_total d k default :
  text_or_absent d k -> exists x, get_strip (JDict d) k default = Ok x.
Proof.
  rewrite get_strip_dict. unfold text_or_absent.
  destruct (dict_lookup k d) as [v|]; [|by eexists].
  destruct v; try done. by eexists.
Qed.

Lemma extract_fields_inv d r :
  extract_fields (JDict d) = Ok r ->
  get_strip (JDict d) (py "title") (py "Untitled") = Ok (title r)
  /\ get_strip (JDict d) (py "audience") (py "Nondescript") = Ok (audience r)
  /\ (exists i, get_strip (JDict d) (py "industry") (py "Other") = Ok i
                /\ industry r = coerce i INDUSTRIES (py "Other"))
  /\ get_strip (JDict d) (py "short_summary") [] = Ok (short_summary r)
  /\ get_strip (JDict d) (py "audience_rationale") [] = Ok (audience_rationale r)
  /\ main_category r = coerce (audience r) MAIN_CATEGORIES (py "Nondescript")
  /\ audience_confidence r = dict_get d (py "audience_confidence") (JInt 0).
Proof.
  unfold extract_fields.
  destruct (get_strip (JDict d) (py "title") (py "Untitled")) as [t|]; [|done].
  destruct (get_strip (JDict d) (py "audience") (py "Nondescript")) as [a|]; [|done].
  destruct (get_strip (JDict d) (py "industry") (py "Other")) as [i|]; [|done].
  destruct (get_strip (JDict d) (py "short_summary") []) as [s|]; [|done].
  cbn [rbind get].
  destruct (get_strip (JDict d) (py "audience_rationale") []) as [ra|]; [|done].
  cbn [rbind]. intros [= <-]. cbn. repeat split; eauto.
Qed.

Lemma extract_fields_total d :
  Forall (text_or_absent d) string_keys -> exists r, extract_fields (JDict d) = Ok r.
Proof.
  intros H. unfold string_keys in H.
  repeat (apply Forall_cons in H as [? H]).
  unfold extract_fields.
  destruct (get_strip_total d (py "title") (py "Untitled")) as [? ->]; [done|].
  destruct (get_strip_total d (py "audience") (py "Nondescript")) as [? ->]; [done|].
  destruct (get_strip_total d (py "industry") (py "Other")) as [? ->]; [done|].
  destruct (get_strip_total d (py "short_summary") []) as [? ->]; [done|].
  cbn [rbind get].
  destruct (get_strip_total d (py "audience_rationale") []) as [? ->]; [done|].
  cbn [rbind]. by eexists.
Qed.

Lemma extract_fields_raises d :
  ~ Forall (text_or_absent d) string_keys ->
  exists v, ~ is_text v /\ extract_fields (JDict d) = Raise (no_attribute v (py "strip")).
Proof.
  intros H. unfold extract_fields.
  destruct (text_or_absent_dec d (py "title")) as [H1|H1].
  2:{ destruct (get_strip_raises d _ (py "Untitled") H1) as (v & _ & Hv & ->). eauto. }
  destruct (get_strip_total d _ (py "Untitled") H1) as [? ->]. cbn [rbind].
  destruct (text_or_absent_dec d (py "audience")) as [H2|H2].
  2:{ destruct (get_strip_raises d _ (py "Nondescript") H2) as (v & _ & Hv & ->). eauto. }
  destruct (get_strip_total d _ (py "Nondescript") H2) as [? ->]. cbn [rbind].
  destruct (text_or_absent_dec d (py "industry")) as [H3|H3].
  2:{ destruct (get_strip_raises d _ (py "Other") H3) as (v & _ & Hv & ->). eauto. }
  destruct (get_strip_total d _ (py "Other") H3) as [? ->]. cbn [rbind].
  destruct (text_or_absent_dec d (py "short_summary")) as [H4|H4].
  2:{ destruct (get_strip_raises d _ [] H4) as (v & _ & Hv & ->). eauto. }
  destruct (get_strip_total d _ [] H4) as [? ->]. cbn [rbind get].
  destruct (text_or_absent_dec d (py "audience_rationale")) as [H5|H5].
  2:{ destruct (get_strip_raises d _ [] H5) as (v & _ & Hv & ->). eauto. }
  destruct H. unfold string_keys. repeat constructor; done.
Qed.


Lemma parse_reply_load (reply : str) :
  parse_reply reply = (try! data <- load_json (Py.strip reply); extract_fields data).
Proof. done. Qed.

Lemma parse_reply_inv (reply : str) r :
  parse_reply reply = Ok r ->
  exists d, loads (json_str (Py.strip reply)) = Loaded (JDict d)
            /\ extract_fields (JDict d) = Ok r.
Proof.
  unfold parse_reply, load_json.
  destruct (loads (json_str (Py.strip reply))) as [data| |]; [|done|done].
  cbn [rbind]. destruct data; try done. eauto.
Qed.

Lemma get_strip_trimmed data k default x :
  get_strip data k default = Ok x -> trimmed x.
Proof.
  unfold get_strip, get. destruct data; try done. simpl.
  destruct (dict_get d k (JStr default)); try done. simpl.
  intros [= <-]. apply strip_trimmed.
Qed.

Lemma coerce_trimmed x allowed fallback :
  trimmed x -> trimmed fallback -> trimmed (coerce x allowed fallback).
Proof. unfold coerce. by destruct (negb (str_in x allowed)). Qed.

Lemma coerce_allowed x allowed fallback :
  fallback ∈ allowed -> coerce x allowed fallback ∈ allowed.
Proof.
  unfold coerce, str_in. intros H. by case_bool_decide.
Qed.

End ClassifierFacts.

Module OrderFacts.
Import Store App.

Lemma compare_refl (a : str) : Py.compare a a = Eq.
Proof. induction a as [|x a IH]; simpl; [done|]. by rewrite N.compare_refl. Qed.

Lemma compare_eq (a b : str) : Py.compare a b = Eq -> a = b.
Proof.
  revert b. induction a as [|x a IH]; intros [|y b]; simpl; try done.
  destruct (x ?= y)%N eqn:E; try done.
  apply N.compare_eq in E as ->. intros H. by rewrite (IH b H).
Qed.

Lemma compare_antisym (a b : str) : Py.compare b a = CompOpp (Py.compare a b).
Proof.
  revert b. induction a as [|x a IH]; intros [|y b]; simpl; try done.
  rewrite (N.compare_antisym x y). destruct (x ?= y)%N; simpl; [apply IH|done|done].
Qed.

Lemma compare_lt_trans (a b c : str) :
  Py.compare a b = Lt -> Py.compare b c = Lt -> Py.compare a c = Lt.
Proof.
  revert b c. induction a as [|x a IH]; intros [|y b] [|z c]; simpl; try done.
  destruct (x ?= y)%N eqn:Exy; try done.
  - apply N.compare_eq in Exy as ->.
    destruct (y ?= z)%N; try done. apply IH.
  - intros _. destruct (y ?= z)%N eqn:Eyz; try done.
    + apply N.compare_eq in Eyz as <-. by rewrite Exy.
    + intros _. rewrite N.compare_lt_iff in *. 
      assert (Hlt : (x < z)%N) by lia.
      apply N.compare_lt_iff in Hlt. by rewrite Hlt.
Qed.

Lemma le_refl (a : str) : str_le a a.
Proof. unfold str_le, Py.le. by rewrite compare_refl. Qed.

Lemma le_total (a b : str) : str_le a b \/ str_le b a.
Proof.
  unfold str_le, Py.le. rewrite (compare_antisym a b).
  destruct (Py.compare a b); simpl; auto.
Qed.

Lemma le_antisym (a b : str) : str_le a b -> str_le b a -> a = b.
Proof.
  unfold str_le, Py.le. rewrite (compare_antisym a b).
  destruct (Py.compare a b) eqn:E; simpl; try done.
  intros _ _. by apply compare_eq.
Qed.

Lemma le_trans (a b c : str) : str_le a b -> str_le b c -> str_le a c.
Proof.
  unfold str_le, Py.le.
  destruct (Py.compare a b) eqn:Eab; try done; intros _.
  - by apply compare_eq in Eab as ->.
  - destruct (Py.compare b c) eqn:Ebc; try done; intros _.
    + apply compare_eq in Ebc as <-. by rewrite Eab.
    + by rewrite (compare_lt_trans a b c).
Qed.

Lemma not_le (a b : str) : Py.le a b = false -> str_le b a.
Proof. intros H. destruct (le_total a b) as [H'|H']; [congruence | done]. Qed.

End OrderFacts.

Module SortFacts.
Import Store App OrderFacts.

Section sorting.
Context {A : Type} (key : A -> str).

Lemma insert_sorted_perm (x : A) l : insert_sorted key x l ≡ₚ x :: l.
Proof.
  induction l as [|y l IH]; simpl; [done|].
  destruct (Py.le (key x) (key y)); [done|].
  rewrite IH. apply perm_swap.
Qed.

Lemma sort_stable_perm l : sort_stable key l ≡ₚ l.
Proof.
  induction l as [|x l IH]; simpl; [done|].
  by rewrite insert_sorted_perm, IH.
Qed.

Lemma insert_sorted_ascending (x : A) l :
  ascending key l -> ascending key (insert_sorted key x l).
Proof.
  unfold ascending. induction l as [|y l IH]; intros Hl; simpl.
  - repeat constructor.
  - apply StronglySorted_cons in Hl as [Hy Hl].
    destruct (Py.le (key x) (key y)) eqn:E.
    + apply StronglySorted_cons. split; [|by apply StronglySorted_cons].
      constructor; [done|]. eapply Forall_impl; [exact Hy|].
      intros z Hz. by apply (le_trans _ (key y)).
    + apply StronglySorted_cons. split; [|by apply IH].
      rewrite insert_sorted_perm. constructor; [by apply not_le | done].
Qed.

Lemma sort_stable_ascending l : ascending key (sort_stable key l).
Proof.
  induction l as [|x l IH]; simpl; [constructor|].
  by apply insert_sorted_ascending.
Qed.

Lemma rev_reverse {B : Type} (l : list B) : rev l = reverse l.
Proof. unfold reverse. apply rev_alt. Qed.

Lemma ascending_reverse l : ascending key l -> descending key (rev l).
Proof.
  rewrite rev_reverse.
  unfold ascending, descending. induction 1 as [|x l Hl IH Hx].
  - constructor.
  - rewrite reverse_cons. apply StronglySorted_app_2; [|exact IH|repeat constructor].
    intros y z Hy Hz. apply list_elem_of_singleton in Hz as ->.
    rewrite elem_of_reverse in Hy. rewrite Forall_forall in Hx. exact (Hx y Hy).
Qed.

Lemma sorted_newest_descending l : descending key (sorted l key true).
Proof. apply ascending_reverse, sort_stable_ascending. Qed.

Lemma sorted_oldest_ascending l : ascending key (sorted l key false).
Proof. apply sort_stable_ascending. Qed.

Lemma sorted_perm l reverse : sorted l key reverse ≡ₚ l.
Proof.
  destruct reverse; simpl; [|apply sort_stable_perm].
  by rewrite !rev_reverse, reverse_Permutation, sort_stable_perm, reverse_Permutation.
Qed.

(** The sort is stable: rows with one and the same key keep the order
    they had, in either direction. *)
Lemma insert_sorted_same_key (k : str) (x : A) l :
  List.filter (fun w => bool_decide (key w = k)) (insert_sorted key x l)
  = List.filter (fun w => bool_decide (key w = k)) (x :: l).
Proof.
  induction l as [|y l IH]; [done|]. cbn [insert_sorted].
  destruct (Py.le (key x) (key y)) eqn:E; [done|].
  cbn [List.filter] in *. rewrite IH.
  destruct (bool_decide (key x = k)) eqn:Ex, (bool_decide (key y = k)) eqn:Ey;
    try done.
  apply bool_decide_eq_true in Ex, Ey. rewrite Ex, Ey in E.
  pose proof (le_refl k) as Hk. unfold str_le in Hk. congruence.
Qed.

Lemma sort_stable_same_key (k : str) l :
  List.filter (fun w => bool_decide (key w = k)) (sort_stable key l)
  = List.filter (fun w => bool_decide (key w = k)) l.
Proof.
  induction l as [|x l IH]; [done|]. cbn [sort_stable].
  rewrite insert_sorted_same_key. cbn [List.filter]. by rewrite IH.
Qed.

Lemma filter_rev {B : Type} (p : B -> bool) (l : list B) :
  List.filter p (rev l) = rev (List.filter p l).
Proof.
  induction l as [|x l IH]; [done|]. simpl.
  rewrite List.filter_app, IH. simpl. destruct (p x); simpl; [done|].
  by rewrite app_nil_r.
Qed.

Lemma sorted_same_key (k : str) l reverse :
  List.filter (fun w => bool_decide (key w = k)) (sorted l key reverse)
  = List.filter (fun w => bool_decide (key w = k)) l.
Proof.
  destruct reverse; simpl; [|apply sort_stable_same_key].
  by rewrite filter_rev, sort_stable_same_key, filter_rev, rev_involutive.
Qed.

Lemma key_inj_on l x y :
  NoDup (key <$> l) -> x ∈ l -> y ∈ l -> key x = key y -> x = y.
Proof.
  induction l as [|z l IH]; intros Hnd Hx Hy Hk; [by apply elem_of_nil in Hx|].
  rewrite fmap_cons in Hnd. apply NoDup_cons in Hnd as [Hz Hnd].
  apply elem_of_cons in Hx as [->|Hx]; apply elem_of_cons in Hy as [->|Hy];
    [done| | |by apply IH].
  - destruct Hz. rewrite Hk. by apply list_elem_of_fmap_2.
  - destruct Hz. rewrite <- Hk. by apply list_elem_of_fmap_2.
Qed.

(** With pairwise distinct keys there is one ascending arrangement. *)
Lemma ascending_unique l l1 l2 :
  NoDup (key <$> l) -> l1 ≡ₚ l -> l2 ≡ₚ l ->
  ascending key l1 -> ascending key l2 -> l1 = l2.
Proof.
  intros Hnd H1 H2 Ha1 Ha2.
  eapply StronglySorted_unique_strong; [|exact Ha1|exact Ha2|by rewrite H1, H2].
  intros x y Hx Hy Hxy Hyx. apply (key_inj_on l); [done| | |by apply le_antisym].
  - by rewrite <- H1. - by rewrite <- H2.
Qed.

Lemma sorted_reversed_when_distinct l :
  NoDup (key <$> l) -> sorted l key true = rev (sorted l key false).
Proof.
  intros Hnd. simpl. f_equal.
  apply (ascending_unique l); try done.
  - by rewrite sort_stable_perm, rev_reverse, reverse_Permutation.
  - apply sort_stable_perm.
  - apply sort_stable_ascending.
  - apply sort_stable_ascending.
Qed.

End sorting.
End SortFacts.

Module AppFacts.
Import Store App ClassifierFacts.

#[local] Arguments py : simpl never.
#[local] Arguments Py.strip : simpl never.
#[local] Arguments Py.str_of_Z : simpl never.
#[local] Arguments Classifier.classify : simpl never.

(** Case analysis on a run of the upload branch: the guard, the source
    of the document, and the outcome of each collaborator in turn. *)
Ltac upload_leaves env rq :=
  unfold upload, upload_body;
  fold (api_key_of rq) (pdf_url_of rq) (pdf_file_of rq);
  let f := fresh "f" in
  destruct (Py.truthy (api_key_of rq)) eqn:Hkey; cbn [negb];
  [ destruct (pdf_file_of rq) as [f|] eqn:Hfile; cbn [file_truthy];
    [ destruct (Py.truthy (filename f)) eqn:Hname; cbn [negb andb];
      [ fold (staged_path env f)
      | destruct (Py.truthy (pdf_url_of rq)) eqn:Hurl; cbn [negb] ]
    | cbn [negb andb]; destruct (Py.truthy (pdf_url_of rq)) eqn:Hurl; cbn [negb] ]
  | ];
  cbv beta iota zeta delta [bind ret lift log on_disk save_and_read extract_text classify];
  cbn [disk_ calls db files];
  repeat match goal with
  | |- context [(match requests_get env ?u with Ok _ => _ | Raise _ => _ end)] =>
      destruct (requests_get env u) as [?pdf_bytes|?e] eqn:Hget
  | |- context [(match pdf_pages env ?b with Ok _ => _ | Raise _ => _ end)] =>
      destruct (pdf_pages env b) as [?pages|?e] eqn:Hpages;
      try fold (text_of pages)
  | |- context [negb (Py.truthy (Py.strip (text_of ?p)))] =>
      destruct (Py.truthy (Py.strip (text_of p))) eqn:Htext; cbn [negb]
  | |- context [(match Classifier.classify ?c ?k ?t with Ok _ => _ | Raise _ => _ end)] =>
      destruct (Classifier.classify c k t) as [?result|?e] eqn:Hclass
  end;
  cbn [disk_ calls db files].

(** Read a run off the equation that names its final state and outcome. *)
Ltac pair_eq :=
  let H := fresh "Heq" in
  intros H; apply pair_equal_spec in H as [<- H];
  first [ discriminate H | injection H as <- | subst | idtac ].

Lemma Nondescript_allowed : py "Nondescript" ∈ Classifier.MAIN_CATEGORIES.
Proof. apply list_elem_of_In. vm_compute. tauto. Qed.

Lemma Other_allowed : py "Other" ∈ Classifier.INDUSTRIES.
Proof. apply list_elem_of_In. vm_compute. tauto. Qed.

(** The classification that reaches the store has its two categories
    in the closed lists. *)
Lemma extract_fields_closed d r :
  Classifier.extract_fields (Json.JDict d) = Ok r ->
  Classifier.main_category r ∈ Classifier.MAIN_CATEGORIES
  /\ Classifier.industry r ∈ Classifier.INDUSTRIES.
Proof.
  intros H. apply extract_fields_inv in H
    as (_ & _ & (i & _ & Hi) & _ & _ & Hm & _).
  rewrite Hi, Hm. split; apply coerce_allowed;
    [apply Nondescript_allowed | apply Other_allowed].
Qed.

Lemma parse_reply_closed reply r :
  Classifier.parse_reply reply = Ok r ->
  Classifier.main_category r ∈ Classifier.MAIN_CATEGORIES
  /\ Classifier.industry r ∈ Classifier.INDUSTRIES.
Proof.
  intros H. apply parse_reply_inv in H as (d & _ & H).
  by eapply extract_fields_closed.
Qed.

Lemma classify_closed create api_key text r :
  Classifier.classify create api_key text = Ok r ->
  Classifier.main_category r ∈ Classifier.MAIN_CATEGORIES
  /\ Classifier.industry r ∈ Classifier.INDUSTRIES.
Proof.
  unfold Classifier.classify.
  destruct (create api_key (take (Z.to_nat 8000) text)) as [reply|]; [|done].
  apply parse_reply_closed.
Qed.

(** A failed upload leaves the table as it was. *)
Lemma upload_failed_table env rq s s' m :
  upload env rq s = (s', Message m) -> db (disk_ s') = db (disk_ s).
Proof. upload_leaves env rq; by pair_eq. Qed.

(** The file stage after an upload, whatever its outcome. *)
Lemma upload_files env rq s :
  files (disk_ (upload env rq s).1) =
    match pdf_file_of rq with
    | Some f =>
        if Py.truthy (api_key_of rq) && Py.truthy (filename f)
        then <[staged_path env f := stream f]> (files (disk_ s))
        else files (disk_ s)
    | None => files (disk_ s)
    end.
Proof.
  destruct (upload env rq s) as [s' o] eqn:H. revert H.
  upload_leaves env rq; pair_eq; cbn [fst disk_ files save_whitepaper];
    rewrite ?Hkey, ?Hname; cbn [andb]; try done.
  by destruct (pdf_file_of rq).
Qed.

(** A record is written only at the end of a run in which every
    earlier step succeeded. *)
Lemma upload_redirected env rq s s' :
  upload env rq s = (s', Redirected) ->
  exists file_path source pdf_bytes pages result,
    Py.truthy (api_key_of rq) = true
    /\ ((exists f, pdf_file_of rq = Some f /\ Py.truthy (filename f) = true
                   /\ file_path = Some (staged_path env f)
                   /\ source = py "File: " ++ filename f
                   /\ pdf_bytes = stream f)
        \/ (file_truthy (pdf_file_of rq) = false
            /\ Py.truthy (pdf_url_of rq) = true
            /\ file_path = None
            /\ source = py "URL: " ++ pdf_url_of rq
            /\ requests_get env (pdf_url_of rq) = Ok pdf_bytes))
    /\ pdf_pages env pdf_bytes = Ok pages
    /\ Py.truthy (Py.strip (text_of pages)) = true
    /\ Classifier.classify (chat_create env) (api_key_of rq) (text_of pages) = Ok result
    /\ db (disk_ s') =
         {| rows := rows (db (disk_ s)) ++
              [ {| id := last_id (db (disk_ s)) + 1;
                   title := Classifier.title result;
                   source := source;
                   main_category := Classifier.main_category result;
                   industry := Classifier.industry result;
                   short_summary := Classifier.short_summary result;
                   file_path := file_path;
                   created_at := utcnow_isoformat env |} ];
            last_id := last_id (db (disk_ s)) + 1 |}.
Proof.
  upload_leaves env rq; pair_eq.
  - do 5 eexists. split; [done|]. split; [left; eexists; by repeat split|].
    repeat split; try eassumption; try done.
  - do 5 eexists. split; [done|]. split.
    { right. repeat split; try done; eassumption. }
    repeat split; try eassumption; try done.
  - do 5 eexists. split; [done|]. split.
    { right. repeat split; try done; eassumption. }
    repeat split; try eassumption; try done.
Qed.

(** The rows after an upload: the old ones, and at most one new row
    whose categories are in the closed lists. *)
Lemma upload_rows env rq s s' o :
  upload env rq s = (s', o) ->
  rows (db (disk_ s')) = rows (db (disk_ s))
  \/ exists w, rows (db (disk_ s')) = rows (db (disk_ s)) ++ [w] /\ closed w.
Proof.
  destruct o as [|m].
  - intros H. apply upload_redirected in H
      as (fp & src & pb & pg & r & _ & _ & _ & _ & Hc & ->).
    right. eexists. split; [done|]. by apply classify_closed in Hc.
  - intros H. apply upload_failed_table in H. left. by rewrite H.
Qed.

(** The calls an upload adds to the log. *)
Lemma upload_rejected_no_key env rq s :
  Py.truthy (api_key_of rq) = false ->
  upload env rq s = (s, Message (py "OpenAI API key is required.")).
Proof. intros H. upload_leaves env rq; done. Qed.

Lemma upload_rejected_no_input env rq s :
  Py.truthy (api_key_of rq) = true ->
  file_truthy (pdf_file_of rq) = false -> Py.truthy (pdf_url_of rq) = false ->
  upload env rq s = (s, Message (py "Please upload a PDF file or provide a PDF URL.")).
Proof.
  intros H1 H2 H3. upload_leaves env rq; try done.
  all: cbn [file_truthy] in H2; congruence.
Qed.

Lemma upload_calls_file env rq s f :
  Py.truthy (api_key_of rq) = true ->
  pdf_file_of rq = Some f -> Py.truthy (filename f) = true ->
  exists more,
    calls (upload env rq s).1
      = calls s ++ FileSaved (staged_path env f) :: PdfOpened (stream f) :: more
    /\ forall u, HttpGet u ∉ more.
Proof.
  intros H1 H2 H3.
  destruct (upload env rq s) as [s' o] eqn:H. revert H.
  upload_leaves env rq; try congruence.
  all: injection H2 as ->; pair_eq; cbn [fst calls];
    eexists; (split; [by rewrite <- !app_assoc|]);
    intros u Hu; repeat (apply elem_of_cons in Hu as [Hu|Hu]; [done|]);
    by apply elem_of_nil in Hu.
Qed.

Lemma upload_calls_url env rq s :
  Py.truthy (api_key_of rq) = true ->
  file_truthy (pdf_file_of rq) = false -> Py.truthy (pdf_url_of rq) = true ->
  exists more,
    calls (upload env rq s).1 = calls s ++ HttpGet (pdf_url_of rq) :: more
    /\ forall p, FileSaved p ∉ more.
Proof.
  intros H1 H2 H3.
  destruct (upload env rq s) as [s' o] eqn:H. revert H.
  upload_leaves env rq; try congruence.
  all: try (cbn [file_truthy] in H2; congruence).
  all: pair_eq; cbn [fst calls];
    eexists; (split; [by rewrite <- ?app_assoc|]);
    intros u Hu; repeat (apply elem_of_cons in Hu as [Hu|Hu]; [done|]);
    by apply elem_of_nil in Hu.
Qed.

End AppFacts.

Module ViewFacts.
Import Store App AppFacts.

Lemma str_eq_true (a b : str) : str_eq a b = true <-> a = b.
Proof. unfold str_eq. apply bool_decide_eq_true. Qed.

Lemma truthy_false (a : str) : Py.truthy a = false <-> a = [].
Proof. by destruct a. Qed.

Lemma elem_of_filter_bool {B : Type} (p : B -> bool) (l : list B) x :
  x ∈ List.filter p l <-> x ∈ l /\ p x = true.
Proof. rewrite !list_elem_of_In. apply filter_In. Qed.

Lemma apply_filters_elem fm fi (l : list whitepaper) w :
  w ∈ apply_filters fm fi l
  <-> w ∈ l /\ (fm = [] \/ main_category w = fm) /\ (fi = [] \/ industry w = fi).
Proof.
  unfold apply_filters.
  destruct (Py.truthy fm) eqn:Em, (Py.truthy fi) eqn:Ei;
    rewrite ?elem_of_filter_bool, ?str_eq_true;
    try apply truthy_false in Em; try apply truthy_false in Ei; subst;
    intuition (subst; try done; auto).
Qed.

Lemma apply_filters_compose fm fi (l : list whitepaper) :
  apply_filters fm fi l = apply_filters [] fi (apply_filters fm [] l).
Proof. unfold apply_filters. simpl. by destruct (Py.truthy fm), (Py.truthy fi). Qed.

Lemma listing_elem fm fi so d w :
  w ∈ listing fm fi so d <-> w ∈ apply_filters fm fi (load_whitepapers d).
Proof. unfold listing. by rewrite SortFacts.sorted_perm. Qed.


Lemma filter_all {B : Type} (p : B -> bool) (l : list B) :
  (forall x, x ∈ l -> p x = true) -> List.filter p l = l.
Proof.
  induction l as [|x l IH]; intros H; simpl; [done|].
  rewrite (H x) by left. f_equal. apply IH. intros y Hy. apply H. by right.
Qed.

Lemma find_none_absent wp_id (l : list whitepaper) :
  (forall w, w ∈ l -> id w <> wp_id) -> List.find (fun r => id r =? wp_id) l = None.
Proof.
  induction l as [|x l IH]; intros H; simpl; [done|].
  destruct (Z.eqb_spec (id x) wp_id) as [E|E].
  - destruct (H x); [left | done].
  - apply IH. intros y Hy. apply H. by right.
Qed.


Lemma index_get env rq s :
  method rq = GET -> index env rq s = (s, page rq (disk_ s) None false).
Proof. unfold index. by intros ->. Qed.

Lemma index_upload env rq s :
  is_upload rq ->
  index env rq s =
    match upload env rq s with
    | (s', Redirected) => (s', Redirect None None None)
    | (s', Message m) => (s', page rq (disk_ s') (Some m) true)
    end.
Proof.
  intros [Hm Ha]. unfold index. rewrite Hm.
  destruct (str_eq (get (form rq) (py "action") (py "upload")) (py "delete")) eqn:E.
  - by apply str_eq_true in E.
  - done.
Qed.

Lemma index_delete env rq s :
  is_delete rq ->
  index env rq s =
    match builtin_int env (get (form rq) (py "delete_id") (py "0")) with
    | Ok delete_id =>
        ({| disk_ := delete_whitepaper (remove_fails env) delete_id (disk_ s);
            calls := calls s |},
         Redirect (Some (filter_main_category_of rq)) (Some (filter_industry_of rq))
           (Some (sort_order_of rq)))
    | Raise e =>
        (s, page rq (disk_ s) (Some (py "Error deleting whitepaper: " ++ str_of_exn e)) true)
    end.
Proof.
  intros [Hm Ha]. unfold index. rewrite Hm, Ha.
  replace (str_eq (py "delete") (py "delete")) with true by done. done.
Qed.

Lemma request_kind (rq : Request) : method rq = GET \/ is_delete rq \/ is_upload rq.
Proof.
  unfold is_delete, is_upload. destruct (method rq); [by left|].
  destruct (decide (get (form rq) (py "action") (py "upload") = py "delete")); auto.
Qed.

(** Every row present after a request was there before it or has its
    categories in the closed lists. *)
Lemma index_rows env rq s w :
  w ∈ rows (db (disk_ (index env rq s).1)) ->
  w ∈ rows (db (disk_ s)) \/ closed w.
Proof.
  destruct (request_kind rq) as [H|[H|H]].
  - rewrite index_get by done. by left.
  - rewrite index_delete by done.
    destruct (builtin_int env _); simpl; [|by left].
    rewrite elem_of_filter_bool. intros [? _]. by left.
  - rewrite index_upload by done.
    destruct (upload env rq s) as [s' o] eqn:E.
    apply upload_rows in E as [E|(w' & E & Hw)].
    + destruct o; simpl; rewrite E; by left.
    + destruct o; simpl; rewrite E, elem_of_app, list_elem_of_singleton;
        (intros [?| ->]; [by left | by right]).
Qed.

Lemma index_closed env rq s :
  Forall closed (rows (db (disk_ s))) ->
  Forall closed (rows (db (disk_ (index env rq s).1))).
Proof.
  rewrite !Forall_forall. intros H w Hw.
  apply index_rows in Hw as [Hw|Hw]; auto.
Qed.

Lemma serve_closed trace s :
  Forall closed (rows (db (disk_ s))) ->
  Forall closed (rows (db (disk_ (serve trace s)))).
Proof.
  revert s. induction trace as [|[env rq] trace IH]; intros s H; simpl; [done|].
  by apply IH, index_closed.
Qed.

End ViewFacts.

(** Closed decidable facts, by evaluation. *)
Ltac by_decide :=
  match goal with
  | |- ~ ?P => apply (bool_decide_eq_false_1 P); vm_compute; reflexivity
  | |- ?P => apply (bool_decide_unpack P); vm_compute; exact I
  end.

(** ** The model on known inputs

    Values and messages that CPython's [json.loads], [str.strip],
    [str.find] and [str.rfind] give on the same inputs. *)

Module Conformance.
Import Json.

Example strip_margins : Py.strip (py "  {a}  ") = py "{a}".
Proof. reflexivity. Qed.

Example strip_unicode_space :
  Py.strip [28; 32; 97; 32; 133; 160; 12288; 98; 32; 31]%N
  = [97; 32; 133; 160; 12288; 98]%N.
Proof. reflexivity. Qed.

Example strip_keeps_zero_width : Py.strip [8203; 32; 97]%N = [8203; 32; 97]%N.
Proof. reflexivity. Qed.

Example find_rfind :
  Py.find (py "ab{c}d}") LBRACE = 2 /\ Py.rfind (py "ab{c}d}") RBRACE = 6
  /\ Py.find (py "abc") LBRACE = -1 /\ Py.rfind (py "abc") RBRACE = -1.
Proof. repeat split; reflexivity. Qed.

Example str_of_Z_decimal : Py.str_of_Z 1700000000 = py "1700000000".
Proof. vm_compute. reflexivity. Qed.

Example loads_nested :
  loads (pyq "{'a' : {'b': [1, {'c': '\u00e9\n'}]}} ")
  = Loaded (JDict [(py "a", JDict [(py "b",
      JList [JInt 1; JDict [(py "c", JStr [233; 10]%N)]])])]).
Proof. vm_compute. reflexivity. Qed.

Example loads_scalars :
  loads (py "[1, -0, 2.5e3, null, true, false, NaN, -Infinity]")
  = Loaded (JList [JInt 1; JInt 0; JFloat (py "2.5e3"); JNull; JBool true;
                   JBool false; JFloat (py "NaN"); JFloat (py "-Infinity")]).
Proof. vm_compute. reflexivity. Qed.

Example loads_duplicate_key :
  loads (pyq "{'k': 1, 'j': 2, 'k': 3}")
  = Loaded (JDict [(py "k", JInt 3); (py "j", JInt 2)]).
Proof. vm_compute. reflexivity. Qed.

Example loads_surrogate_pair :
  loads (pyq "'\ud83d\ude00'") = Loaded (JStr [128512%N])
  /\ loads (pyq "'\ud83dA'") = Loaded (JStr [55357; 65]%N).
Proof. split; vm_compute; reflexivity. Qed.

Example loads_bare_number : loads (py "42") = Loaded (JInt 42).
Proof. vm_compute. reflexivity. Qed.

Example error_not_json :
  error_text (py "not json at all")
  = Some (py "Expecting value: line 1 column 1 (char 0)").
Proof. vm_compute. reflexivity. Qed.

Example error_trailing_comma :
  error_text (pyq "{'a':1,}")
  = Some (py "Expecting property name enclosed in double quotes: line 1 column 8 (char 7)").
Proof. vm_compute. reflexivity. Qed.

Example error_missing_colon :
  error_text (pyq "{'a' 1}") = Some (py "Expecting ':' delimiter: line 1 column 6 (char 5)").
Proof. vm_compute. reflexivity. Qed.

Example error_open_array :
  error_text (py "[1, 2") = Some (py "Expecting ',' delimiter: line 1 column 6 (char 5)").
Proof. vm_compute. reflexivity. Qed.

Example error_open_string :
  error_text (pyq "'abc")
  = Some (py "Unterminated string starting at: line 1 column 1 (char 0)").
Proof. vm_compute. reflexivity. Qed.

Example error_bad_escape :
  error_text (pyq "'a\qb'") = Some (py "Invalid \escape: line 1 column 3 (char 2)").
Proof. vm_compute. reflexivity. Qed.

Example error_bad_unicode_escape :
  error_text (pyq "'a\u12g4'")
  = Some (py "Invalid \uXXXX escape: line 1 column 4 (char 3)").
Proof. vm_compute. reflexivity. Qed.

Example error_extra_data :
  error_text (pyq "{'k': 'v'} trailing")
  = Some (py "Extra data: line 1 column 12 (char 11)").
Proof. vm_compute. reflexivity. Qed.

Example error_leading_zero :
  error_text (py "01") = Some (py "Extra data: line 1 column 2 (char 1)").
Proof. vm_compute. reflexivity. Qed.

Example error_on_second_line :
  error_text (LBRACE :: NEWLINE :: pyq "'a': x}")
  = Some (py "Expecting value: line 2 column 6 (char 7)").
Proof. vm_compute. reflexivity. Qed.

Example error_control_character :
  error_text (DQUOTE :: 97%N :: NEWLINE :: 98%N :: [DQUOTE])
  = Some (py "Invalid control character at: line 1 column 3 (char 2)").
Proof. vm_compute. reflexivity. Qed.

(** The scenario of an uploaded file classified as Retail / Energy. *)
Example upload_scenario :
  let good := env (Ok pdf) one_page (Ok good_reply) in
  (App.upload good upload_file initial).2 = App.Redirected
  /\ Store.rows (Store.db (App.disk_ (App.upload good upload_file initial).1))
     = [ {| Store.id := 1; Store.title := py "T"; Store.source := py "File: a.pdf";
            Store.main_category := py "Retail"; Store.industry := py "Energy";
            Store.short_summary := py "s"; Store.file_path := Some staged;
            Store.created_at := py "2024-05-01T10:00:00.000001" |} ].
Proof. split; vm_compute; reflexivity. Qed.

(** The scenario of a URL that answers with an error status. *)
Example fetch_failure_scenario :
  let down := env (Raise (External (py "404 Client Error"))) one_page (Ok good_reply) in
  App.upload down upload_url initial
  = ({| App.disk_ := App.disk_ initial;
        App.calls := [App.HttpGet (py "http://x.test/b.pdf")] |},
     App.Message (py "Error: 404 Client Error")).
Proof. vm_compute. reflexivity. Qed.

(** The scenario of a PDF without a text layer: no model call. *)
Example empty_text_scenario :
  let blank_pdf := env (Ok pdf) (Ok [None; Some (py "  ")]) (Ok good_reply) in
  (App.upload blank_pdf upload_url initial).2
  = App.Message (py "Could not extract any text from the PDF.")
  /\ App.calls (App.upload blank_pdf upload_url initial).1
     = [App.HttpGet (py "http://x.test/b.pdf"); App.PdfOpened pdf].
Proof. split; vm_compute; reflexivity. Qed.

End Conformance.

Section classifier_claims.
Import Json Classifier PyFacts JsonFacts ClassifierFacts.

(** C1.  Whenever the reply's slice parses as an object and [classify]
    returns, the result's [main_category] is one of the three main
    categories and its [industry] one of the listed industries; a
    trimmed audience outside the three becomes [Nondescript], a trimmed
    industry outside the list becomes [Other].  Every row a request
    adds to the table has both fields in these lists, and so has every
    row of a table built from the empty one by any run of requests. *)
Theorem closed_categories :
  (forall (reply : str) d r,
      loads (json_str (Py.strip reply)) = Loaded (JDict d) ->
      parse_reply reply = Ok r ->
      main_category r ∈ MAIN_CATEGORIES
      /\ industry r ∈ INDUSTRIES
      /\ (forall a, dict_lookup (py "audience") d = Some (JStr a) ->
            Py.strip a ∉ MAIN_CATEGORIES -> main_category r = py "Nondescript")
      /\ (forall i, dict_lookup (py "industry") d = Some (JStr i) ->
            Py.strip i ∉ INDUSTRIES -> industry r = py "Other"))
  /\ (forall env rq s w,
        w ∈ Store.rows (Store.db (App.disk_ (App.index env rq s).1)) ->
        w ∈ Store.rows (Store.db (App.disk_ s)) \/ closed w)
  /\ (forall trace,
        Forall closed (Store.rows (Store.db (App.disk_ (serve trace initial))))).
Proof.
  split; [|split].
  - intros reply d r Hl Hr.
    destruct (parse_reply_inv _ _ Hr) as (d' & Hl' & He).
    rewrite Hl in Hl'. injection Hl' as <-.
    destruct (AppFacts.extract_fields_closed _ _ He) as [Hm Hi].
    apply extract_fields_inv in He
      as (_ & Ha & (i & Hgi & Hri) & _ & _ & Hrm & _).
    apply get_strip_ok in Ha as [_ [_ Ha]].
    apply get_strip_ok in Hgi as [_ [_ Hgi]].
    split; [done|]. split; [done|]. split.
    + intros a Hda Hout. rewrite Hrm, (Ha a Hda). unfold coerce, str_in.
      by rewrite bool_decide_eq_false_2.
    + intros i' Hdi Hout. rewrite Hri, (Hgi i' Hdi). unfold coerce, str_in.
      by rewrite bool_decide_eq_false_2.
  - intros env rq s w. apply ViewFacts.index_rows.
  - intros trace. apply ViewFacts.serve_closed. constructor.
Qed.

Lemma closed_categories_witness :
  (exists r,
      parse_reply (pyq "{'audience':' Experts ','industry':'Crypto'}") = Ok r
      /\ main_category r = py "Nondescript" /\ industry r = py "Other")
  /\ (forall w,
        w ∈ Store.rows (Store.db (App.disk_
              (App.index (env (Ok pdf) one_page (Ok good_reply)) upload_file initial).1)) ->
        w ∈ [] \/ closed w).
Proof.
  destruct closed_categories as (Hreply & Hindex & _). split.
  - eexists. split; [vm_compute; reflexivity|].
    edestruct (Hreply (pyq "{'audience':' Experts ','industry':'Crypto'}"))
      as (_ & _ & Ha & Hi); [vm_compute; reflexivity..|].
    split.
    + apply (Ha (py " Experts ")); [vm_compute; reflexivity | by_decide].
    + apply (Hi (py "Crypto")); [vm_compute; reflexivity | by_decide].
  - intros w. apply (Hindex _ upload_file initial w).
Defined.

(** C2.  The text handed to [json.loads] is fixed by the first opening
    brace and the last closing brace of the reply: when both exist and
    the last closing brace comes after the first opening brace, it is
    the span from the one through the other; otherwise it is the whole
    stripped reply. *)
Theorem slice_handed_to_parser (reply : str) :
  exists piece : str,
    parse_reply reply =
      (try! data <- match loads piece with
                    | Loaded data => Ok data
                    | DecodeError e => Raise (format_error (Py.strip reply) e)
                    | Unfinished => Raise RecursionError
                    end;
       extract_fields data)
    /\ loads piece <> Unfinished
    /\ ((exists i j, first_at LBRACE reply i /\ last_at RBRACE reply j /\ (i < j)%nat
                     /\ piece = take (S (j - i)) (drop i reply))
        \/ ((~ exists i j, first_at LBRACE reply i /\ last_at RBRACE reply j /\ (i < j)%nat)
            /\ piece = Py.strip reply)).
Proof.
  exists (json_str (Py.strip reply)). split; [done|].
  split; [apply loads_finishes|].
  destruct (json_str_strip_cases reply) as [(i & j & (Hi & Hj & Hlt) & Hs)|[Hno Hs]].
  - left. by exists i, j.
  - right. split; [|done]. intros (i & j & H). apply Hno. by exists i, j.
Qed.





(** C7.  When the reply's slice parses as an object, [classify] returns
    exactly when each of the five text keys is absent or bound to a
    string, and then: an absent [title] gives [Untitled], an absent
    [audience] gives [Nondescript], an absent [industry] gives [Other],
    an absent [short_summary] or [audience_rationale] gives the empty
    string, an absent [audience_confidence] gives [0]; a text that is
    present is returned trimmed (the industry trimmed, then kept if it
    is in the list and replaced by [Other] if not). *)
Theorem defaults_and_trimming (reply : str) (d : list (str * json)) :
  loads (json_str (Py.strip reply)) = Loaded (JDict d) ->
  (Forall (text_or_absent d) string_keys <-> exists r, parse_reply reply = Ok r)
  /\ forall r, parse_reply reply = Ok r ->
       extracted d (py "title") (py "Untitled") (title r)
       /\ extracted d (py "audience") (py "Nondescript") (audience r)
       /\ (dict_lookup (py "industry") d = None -> industry r = py "Other")
       /\ (forall i, dict_lookup (py "industry") d = Some (JStr i) ->
             industry r = if bool_decide (Py.strip i ∈ INDUSTRIES)
                          then Py.strip i else py "Other")
       /\ extracted d (py "short_summary") [] (short_summary r)
       /\ (dict_lookup (py "audience_confidence") d = None ->
             audience_confidence r = JInt 0)
       /\ (forall v, dict_lookup (py "audience_confidence") d = Some v ->
             audience_confidence r = v)
       /\ extracted d (py "audience_rationale") [] (audience_rationale r)
       /\ Forall trimmed [ title r; audience r; main_category r; industry r;
                           short_summary r; audience_rationale r ].
Proof.
  intros Hl.
  assert (Hp : parse_reply reply = extract_fields (JDict d)).
  { unfold parse_reply, load_json. by rewrite Hl. }
  rewrite Hp. split.
  - split; [apply extract_fields_total|].
    intros [r Hr]. destruct (decide (Forall (text_or_absent d) string_keys)) as [|Hn];
      [done|].
    apply extract_fields_raises in Hn as (v & _ & Hv). congruence.
  - intros r Hr. apply extract_fields_inv in Hr
      as (Ht & Ha & (i & Hi & Hri) & Hs & Hra & Hm & Hc).
    assert (Htrim : Forall trimmed [ title r; audience r; main_category r;
                       industry r; short_summary r; audience_rationale r ]).
    { assert (Hother : trimmed (py "Other"))
        by (change (trimmed (Py.strip (py "Other"))); apply strip_trimmed).
      assert (Hnon : trimmed (py "Nondescript"))
        by (change (trimmed (Py.strip (py "Nondescript"))); apply strip_trimmed).
      apply get_strip_trimmed in Ht as Ht', Ha as Ha', Hi as Hi', Hs as Hs',
        Hra as Hra'.
      rewrite Hm, Hri.
      repeat (apply Forall_cons_2); try apply Forall_nil_2; try done;
        by apply coerce_trimmed. }
    apply get_strip_ok in Ht as [_ Ht], Ha as [_ Ha], Hi as [_ [Hi0 Hi1]],
      Hs as [_ Hs], Hra as [_ Hra].
    split; [done|]. split; [done|]. split.
    { intros Hnone. rewrite Hri, (Hi0 Hnone). done. }
    split.
    { intros i' Hsome. rewrite Hri, (Hi1 i' Hsome). unfold coerce, str_in.
      by destruct (bool_decide (Py.strip i' ∈ INDUSTRIES)). }
    split; [done|]. split.
    { intros Hnone. rewrite Hc. unfold dict_get. by rewrite Hnone. }
    split; [|done].
    intros v Hsome. rewrite Hc. unfold dict_get. by rewrite Hsome.
Qed.

Lemma defaults_and_trimming_witness :
  exists r,
    parse_reply (pyq "Result: {'title':'  Bond basics ','industry':' Energy '} done") = Ok r
    /\ title r = py "Bond basics"
    /\ audience r = py "Nondescript"
    /\ industry r = py "Energy"
    /\ short_summary r = []
    /\ audience_confidence r = JInt 0
    /\ audience_rationale r = [].
Proof.
  pose proof (defaults_and_trimming
    (pyq "Result: {'title':'  Bond basics ','industry':' Energy '} done")
    [(py "title", JStr (py "  Bond basics ")); (py "industry", JStr (py " Energy "))])
    as H.
  destruct H as [[Hr _] Hall]; [vm_compute; reflexivity|].
  destruct Hr as [r Hr].
  { unfold string_keys. repeat constructor. }
  exists r. split; [exact Hr|].
  destruct (Hall r Hr)
    as ((_ & Ht) & (Ha & _) & _ & Hi & (Hs & _) & Hc & _ & (Hra & _) & _).
  split; [apply (Ht (py "  Bond basics ")); reflexivity|].
  split; [apply Ha; reflexivity|].
  split; [apply (Hi (py " Energy ")); reflexivity|].
  split; [apply Hs; reflexivity|].
  split; [apply Hc; reflexivity|].
  apply Hra; reflexivity.
Defined.



End classifier_claims.

Section pipeline_claims.
Import Store App AppFacts ViewFacts.

(** C4, as the program has it.  An ingestion that fails leaves the
    table as it was, whatever the step that failed; it leaves the file
    stage as it was when no file was uploaded, whereas the copy of an
    uploaded file, staged before the later steps run, is still in the
    file stage.  A record is written only when the key was given, the
    document was staged or fetched, its text was extracted and not
    blank, and the classifier returned. *)
Theorem failed_ingestion (env : Env) (rq : Request) (s : state) :
  (forall s' m, upload env rq s = (s', Message m) ->
      db (disk_ s') = db (disk_ s)
      /\ files (disk_ s') =
           match pdf_file_of rq with
           | Some f =>
               if Py.truthy (api_key_of rq) && Py.truthy (filename f)
               then <[staged_path env f := stream f]> (files (disk_ s))
               else files (disk_ s)
           | None => files (disk_ s)
           end)
  /\ (forall s', upload env rq s = (s', Redirected) ->
        exists file_path source pdf_bytes pages result,
          Py.truthy (api_key_of rq) = true
          /\ ((exists f, pdf_file_of rq = Some f /\ Py.truthy (filename f) = true
                 /\ file_path = Some (staged_path env f)
                 /\ source = py "File: " ++ filename f
                 /\ pdf_bytes = stream f)
              \/ (file_truthy (pdf_file_of rq) = false
                  /\ Py.truthy (pdf_url_of rq) = true
                  /\ file_path = None
                  /\ source = py "URL: " ++ pdf_url_of rq
                  /\ requests_get env (pdf_url_of rq) = Ok pdf_bytes))
          /\ pdf_pages env pdf_bytes = Ok pages
          /\ Py.truthy (Py.strip (text_of pages)) = true
          /\ Classifier.classify (chat_create env) (api_key_of rq) (text_of pages)
             = Ok result
          /\ db (disk_ s') =
               {| rows := rows (db (disk_ s)) ++
                    [ {| id := last_id (db (disk_ s)) + 1;
                         title := Classifier.title result;
                         source := source;
                         main_category := Classifier.main_category result;
                         industry := Classifier.industry result;
                         short_summary := Classifier.short_summary result;
                         file_path := file_path;
                         created_at := utcnow_isoformat env |} ];
                  last_id := last_id (db (disk_ s)) + 1 |})
  /\ (is_upload rq ->
        index env rq s =
          match upload env rq s with
          | (s', Redirected) => (s', Redirect None None None)
          | (s', Message m) => (s', page rq (disk_ s') (Some m) true)
          end).
Proof.
  split; [|split].
  - intros s' m H. split; [by eapply upload_failed_table|].
    rewrite <- upload_files. by rewrite H.
  - apply upload_redirected.
  - apply index_upload.
Qed.

Lemma failed_ingestion_witness :
  let bad := env (Ok pdf) one_page (Ok (py "not json at all")) in
  db (disk_ (upload bad upload_url initial).1) = db (disk_ initial)
  /\ files (disk_ (upload bad upload_url initial).1) = files (disk_ initial)
  /\ index bad upload_url initial
     = ((upload bad upload_url initial).1,
        page upload_url (disk_ (upload bad upload_url initial).1)
          (Some (py "Error: " ++ str_of_exn
             (Classifier.format_error (py "not json at all")
                {| Json.msg := py "Expecting value"; Json.doc := py "not json at all";
                   Json.pos := 0 |}))) true).
Proof.
  intros bad.
  destruct (failed_ingestion bad upload_url initial) as (Hfail & _ & Hindex).
  destruct (Hfail (upload bad upload_url initial).1
              (py "Error: " ++ str_of_exn
                 (Classifier.format_error (py "not json at all")
                    {| Json.msg := py "Expecting value";
                       Json.doc := py "not json at all"; Json.pos := 0 |})))
    as [Hdb Hfiles]; [vm_compute; reflexivity|].
  split; [exact Hdb|]. split; [exact Hfiles|].
  rewrite Hindex; [vm_compute; reflexivity|].
  split; [reflexivity | by_decide].
Defined.

(** C4 as stated fails on an uploaded file whose classification fails:
    no record is written, but the staged copy is a new file in the file
    stage. *)
Lemma failed_ingestion_counterexample :
  let bad := env (Ok pdf) one_page (Ok (py "not json at all")) in
  exists m,
    (upload bad upload_file initial).2 = Message m
    /\ rows (db (disk_ (upload bad upload_file initial).1)) = []
    /\ files (disk_ initial) !! staged = None
    /\ files (disk_ (upload bad upload_file initial).1) !! staged = Some pdf.
Proof.
  intros bad. eexists. repeat split; vm_compute; reflexivity.
Qed.

(** C5, as the program has it.  Without an API key, or with a key and
    neither a file nor a URL, the upload is rejected with its message
    and nothing is touched: no file staged, no request sent, no model
    called, the state unchanged.  With a key and a file the pipeline
    runs on the file, whether or not a URL came with it, and never
    fetches the URL; with a key and only a URL it fetches the URL. *)
Theorem entry_guard (env : Env) (rq : Request) (s : state) :
  (Py.truthy (api_key_of rq) = false ->
     upload env rq s = (s, Message (py "OpenAI API key is required.")))
  /\ (Py.truthy (api_key_of rq) = true ->
      file_truthy (pdf_file_of rq) = false -> Py.truthy (pdf_url_of rq) = false ->
      upload env rq s
        = (s, Message (py "Please upload a PDF file or provide a PDF URL.")))
  /\ (forall f,
        Py.truthy (api_key_of rq) = true ->
        pdf_file_of rq = Some f -> Py.truthy (filename f) = true ->
        exists more,
          calls (upload env rq s).1
            = calls s ++ FileSaved (staged_path env f) :: PdfOpened (stream f) :: more
          /\ forall u, HttpGet u ∉ more)
  /\ (Py.truthy (api_key_of rq) = true ->
      file_truthy (pdf_file_of rq) = false -> Py.truthy (pdf_url_of rq) = true ->
      exists more,
        calls (upload env rq s).1 = calls s ++ HttpGet (pdf_url_of rq) :: more
        /\ forall p, FileSaved p ∉ more)
  /\ (is_upload rq ->
      forall s' m, upload env rq s = (s', Message m) ->
        index env rq s = (s', page rq (disk_ s') (Some m) true)).
Proof.
  split; [apply upload_rejected_no_key|].
  split; [apply upload_rejected_no_input|].
  split; [intros f; apply upload_calls_file|].
  split; [apply upload_calls_url|].
  intros Hup s' m H. rewrite index_upload by done. by rewrite H.
Qed.

Lemma entry_guard_witness :
  let good := env (Ok pdf) one_page (Ok good_reply) in
  upload good upload_no_key initial
    = (initial, Message (py "OpenAI API key is required."))
  /\ upload good upload_nothing initial
     = (initial, Message (py "Please upload a PDF file or provide a PDF URL."))
  /\ (exists more,
        calls (upload good upload_both initial).1
          = calls initial ++ FileSaved staged :: PdfOpened pdf :: more
        /\ forall u, HttpGet u ∉ more)
  /\ (exists more,
        calls (upload good upload_url initial).1
          = calls initial ++ HttpGet (py "http://x.test/b.pdf") :: more
        /\ forall p, FileSaved p ∉ more)
  /\ index good upload_nothing initial
     = (initial, page upload_nothing (disk_ initial)
                   (Some (py "Please upload a PDF file or provide a PDF URL.")) true).
Proof.
  intros good.
  split; [|split; [|split; [|split]]].
  - apply (entry_guard good upload_no_key initial). reflexivity.
  - apply (entry_guard good upload_nothing initial); reflexivity.
  - destruct (entry_guard good upload_both initial) as (_ & _ & H & _).
    apply (H {| filename := py "a.pdf"; stream := pdf |}); reflexivity.
  - apply (entry_guard good upload_url initial); reflexivity.
  - apply (entry_guard good upload_nothing initial).
    + split; [reflexivity | by_decide].
    + apply (entry_guard good upload_nothing initial); reflexivity.
Defined.

(** C5 as stated fails on a request that carries both a file and a
    URL: it passes the guard and is ingested from the file. *)
Lemma entry_guard_counterexample :
  let good := env (Ok pdf) one_page (Ok good_reply) in
  file_truthy (pdf_file_of upload_both) = true
  /\ Py.truthy (pdf_url_of upload_both) = true
  /\ (upload good upload_both initial).2 = Redirected
  /\ source <$> rows (db (disk_ (upload good upload_both initial).1))
     = [py "File: a.pdf"].
Proof. intros good. repeat split; vm_compute; reflexivity. Qed.


(** C6, as the program has it.  Sorted [newest], the rows are in
    descending order of the [created_at] string compared character by
    character, sorted [oldest] in ascending order, and both are
    rearrangements of the same rows; [newest] is the direction when the
    parameter is absent or blank.  When no two rows share a
    [created_at], the [newest] order is the reverse of the [oldest]
    order; rows that share one keep their table order in both
    directions. *)
Theorem sort_directions (l : list whitepaper) :
  descending created_at (sorted l created_at true)
  /\ sorted l created_at true ≡ₚ l
  /\ ascending created_at (sorted l created_at false)
  /\ sorted l created_at false ≡ₚ l
  /\ (NoDup (created_at <$> l) ->
        sorted l created_at true = rev (sorted l created_at false))
  /\ (forall stamp reverse,
        List.filter (fun w => bool_decide (created_at w = stamp))
          (sorted l created_at reverse)
        = List.filter (fun w => bool_decide (created_at w = stamp)) l)
  /\ (forall fm fi d,
        listing fm fi (py "newest") d
          = sorted (apply_filters fm fi (load_whitepapers d)) created_at true
        /\ listing fm fi (py "oldest") d
           = sorted (apply_filters fm fi (load_whitepapers d)) created_at false)
  /\ (forall rq,
        Py.strip (get (args rq) (py "sort_order") (py "newest")) = [] ->
        sort_order_of rq = py "newest")
  /\ (forall rq,
        lookup_first (py "sort_order") (args rq) = None ->
        sort_order_of rq = py "newest").
Proof.
  split; [apply SortFacts.sorted_newest_descending|].
  split; [apply SortFacts.sorted_perm|].
  split; [apply SortFacts.sorted_oldest_ascending|].
  split; [apply SortFacts.sorted_perm|].
  split; [apply SortFacts.sorted_reversed_when_distinct|].
  split; [intros stamp reverse; apply SortFacts.sorted_same_key|].
  split; [done|]. split.
  - intros rq H. unfold sort_order_of. by rewrite H.
  - intros rq H. unfold sort_order_of, get. by rewrite H.
Qed.

Lemma sort_directions_witness :
  let l := [paper 1 "2024-05-01T10:00:00"; paper 2 "2024-05-03T09:30:00.000001";
            paper 3 "2024-05-02T23:59:59.999999"] in
  sorted l created_at true = rev (sorted l created_at false)
  /\ sort_order_of {| method := GET; args := [(py "sort_order", py "  ")];
                      form := []; files_ := [] |} = py "newest"
  /\ sort_order_of {| method := GET; args := []; form := []; files_ := [] |}
     = py "newest".
Proof.
  intros l.
  destruct (sort_directions l) as (_ & _ & _ & _ & Hrev & _ & _ & Hblank & Habsent).
  split; [apply Hrev; by_decide|].
  split; [apply Hblank; reflexivity | apply Habsent; reflexivity].
Defined.

(** C6 as stated fails on two rows with the same [created_at]: both
    directions keep them in table order, so [newest] is not [oldest]
    reversed. *)
Lemma sort_directions_counterexample :
  let l := [paper 1 "2024-05-01T10:00:00"; paper 2 "2024-05-01T10:00:00"] in
  sorted l created_at true = l
  /\ sorted l created_at false = l
  /\ sorted l created_at true <> rev (sorted l created_at false).
Proof. intros l. repeat split; try reflexivity. vm_compute. discriminate. Qed.

(** C9.  The rows shown are exactly the rows that pass each filter that
    is set, a filter passing the rows whose field equals it and an
    empty filter passing every row; with one filter set the result is
    the list of rows whose field equals it, in table order; with both
    set it is the intersection of the two one-filter results. *)
Theorem filters_exact (fm fi : str) (l : list whitepaper) :
  (forall w, w ∈ apply_filters fm fi l
        <-> w ∈ l /\ (fm = [] \/ main_category w = fm)
                  /\ (fi = [] \/ industry w = fi))
  /\ (forall c,
        apply_filters (c :: fm) [] l
          = List.filter (fun w => bool_decide (main_category w = c :: fm)) l
        /\ apply_filters [] (c :: fi) l
           = List.filter (fun w => bool_decide (industry w = c :: fi)) l)
  /\ apply_filters [] [] l = l
  /\ (forall w, w ∈ apply_filters fm fi l
          <-> w ∈ apply_filters fm [] l /\ w ∈ apply_filters [] fi l)
  /\ apply_filters fm fi l = apply_filters [] fi (apply_filters fm [] l)
  /\ (forall so d w, w ∈ listing fm fi so d
          <-> w ∈ load_whitepapers d /\ (fm = [] \/ main_category w = fm)
                                     /\ (fi = [] \/ industry w = fi)).
Proof.
  split; [intros w; apply apply_filters_elem|].
  split; [done|]. split; [done|]. split.
  - intros w. rewrite !apply_filters_elem. intuition auto.
  - split; [apply apply_filters_compose|].
    intros so d w. rewrite listing_elem. apply apply_filters_elem.
Qed.

Lemma filters_exact_witness :
  let l := [paper 1 "2024-05-01T10:00:00";
            {| id := 2; title := py "U"; source := py "File: a.pdf";
               main_category := py "Institutional"; industry := py "Energy";
               short_summary := py "s"; file_path := Some staged;
               created_at := py "2024-05-02T10:00:00" |}] in
  paper 1 "2024-05-01T10:00:00" ∈ apply_filters (py "Retail") (py "Energy") l
  /\ (paper 1 "2024-05-01T10:00:00" ∈ apply_filters (py "Retail") [] l
      /\ paper 1 "2024-05-01T10:00:00" ∈ apply_filters [] (py "Energy") l).
Proof.
  intros l. destruct (filters_exact (py "Retail") (py "Energy") l)
    as (Hin & _ & _ & Hboth & _).
  assert (H : paper 1 "2024-05-01T10:00:00" ∈ apply_filters (py "Retail") (py "Energy") l).
  { apply Hin. split; [left|split; right; reflexivity]. }
  split; [exact H | apply Hboth, H].
Defined.



End pipeline_claims.

(** * Further properties

    What the program does beyond the statements above: the store and
    its ids, the download route, the Source cell and the banner of the
    page, the calls of a request, and the listing. *)

Module StoreFacts.
Import Store ViewFacts.

Lemma store_ok_empty : store_ok empty_table.
Proof. split; [constructor|]. split; [done | constructor]. Qed.

Lemma store_ok_save now t src mc ind ss fp d :
  store_ok (db d) -> store_ok (db (save_whitepaper now t src mc ind ss fp d)).
Proof.
  intros (Hnd & H0 & Hb). unfold store_ok. simpl. split; [|split; [lia|]].
  - rewrite fmap_app. apply NoDup_app. split; [done|]. split.
    + intros i Hi Hnew. apply list_elem_of_singleton in Hnew as ->.
      apply list_elem_of_fmap in Hi as (w & Hw & Hin).
      rewrite Forall_forall in Hb. apply Hb in Hin. simpl in Hw. lia.
    + apply NoDup_singleton.
  - apply Forall_app. split.
    + eapply Forall_impl; [exact Hb|]. simpl. intros w Hw. lia.
    + constructor; [simpl; lia | constructor].
Qed.

Lemma NoDup_fmap_filter {B C : Type} (f : B -> C) (p : B -> bool) (l : list B) :
  NoDup (f <$> l) -> NoDup (f <$> List.filter p l).
Proof.
  induction l as [|x l IH]; [done|].
  rewrite fmap_cons, NoDup_cons. intros [Hx Hl]. cbn [List.filter].
  destruct (p x); [|by apply IH].
  rewrite fmap_cons, NoDup_cons. split; [|by apply IH].
  intros Hin. apply Hx. apply list_elem_of_fmap in Hin as (y & -> & Hy).
  apply elem_of_filter_bool in Hy as [Hy _]. by apply list_elem_of_fmap_2.
Qed.

Lemma store_ok_delete rf i d :
  store_ok (db d) -> store_ok (db (delete_whitepaper rf i d)).
Proof.
  intros (Hnd & H0 & Hb). unfold store_ok. simpl. split; [|split; [done|]].
  - by apply NoDup_fmap_filter.
  - rewrite Forall_forall in *. intros w Hw.
    apply elem_of_filter_bool in Hw as [Hw _]. by apply Hb.
Qed.

Lemma sublist_filter_bool {B : Type} (p : B -> bool) (l : list B) :
  List.filter p l `sublist_of` l.
Proof.
  induction l as [|x l IH]; simpl; [done|].
  destruct (p x); [by apply sublist_skip | by apply sublist_cons].
Qed.

(** [fetchone] finds the row of an id when the ids are distinct. *)
Lemma find_row i (l : list whitepaper) w :
  NoDup (id <$> l) -> w ∈ l -> id w = i ->
  List.find (fun r => id r =? i) l = Some w.
Proof.
  induction l as [|x l IH]; intros Hnd Hw Hi; [by apply elem_of_nil in Hw|].
  rewrite fmap_cons in Hnd. apply NoDup_cons in Hnd as [Hx Hnd]. simpl.
  apply elem_of_cons in Hw as [->|Hw].
  - by rewrite (proj2 (Z.eqb_eq _ _) Hi).
  - destruct (Z.eqb_spec (id x) i) as [E|E]; [|by apply IH].
    destruct Hx. rewrite E, <- Hi. by apply list_elem_of_fmap_2.
Qed.

Lemma find_app_none {B : Type} (p : B -> bool) (l k : list B) :
  List.find p l = None -> List.find p (l ++ k) = List.find p k.
Proof.
  induction l as [|x l IH]; simpl; [done|]. destruct (p x); [done | apply IH].
Qed.

Lemma find_app_some {B : Type} (p : B -> bool) (l k : list B) x :
  List.find p l = Some x -> List.find p (l ++ k) = Some x.
Proof.
  induction l as [|y l IH]; simpl; [done|]. destruct (p y); [done | apply IH].
Qed.

Lemma find_filter_other i j (l : list whitepaper) :
  i <> j ->
  List.find (fun r => id r =? i) (List.filter (fun r => negb (id r =? j)) l)
  = List.find (fun r => id r =? i) l.
Proof.
  intros Hij. induction l as [|x l IH]; simpl; [done|].
  destruct (Z.eqb_spec (id x) j) as [Ej|Ej]; simpl.
  - destruct (Z.eqb_spec (id x) i); [lia | done].
  - destruct (Z.eqb_spec (id x) i); [done | apply IH].
Qed.

Lemma find_filter_same i (l : list whitepaper) :
  List.find (fun r => id r =? i) (List.filter (fun r => negb (id r =? i)) l) = None.
Proof.
  induction l as [|x l IH]; simpl; [done|].
  destruct (Z.eqb_spec (id x) i) as [E|E]; simpl; [done|].
  by destruct (Z.eqb_spec (id x) i).
Qed.

Lemma filter_filter_same {B : Type} (p : B -> bool) (l : list B) :
  List.filter p (List.filter p l) = List.filter p l.
Proof.
  induction l as [|x l IH]; simpl; [done|].
  destruct (p x) eqn:E; simpl; [by rewrite E, IH | done].
Qed.

Lemma filter_filter_comm {B : Type} (p q : B -> bool) (l : list B) :
  List.filter p (List.filter q l) = List.filter q (List.filter p l).
Proof.
  induction l as [|x l IH]; simpl; [done|].
  destruct (p x) eqn:Ep, (q x) eqn:Eq; simpl; rewrite ?Ep, ?Eq, ?IH; done.
Qed.


Lemma select_after_delete rf i d :
  select_file_path i (db (delete_whitepaper rf i d)) = None.
Proof. unfold select_file_path. simpl. by rewrite find_filter_same. Qed.

Lemma select_after_delete_other rf i j d :
  i <> j ->
  select_file_path i (db (delete_whitepaper rf j d)) = select_file_path i (db d).
Proof. intros H. unfold select_file_path. simpl. by rewrite find_filter_other. Qed.

(** The files after a deletion. *)
Lemma delete_files rf i d :
  files (delete_whitepaper rf i d) =
    match select_file_path i (db d) with
    | Some (Some p) =>
        if Py.truthy p && negb (rf p) then delete p (files d) else files d
    | _ => files d
    end.
Proof.
  unfold delete_whitepaper. cbn [files].
  destruct (select_file_path i (db d)) as [[p|]|]; try done.
  destruct (Py.truthy p); [|done]. simpl. unfold isfile.
  case_bool_decide as Hf; simpl; [done|].
  destruct (rf p); simpl; [done|]. symmetry. apply delete_id.
  by apply eq_None_not_Some.
Qed.

Lemma delete_files_subseteq rf i d : files (delete_whitepaper rf i d) ⊆ files d.
Proof.
  rewrite delete_files. destruct (select_file_path i (db d)) as [[p|]|]; try done.
  destruct (_ && _); [apply delete_subseteq | done].
Qed.

End StoreFacts.

Module TextFacts.
Import PyFacts.

Lemma blank_app (a b : str) : blank (a ++ b) <-> blank a /\ blank b.
Proof. apply Forall_app. Qed.

Lemma blank_rev (a : str) : blank (rev a) <-> blank a.
Proof.
  unfold blank. rewrite !Forall_forall. split; intros H c Hc; apply H.
  - rewrite list_elem_of_In in *. by apply in_rev in Hc.
  - rewrite list_elem_of_In in *. by apply in_rev.
Qed.

Lemma lstrip_blank_app (a t : str) : blank a -> Py.lstrip (a ++ t) = Py.lstrip t.
Proof.
  induction 1 as [|c a Hc _ IH]; [done|]. simpl. by rewrite Hc.
Qed.

Lemma lstrip_nil (s : str) : Py.lstrip s = [] <-> blank s.
Proof.
  induction s as [|c r IH]; simpl; [by split; [constructor|]|].
  destruct (Py.isspace c) eqn:E.
  - rewrite IH. split; [by constructor | by inversion 1].
  - split; [done|]. inversion 1; congruence.
Qed.

Lemma lstrip_app_blank (s b : str) :
  blank b ->
  Py.lstrip (s ++ b) = match Py.lstrip s with [] => [] | _ => Py.lstrip s ++ b end.
Proof.
  intros Hb. induction s as [|c r IH]; simpl; [by apply lstrip_nil|].
  by destruct (Py.isspace c).
Qed.

Lemma rstrip_blank_app (t b : str) : blank b -> Py.rstrip (t ++ b) = Py.rstrip t.
Proof.
  intros Hb. unfold Py.rstrip. rewrite rev_app_distr.
  by rewrite lstrip_blank_app by by apply blank_rev.
Qed.

Lemma rstrip_nil (s : str) : Py.rstrip s = [] <-> blank s.
Proof.
  unfold Py.rstrip. rewrite <- blank_rev, <- lstrip_nil. split.
  - intros H. apply (f_equal (@rev _)) in H. by rewrite rev_involutive in H.
  - by intros ->.
Qed.

(** White space around a string does not change what [strip] yields. *)
Lemma strip_blank_app (a s b : str) :
  blank a -> blank b -> Py.strip (a ++ s ++ b) = Py.strip s.
Proof.
  intros Ha Hb. unfold Py.strip. rewrite lstrip_blank_app by done.
  rewrite lstrip_app_blank by done.
  destruct (Py.lstrip s) as [|c r]; [done|]. by apply rstrip_blank_app.
Qed.

Lemma strip_nil (s : str) : Py.strip s = [] <-> blank s.
Proof.
  unfold Py.strip. rewrite rstrip_nil. split; intros H.
  - destruct (lstrip_split s) as (a & Hs & Ha). rewrite Hs.
    apply blank_app. by split.
  - apply lstrip_nil in H as Hl. rewrite Hl. constructor.
Qed.

Lemma strip_truthy (s : str) : Py.truthy (Py.strip s) = false <-> blank s.
Proof. rewrite <- strip_nil. by destruct (Py.strip s). Qed.

Lemma blank_join (parts : list str) :
  blank (Py.join [NEWLINE] parts) <-> Forall blank parts.
Proof.
  induction parts as [|p ps IH]; [by split; constructor|].
  destruct ps as [|q ps].
  - simpl. split; [by repeat constructor | by inversion 1].
  - change (Py.join [NEWLINE] (p :: q :: ps))
      with (p ++ [NEWLINE] ++ Py.join [NEWLINE] (q :: ps)).
    rewrite !blank_app, IH. split.
    + intros (Hp & _ & Hq). by constructor.
    + inversion 1; subst. split; [done|]. split; [|done].
      by repeat constructor.
Qed.

(** The text of a document is blank exactly when every page is. *)
Lemma text_of_blank (pages : list (option str)) :
  blank (text_of pages) <-> Forall (fun p => blank (default [] p)) pages.
Proof. unfold text_of. by rewrite blank_join, Forall_map. Qed.

(** The decimal digits of a number hold no slash. *)
Lemma digits_fuel_no_slash fuel n (acc : str) :
  47%N ∉ acc -> 47%N ∉ Py.digits_fuel fuel n acc.
Proof.
  revert n acc. induction fuel as [|f IH]; intros n acc Hacc; simpl; [done|].
  assert (H : 47%N ∉ Py.digit (n mod 10) :: acc).
  { apply not_elem_of_cons. split; [|done]. unfold Py.digit. intros E.
    pose proof (N.le_add_r 48 (n mod 10)) as Hle. rewrite <- E in Hle. lia. }
  destruct (n <? 10)%N; [done | by apply IH].
Qed.

Lemma str_of_Z_no_slash z : 47%N ∉ Py.str_of_Z z.
Proof.
  unfold Py.str_of_Z, Py.str_of_N. destruct (z <? 0).
  - apply not_elem_of_cons. split; [done|].
    apply digits_fuel_no_slash, not_elem_of_nil.
  - apply digits_fuel_no_slash, not_elem_of_nil.
Qed.

Lemma rfind_app (a b : str) c :
  c ∉ b -> Py.rfind (a ++ c :: b) c = Z.of_nat (length a).
Proof. intros H. unfold Py.rfind. by rewrite rfind_from_app. Qed.

End TextFacts.

Module DownloadFacts.
Import Store App Download Template StoreFacts TextFacts PyFacts.

Lemma basename_app (a b : str) : 47%N ∉ b -> basename (a ++ 47%N :: b) = b.
Proof.
  intros H. unfold basename. rewrite rfind_app by done.
  replace (Z.to_nat (Z.of_nat (length a) + 1)) with (length a + 1)%nat by lia.
  rewrite <- drop_drop, drop_app_length. done.
Qed.

Lemma basename_plain (p : str) : 47%N ∉ p -> basename p = p.
Proof.
  intros H. unfold basename, Py.rfind. by rewrite rfind_from_absent.
Qed.

Lemma basename_staged env f :
  47%N ∉ secure_filename env (filename f) ->
  basename (staged_path env f)
  = Py.str_of_Z (time_time env) ++ py "_" ++ secure_filename env (filename f).
Proof.
  intros H. unfold staged_path.
  change (UPLOAD_FOLDER ++ py "/" ++ ?x) with (UPLOAD_FOLDER ++ 47%N :: x).
  apply basename_app. rewrite !not_elem_of_app. split; [apply str_of_Z_no_slash|].
  split; [|done]. by_decide.
Qed.

Lemma staged_path_truthy env f : Py.truthy (staged_path env f) = true.
Proof.
  assert (H : exists c r, UPLOAD_FOLDER = c :: r) by (vm_compute; eauto).
  destruct H as (c & r & H). unfold staged_path. by rewrite H.
Qed.

Lemma startswith_app (p s : str) : startswith (p ++ s) p = true.
Proof. induction p as [|c p IH]; [by destruct s|]. simpl. by rewrite N.eqb_refl. Qed.

Lemma startswith_inv (s p : str) : startswith s p = true <-> exists r, s = p ++ r.
Proof.
  revert s. induction p as [|c p IH]; intros s.
  - split; [by exists s | by destruct s].
  - destruct s as [|y s]; [split; [done | by intros (r & ?)]|].
    cbn [startswith]. destruct (N.eqb_spec c y) as [->|Hne]; cbn [andb].
    + rewrite IH. split; [intros (r & ->); by exists r|].
      intros (r & [= ->]). by exists r.
    + split; [done|]. intros (r & [= ? ?]). congruence.
Qed.

End DownloadFacts.

Module PipelineFacts.
Import Store App AppFacts ViewFacts StoreFacts TextFacts.

(** The table after a request: as before, after a deletion, or after
    an insertion. *)
Lemma index_db env rq s :
  db (disk_ (index env rq s).1) = db (disk_ s)
  \/ (exists i,
        db (disk_ (index env rq s).1)
        = db (delete_whitepaper (remove_fails env) i (disk_ s)))
  \/ (exists now t src mc ind ss fp,
        db (disk_ (index env rq s).1)
        = db (save_whitepaper now t src mc ind ss fp (disk_ s))).
Proof.
  destruct (request_kind rq) as [Hg|[Hd|Hu]].
  - rewrite index_get by done. by left.
  - rewrite index_delete by done.
    destruct (builtin_int env _) as [i|e]; [|by left].
    right; left. by exists i.
  - rewrite index_upload by done.
    destruct (upload env rq s) as [s' [|m]] eqn:E; simpl.
    + apply upload_redirected in E
        as (fp & src & b & pages & r & _ & _ & _ & _ & _ & ->).
      right; right. by eexists _, _, _, _, _, _, _.
    + left. by eapply upload_failed_table.
Qed.

Lemma index_store_ok env rq s :
  store_ok (db (disk_ s)) -> store_ok (db (disk_ (index env rq s).1)).
Proof.
  intros H. destruct (index_db env rq s)
    as [->|[(i & ->)|(now & t & src & mc & ind & ss & fp & ->)]];
    [done | by apply store_ok_delete | by apply store_ok_save].
Qed.

Lemma serve_store_ok trace s :
  store_ok (db (disk_ s)) -> store_ok (db (disk_ (serve trace s))).
Proof.
  revert s. induction trace as [|[env rq] trace IH]; intros s H; [done|].
  simpl. by apply IH, index_store_ok.
Qed.

Lemma index_last_id env rq s :
  last_id (db (disk_ s)) <= last_id (db (disk_ (index env rq s).1)).
Proof.
  destruct (index_db env rq s)
    as [->|[(i & ->)|(now & t & src & mc & ind & ss & fp & ->)]]; simpl; lia.
Qed.

Lemma index_new_rows env rq s w :
  store_ok (db (disk_ s)) ->
  w ∈ rows (db (disk_ (index env rq s).1)) -> w ∉ rows (db (disk_ s)) ->
  id w = last_id (db (disk_ s)) + 1.
Proof.
  intros Hok. destruct (index_db env rq s)
    as [->|[(i & ->)|(now & t & src & mc & ind & ss & fp & ->)]]; simpl.
  - done.
  - intros Hw Hn. by apply elem_of_filter_bool in Hw as [Hw _].
  - intros Hw Hn. apply elem_of_app in Hw as [Hw|Hw]; [done|].
    by apply list_elem_of_singleton in Hw as ->.
Qed.

(** The log only grows. *)
Lemma upload_calls_prefix env rq s : calls s `prefix_of` calls (upload env rq s).1.
Proof.
  destruct (upload env rq s) as [s' o] eqn:H. revert H.
  upload_leaves env rq; pair_eq; cbn [fst calls];
    rewrite <- ?app_assoc; try apply prefix_app_r; done.
Qed.

Lemma index_calls_prefix env rq s : calls s `prefix_of` calls (index env rq s).1.
Proof.
  destruct (request_kind rq) as [Hg|[Hd|Hu]].
  - by rewrite index_get.
  - rewrite index_delete by done. by destruct (builtin_int env _).
  - rewrite index_upload by done. pose proof (upload_calls_prefix env rq s) as H.
    by destruct (upload env rq s) as [s' [|m]].
Qed.


(** What a request renders. *)
Lemma index_rendered env rq s s' message error l fm fi so :
  index env rq s = (s', Rendered message error l fm fi so) ->
  l = listing fm fi so (disk_ s')
  /\ fm = filter_main_category_of rq /\ fi = filter_industry_of rq
  /\ so = sort_order_of rq
  /\ ((method rq = GET /\ message = None /\ error = false /\ s' = s)
      \/ (method rq = POST /\ error = true
          /\ exists m, message = Some m /\ Py.truthy m = true)).
Proof.
  unfold index. destruct (method rq).
  - intros [= <- <- <- <- <- <- <-]. repeat split; try done. by left.
  - destruct (str_eq _ _).
    + destruct (builtin_int env _) as [i|e]; [done|].
      intros [= <- <- <- <- <- <- <-]. repeat split; try done.
      right. repeat split; try done. by eexists.
    + destruct (upload env rq s) as [s1 [|m]] eqn:E; [done|].
      intros [= <- <- <- <- <- <- <-]. repeat split; try done.
      right. repeat split; try done. exists m. split; [done|].
      revert E. upload_leaves env rq; by pair_eq.
Qed.

End PipelineFacts.

Module ListingFacts.
Import Store App OrderFacts SortFacts ViewFacts StoreFacts.

Section resorting.
Context {A : Type} (key : A -> str).

(** An element not above the head of an ascending list goes in front. *)
Lemma insert_sorted_front (x : A) l :
  Forall (fun y => str_le (key x) (key y)) l -> insert_sorted key x l = x :: l.
Proof.
  destruct l as [|y l]; [done|]. inversion 1 as [|? ? Hxy _]; subst.
  simpl. by rewrite Hxy.
Qed.

Lemma insert_sorted_filter (p : A -> bool) (x : A) l :
  ascending key l ->
  List.filter p (insert_sorted key x l)
  = if p x then insert_sorted key x (List.filter p l) else List.filter p l.
Proof.
  induction 1 as [|y l Hl IH Hy]; [simpl; by destruct (p x)|].
  cbn [insert_sorted]. destruct (Py.le (key x) (key y)) eqn:Hxy.
  - cbn [List.filter]. destruct (p x); [|done].
    rewrite insert_sorted_front; [done|].
    assert (Hall : Forall (fun z => str_le (key x) (key z)) (y :: l)).
    { constructor; [done|]. eapply Forall_impl; [exact Hy|].
      intros z Hz. by eapply le_trans. }
    rewrite Forall_forall in *. intros z Hz. apply Hall.
    change (z ∈ List.filter p (y :: l)) in Hz.
    by apply elem_of_filter_bool in Hz as [Hz _].
  - cbn [List.filter]. rewrite IH.
    destruct (p y), (p x); cbn [insert_sorted]; by rewrite ?Hxy.
Qed.

Lemma sort_stable_filter (p : A -> bool) l :
  List.filter p (sort_stable key l) = sort_stable key (List.filter p l).
Proof.
  induction l as [|x l IH]; [done|]. cbn [sort_stable List.filter].
  rewrite insert_sorted_filter by apply sort_stable_ascending.
  rewrite IH. by destruct (p x).
Qed.

(** Filtering and sorting commute. *)
Lemma sorted_filter (p : A -> bool) l reverse :
  List.filter p (sorted l key reverse) = sorted (List.filter p l) key reverse.
Proof.
  unfold sorted. destruct reverse; [|apply sort_stable_filter].
  by rewrite filter_rev, sort_stable_filter, filter_rev.
Qed.

Lemma sort_stable_fixed l : ascending key l -> sort_stable key l = l.
Proof.
  induction 1 as [|x l Hl IH Hx]; [done|]. cbn [sort_stable]. rewrite IH.
  by apply insert_sorted_front.
Qed.

(** Sorting a sorted list again changes nothing. *)
Lemma sorted_idem l reverse :
  sorted (sorted l key reverse) key reverse = sorted l key reverse.
Proof.
  unfold sorted. destruct reverse.
  - rewrite rev_involutive. f_equal.
    apply sort_stable_fixed, sort_stable_ascending.
  - apply sort_stable_fixed, sort_stable_ascending.
Qed.

End resorting.

Lemma apply_filters_sorted fm fi (l : list whitepaper) reverse :
  apply_filters fm fi (sorted l created_at reverse)
  = sorted (apply_filters fm fi l) created_at reverse.
Proof.
  unfold apply_filters. cbv zeta.
  destruct (Py.truthy fm), (Py.truthy fi); by rewrite ?sorted_filter.
Qed.

Lemma listing_unfiltered so d :
  listing [] [] so d = sorted (load_whitepapers d) created_at (str_eq so (py "newest")).
Proof. done. Qed.

Lemma listing_filters fm fi so d :
  listing fm fi so d = apply_filters fm fi (listing [] [] so d).
Proof. rewrite listing_unfiltered. by rewrite apply_filters_sorted. Qed.

Lemma apply_filters_idem fm fi (l : list whitepaper) :
  apply_filters fm fi (apply_filters fm fi l) = apply_filters fm fi l.
Proof.
  unfold apply_filters. cbv zeta.
  destruct (Py.truthy fm), (Py.truthy fi); try done;
    rewrite ?filter_filter_same; try done.
  rewrite (filter_filter_comm (fun w => str_eq (main_category w) fm)).
  by rewrite !filter_filter_same.
Qed.

Lemma listing_other_order fm fi so d :
  so <> py "newest" -> listing fm fi so d = listing fm fi (py "oldest") d.
Proof.
  intros H. unfold listing. cbv zeta. f_equal. unfold str_eq.
  by rewrite bool_decide_eq_false_2.
Qed.

Lemma sort_order_truthy rq : Py.truthy (sort_order_of rq) = true.
Proof.
  unfold sort_order_of. cbv zeta.
  by destruct (Py.truthy (Py.strip _)) eqn:E.
Qed.

Lemma listing_foreign_main fm fi so d :
  Forall closed (rows (db d)) ->
  fm <> [] -> fm ∉ Classifier.MAIN_CATEGORIES -> listing fm fi so d = [].
Proof.
  intros Hc Hne Hfm.
  destruct (listing fm fi so d) as [|w l] eqn:E; [done|].
  assert (Hw : w ∈ listing fm fi so d) by (rewrite E; left).
  apply listing_elem, apply_filters_elem in Hw as (Hw & [?|Hm] & _); [done|].
  rewrite Forall_forall in Hc. destruct (Hc w Hw) as [Hin _]. congruence.
Qed.

Lemma listing_foreign_industry fm fi so d :
  Forall closed (rows (db d)) ->
  fi <> [] -> fi ∉ Classifier.INDUSTRIES -> listing fm fi so d = [].
Proof.
  intros Hc Hne Hfi.
  destruct (listing fm fi so d) as [|w l] eqn:E; [done|].
  assert (Hw : w ∈ listing fm fi so d) by (rewrite E; left).
  apply listing_elem, apply_filters_elem in Hw as (Hw & _ & [?|Hi]); [done|].
  rewrite Forall_forall in Hc. destruct (Hc w Hw) as [_ Hin]. congruence.
Qed.

End ListingFacts.

Module RouteFacts.
Import Store App Download Template AppFacts ViewFacts StoreFacts TextFacts.
Import DownloadFacts PipelineFacts.

Lemma select_row (t : table) w :
  store_ok t -> w ∈ rows t -> select_file_path (id w) t = Some (file_path w).
Proof.
  intros (Hnd & _) Hw. unfold select_file_path.
  by rewrite (find_row (id w) (rows t) w).
Qed.


(** What the route answers, by the record and the file stage. *)
Lemma download_row d w :
  store_ok (db d) -> w ∈ rows (db d) ->
  download_whitepaper (id w) d =
    match file_path w with
    | Some p =>
        if Py.truthy p then
          match files d !! p with
          | Some c => SendFile p c (basename p)
          | None => NotFound (py "File not found on server.")
          end
        else NotFound (py "No local file available for this whitepaper.")
    | None => NotFound (py "No local file available for this whitepaper.")
    end.
Proof.
  intros Hok Hw. unfold download_whitepaper. by rewrite select_row.
Qed.



Lemma source_of_url (w : whitepaper) u :
  source w = py "URL: " ++ u -> source_of w = OpenSource u.
Proof.
  intros H. unfold source_of. rewrite H, startswith_app.
  f_equal.
Qed.

Lemma source_of_file (w : whitepaper) name p :
  source w = py "File: " ++ name -> file_path w = Some p -> Py.truthy p = true ->
  source_of w = DownloadPDF (id w).
Proof.
  intros Hs Hp Ht. unfold source_of. rewrite Hs, Hp. simpl. by rewrite Ht.
Qed.

Lemma source_of_download (w : whitepaper) i :
  source_of w = DownloadPDF i ->
  i = id w /\ exists p, file_path w = Some p /\ Py.truthy p = true.
Proof.
  unfold source_of. destruct (startswith _ _); [done|].
  destruct (file_path w) as [p|]; simpl; [|done].
  destruct (Py.truthy p) eqn:E; [|done]. intros [= <-]. eauto.
Qed.

(** The row a successful upload appends. *)
Lemma upload_new_row env rq s s' :
  upload env rq s = (s', Redirected) ->
  exists w,
    rows (db (disk_ s')) = rows (db (disk_ s)) ++ [w]
    /\ last_id (db (disk_ s')) = last_id (db (disk_ s)) + 1
    /\ id w = last_id (db (disk_ s)) + 1
    /\ created_at w = utcnow_isoformat env
    /\ closed w
    /\ match pdf_file_of rq with
       | Some f =>
           if Py.truthy (filename f)
           then source w = py "File: " ++ filename f
                /\ file_path w = Some (staged_path env f)
           else source w = py "URL: " ++ pdf_url_of rq /\ file_path w = None
       | None => source w = py "URL: " ++ pdf_url_of rq /\ file_path w = None
       end.
Proof.
  intros H. apply upload_redirected in H
    as (fp & src & b & pages & r & _ & Hsrc & _ & _ & Hc & ->).
  eexists. split; [reflexivity|]. cbn [last_id id created_at source file_path].
  split; [done|]. split; [done|]. split; [done|].
  split; [by apply classify_closed in Hc|].
  destruct Hsrc as [(f & -> & -> & -> & -> & _)|(Hf & _ & -> & -> & _)]; [done|].
  destruct (pdf_file_of rq) as [f|]; [|done]. simpl in Hf. by rewrite Hf.
Qed.

Lemma upload_new_row_cell env rq s s' w :
  upload env rq s = (s', Redirected) ->
  rows (db (disk_ s')) = rows (db (disk_ s)) ++ [w] ->
  source_of w =
    match pdf_file_of rq with
    | Some f =>
        if Py.truthy (filename f) then DownloadPDF (id w)
        else OpenSource (pdf_url_of rq)
    | None => OpenSource (pdf_url_of rq)
    end.
Proof.
  intros H Hrows. apply upload_new_row in H as (w' & Hrows' & _ & _ & _ & _ & Hw).
  rewrite Hrows in Hrows'. apply app_inj_tail in Hrows' as [_ <-].
  destruct (pdf_file_of rq) as [f|]; [destruct (Py.truthy (filename f))|].
  - destruct Hw as [Hs Hp]. eapply source_of_file; [done..|].
    apply staged_path_truthy.
  - destruct Hw as [Hs _]. by apply source_of_url.
  - destruct Hw as [Hs _]. by apply source_of_url.
Qed.

Lemma index_rows_linked env rq s w :
  w ∈ rows (db (disk_ (index env rq s).1)) ->
  w ∈ rows (db (disk_ s)) \/ source_of w <> SmallText (source w).
Proof.
  destruct (request_kind rq) as [Hg|[Hd|Hu]].
  - rewrite index_get by done. by left.
  - rewrite index_delete by done.
    destruct (builtin_int env _) as [i|e]; simpl; [|by left].
    intros Hw. apply elem_of_filter_bool in Hw as [Hw _]. by left.
  - rewrite index_upload by done.
    destruct (upload env rq s) as [s' [|m]] eqn:E; simpl.
    + destruct (upload_new_row _ _ _ _ E) as (w' & Hrows & _).
      pose proof (upload_new_row_cell _ _ _ _ _ E Hrows) as Hcell.
      rewrite Hrows. intros Hw. apply elem_of_app in Hw as [Hw|Hw]; [by left|].
      apply list_elem_of_singleton in Hw as ->. right. rewrite Hcell.
      destruct (pdf_file_of rq) as [f|]; [destruct (Py.truthy (filename f))|]; done.
    + rewrite (upload_failed_table _ _ _ _ _ E). by left.
Qed.

Lemma serve_rows_linked trace s :
  Forall (fun w => source_of w <> SmallText (source w)) (rows (db (disk_ s))) ->
  Forall (fun w => source_of w <> SmallText (source w))
    (rows (db (disk_ (serve trace s)))).
Proof.
  revert s. induction trace as [|[env rq] trace IH]; intros s H; [done|].
  simpl. apply IH. rewrite Forall_forall in *. intros w Hw.
  apply index_rows_linked in Hw as [Hw|Hw]; [by apply H | done].
Qed.

(** What a request does to the file stage. *)
Lemma index_files env rq s q :
  is_Some (files (disk_ s) !! q) ->
  is_delete rq \/ is_Some (files (disk_ (index env rq s).1) !! q).
Proof.
  intros Hq. destruct (request_kind rq) as [Hg|[Hd|Hu]]; [|by left|]; right.
  - by rewrite index_get.
  - rewrite index_upload by done. pose proof (upload_files env rq s) as Hf.
    destruct (upload env rq s) as [s' [|m]]; simpl in *; rewrite Hf;
      (destruct (pdf_file_of rq) as [f|]; [|done]);
      (destruct (_ && _); [|done]);
      rewrite lookup_insert; by case_decide.
Qed.

End RouteFacts.

(** ** The store and the download route *)

Section store_properties.
Import Store App Download Scenario.
Import AppFacts ViewFacts StoreFacts PipelineFacts RouteFacts DownloadFacts.

(** X1.  Ids are never reused.  In every table reached from the empty
    one the ids are pairwise distinct, positive and at most the
    counter; a request never lowers the counter, and a row it adds
    takes the counter's next value, above the id of every row of the
    table, whatever was deleted before. *)
Theorem ids_never_reused (trace : list (Env * Request)) (env : Env) (rq : Request) :
  let s := serve trace initial in
  let s' := (index env rq s).1 in
  store_ok (db (disk_ s))
  /\ last_id (db (disk_ s)) <= last_id (db (disk_ s'))
  /\ (forall w, w ∈ rows (db (disk_ s')) -> w ∉ rows (db (disk_ s)) ->
        id w = last_id (db (disk_ s)) + 1
        /\ forall v, v ∈ rows (db (disk_ s)) -> id v < id w).
Proof.
  intros s s'.
  assert (Hok : store_ok (db (disk_ s))) by apply serve_store_ok, store_ok_empty.
  split; [done|]. split; [apply index_last_id|].
  intros w Hw Hn. pose proof (index_new_rows env rq s w Hok Hw Hn) as Hid.
  split; [done|]. intros v Hv. destruct Hok as (_ & _ & Hb).
  rewrite Forall_forall in Hb. apply Hb in Hv. lia.
Qed.

Lemma ids_never_reused_witness :
  let s := serve [(good, upload_file); (good, delete_first)] initial in
  rows (db (disk_ s)) = []
  /\ row 2 "URL: http://x.test/b.pdf" None ∈ rows (db (disk_ (index good upload_url s).1))
  /\ id (row 2 "URL: http://x.test/b.pdf" None) = last_id (db (disk_ s)) + 1.
Proof.
  intros s. split; [vm_compute; reflexivity|].
  assert (Hin : row 2 "URL: http://x.test/b.pdf" None
                  ∈ rows (db (disk_ (index good upload_url s).1)))
    by (vm_compute; left).
  split; [exact Hin|].
  destruct (ids_never_reused [(good, upload_file); (good, delete_first)]
              good upload_url) as (_ & _ & Hnew).
  apply (Hnew _ Hin). intros H. vm_compute in H. by apply elem_of_nil in H.
Defined.

(** X2.  What is saved can be looked up.  On a table with distinct ids
    below the counter, [save_whitepaper] gives the new record the next
    id; the lookup of that id finds the file path that was saved, the
    lookup of any other id answers as before, and the file stage is
    not touched. *)
Theorem save_then_lookup (now t src mc ind ss : str) (fp : option str) (d : disk) :
  store_ok (db d) ->
  let d' := save_whitepaper now t src mc ind ss fp d in
  store_ok (db d')
  /\ select_file_path (last_id (db d) + 1) (db d') = Some fp
  /\ (forall i, i <> last_id (db d) + 1 ->
        select_file_path i (db d') = select_file_path i (db d)
        /\ download_whitepaper i d' = download_whitepaper i d)
  /\ files d' = files d.
Proof.
  intros Hok d'. split; [by apply store_ok_save|].
  assert (Hnone : List.find (fun r => id r =? last_id (db d) + 1) (rows (db d)) = None).
  { apply find_none_absent. intros w Hw. destruct Hok as (_ & _ & Hb).
    rewrite Forall_forall in Hb. apply Hb in Hw. lia. }
  split; [|split; [|done]].
  - unfold select_file_path. simpl. rewrite find_app_none by done.
    simpl. by rewrite Z.eqb_refl.
  - intros i Hi.
    assert (Hsel : select_file_path i (db d') = select_file_path i (db d)).
    { unfold select_file_path. simpl.
      destruct (List.find (fun r => id r =? i) (rows (db d))) as [w|] eqn:E.
      - by rewrite (find_app_some _ _ _ _ E).
      - rewrite find_app_none by done. simpl.
        by destruct (Z.eqb_spec (last_id (db d) + 1) i); [lia|]. }
    split; [done|]. unfold download_whitepaper. by rewrite Hsel.
Qed.

Lemma save_then_lookup_witness :
  let d := disk_ one_upload in
  let d' := save_whitepaper (py "2024-05-02") (py "T") (py "URL: u") (py "Retail")
              (py "Energy") (py "s") None d in
  select_file_path 2 (db d') = Some None
  /\ select_file_path 1 (db d') = Some (Some staged).
Proof.
  intros d d'.
  destruct (save_then_lookup (py "2024-05-02") (py "T") (py "URL: u") (py "Retail")
              (py "Energy") (py "s") None d) as (_ & Hnew & Hold & _); [by_decide|].
  split; [exact Hnew|].
  destruct (Hold 1) as [H _]; [intros E; vm_compute in E; discriminate E|].
  unfold d'. rewrite H. vm_compute. reflexivity.
Defined.

(** X3.  Deleting twice is deleting once: a second [delete_whitepaper]
    of the same id changes neither the table nor the file stage. *)
Theorem delete_twice (rf : str -> bool) (i : Z) (d : disk) :
  delete_whitepaper rf i (delete_whitepaper rf i d) = delete_whitepaper rf i d.
Proof.
  unfold delete_whitepaper at 1. rewrite select_after_delete.
  cbn [db rows last_id files delete_whitepaper]. by rewrite filter_filter_same.
Qed.

(** X4.  Deletions commute: two ids deleted in either order leave the
    same table and the same file stage, also when the two records
    point to the same file. *)
Theorem deletes_commute (rf : str -> bool) (i j : Z) (d : disk) :
  delete_whitepaper rf i (delete_whitepaper rf j d)
  = delete_whitepaper rf j (delete_whitepaper rf i d).
Proof.
  destruct (decide (i = j)) as [->|Hij]; [done|].
  assert (Hd : forall a b (x : disk),
             db (delete_whitepaper rf a (delete_whitepaper rf b x))
             = {| rows := List.filter (fun r => negb (id r =? a))
                            (List.filter (fun r => negb (id r =? b)) (rows (db x)));
                  last_id := last_id (db x) |}) by done.
  assert (Hf : forall a b (x : disk), a <> b ->
             files (delete_whitepaper rf a (delete_whitepaper rf b x))
             = match select_file_path a (db x) with
               | Some (Some p) =>
                   if Py.truthy p && negb (rf p)
                   then delete p (files (delete_whitepaper rf b x))
                   else files (delete_whitepaper rf b x)
               | _ => files (delete_whitepaper rf b x)
               end).
  { intros a b x Hab. rewrite delete_files. by rewrite select_after_delete_other. }
  destruct (delete_whitepaper rf i (delete_whitepaper rf j d)) as [db1 f1] eqn:E1.
  destruct (delete_whitepaper rf j (delete_whitepaper rf i d)) as [db2 f2] eqn:E2.
  apply (f_equal db) in E1 as Hdb1. apply (f_equal files) in E1 as Hf1.
  apply (f_equal db) in E2 as Hdb2. apply (f_equal files) in E2 as Hf2.
  rewrite Hd in Hdb1, Hdb2. rewrite Hf in Hf1, Hf2 by done.
  rewrite !delete_files in Hf1, Hf2. simpl in *. subst. f_equal.
  - f_equal. apply filter_filter_comm.
  - destruct (select_file_path i (db d)) as [[p|]|],
      (select_file_path j (db d)) as [[q|]|]; try done.
    destruct (Py.truthy p && negb (rf p)), (Py.truthy q && negb (rf q)); try done.
    apply delete_delete.
Qed.

(** X5.  What [delete_whitepaper] does to the files.  It adds no file
    and changes none; a path other than the one recorded for the id is
    left as it was; the recorded file is gone when [os.remove] works;
    when [os.remove] raises, the error is swallowed, the file stage is
    as before, and the record is deleted all the same. *)
Theorem delete_file_effects (rf : str -> bool) (i : Z) (d : disk) :
  files (delete_whitepaper rf i d) ⊆ files d
  /\ (forall q, select_file_path i (db d) <> Some (Some q) ->
        files (delete_whitepaper rf i d) !! q = files d !! q)
  /\ (forall p, select_file_path i (db d) = Some (Some p) ->
        Py.truthy p = true -> rf p = false ->
        files (delete_whitepaper rf i d) !! p = None)
  /\ (forall p, select_file_path i (db d) = Some (Some p) -> rf p = true ->
        files (delete_whitepaper rf i d) = files d)
  /\ select_file_path i (db (delete_whitepaper rf i d)) = None.
Proof.
  split; [apply delete_files_subseteq|]. rewrite delete_files.
  split; [|split; [|split]].
  - intros q Hq. destruct (select_file_path i (db d)) as [[p|]|]; try done.
    destruct (_ && _); [|done]. apply lookup_delete_ne. congruence.
  - intros p -> -> ->. apply lookup_delete_eq.
  - intros p -> ->. by rewrite andb_false_r.
  - apply select_after_delete.
Qed.

Lemma delete_file_effects_witness :
  let d := disk_ one_upload in
  files d !! staged = Some pdf
  /\ files (delete_whitepaper (fun _ => false) 1 d) !! staged = None
  /\ files (delete_whitepaper (fun _ => true) 1 d) = files d
  /\ files (delete_whitepaper (fun _ => false) 2 d) !! staged = Some pdf.
Proof.
  intros d. split; [vm_compute; reflexivity|]. split; [|split].
  - destruct (delete_file_effects (fun _ => false) 1 d) as (_ & _ & H & _).
    apply H; vm_compute; reflexivity.
  - destruct (delete_file_effects (fun _ => true) 1 d) as (_ & _ & _ & H & _).
    apply (H staged); vm_compute; reflexivity.
  - destruct (delete_file_effects (fun _ => false) 2 d) as (_ & H & _).
    rewrite H; [vm_compute; reflexivity|].
    intros E. vm_compute in E. discriminate E.
Defined.

(** X6.  What is uploaded can be downloaded.  After a successful
    upload of a file the download route answers for the new id with
    the bytes that were uploaded, under the name of the staged copy,
    which is the time stamp, an underscore and the secured file name
    when that name has no slash; every older record that points to the
    same staged path now serves the new bytes too.  After a successful
    ingestion from a URL the route answers for the new id that no
    local file is available. *)
Theorem upload_then_download (env : Env) (rq : Request) (s s' : state) :
  store_ok (db (disk_ s)) ->
  upload env rq s = (s', Redirected) ->
  (forall f, pdf_file_of rq = Some f -> Py.truthy (filename f) = true ->
     download_whitepaper (last_id (db (disk_ s)) + 1) (disk_ s')
       = SendFile (staged_path env f) (stream f) (basename (staged_path env f))
     /\ (47%N ∉ secure_filename env (filename f) ->
         basename (staged_path env f)
         = Py.str_of_Z (time_time env) ++ py "_" ++ secure_filename env (filename f))
     /\ (forall w, w ∈ rows (db (disk_ s)) ->
           file_path w = Some (staged_path env f) ->
           download_whitepaper (id w) (disk_ s')
           = SendFile (staged_path env f) (stream f) (basename (staged_path env f))))
  /\ (file_truthy (pdf_file_of rq) = false ->
      download_whitepaper (last_id (db (disk_ s)) + 1) (disk_ s')
      = NotFound (py "No local file available for this whitepaper.")).
Proof.
  intros Hok Hup.
  assert (Hok' : store_ok (db (disk_ s'))).
  { apply upload_redirected in Hup
      as (fp & src & b & pages & r & _ & _ & _ & _ & _ & ->).
    apply (store_ok_save (utcnow_isoformat env) (Classifier.title r) src
             (Classifier.main_category r) (Classifier.industry r)
             (Classifier.short_summary r) fp (disk_ s) Hok). }
  pose proof (upload_files env rq s) as Hfiles. rewrite Hup in Hfiles. simpl in Hfiles.
  destruct (upload_new_row _ _ _ _ Hup) as (w & Hrows & _ & Hid & _ & _ & Hw).
  assert (Hin : w ∈ rows (db (disk_ s'))).
  { rewrite Hrows. apply elem_of_app. right. left. }
  assert (Hkey : Py.truthy (api_key_of rq) = true).
  { by apply upload_redirected in Hup as (? & ? & ? & ? & ? & ? & _). }
  split.
  - intros f Hf Hname. rewrite Hf, Hname in Hw. destruct Hw as [_ Hp].
    rewrite Hf, Hkey, Hname in Hfiles. simpl in Hfiles.
    assert (Hserved : forall v, v ∈ rows (db (disk_ s')) ->
              file_path v = Some (staged_path env f) ->
              download_whitepaper (id v) (disk_ s')
              = SendFile (staged_path env f) (stream f) (basename (staged_path env f))).
    { intros v Hv Hpv. rewrite download_row, Hpv, staged_path_truthy by done.
      by rewrite Hfiles, lookup_insert_eq. }
    split; [rewrite <- Hid; by apply Hserved|].
    split; [apply basename_staged|].
    intros v Hv. apply Hserved. rewrite Hrows. apply elem_of_app. by left.
  - intros Hf. rewrite <- Hid, download_row by done.
    destruct (pdf_file_of rq) as [f|]; simpl in Hf.
    + rewrite Hf in Hw. destruct Hw as [_ ->]. done.
    + destruct Hw as [_ ->]. done.
Qed.

Lemma upload_then_download_witness :
  download_whitepaper 1 (disk_ (upload good upload_file initial).1)
    = SendFile staged pdf (py "1700000000_a.pdf")
  /\ download_whitepaper 1 (disk_ (upload good upload_url initial).1)
     = NotFound (py "No local file available for this whitepaper.").
Proof.
  split.
  - destruct (upload_then_download good upload_file initial
                (upload good upload_file initial).1) as [Hfile _];
      [by_decide | vm_compute; reflexivity|].
    destruct (Hfile {| filename := py "a.pdf"; stream := pdf |})
      as (Hget & Hname & _); [vm_compute; reflexivity | vm_compute; reflexivity|].
    rewrite Hname in Hget by by_decide.
    refine (eq_trans Hget _). vm_compute. reflexivity.
  - destruct (upload_then_download good upload_url initial
                (upload good upload_url initial).1) as [_ Hurl];
      [by_decide | vm_compute; reflexivity|].
    apply Hurl. vm_compute. reflexivity.
Defined.




(** X9.  Deleting one of two records that share a staged file breaks
    the other: the file is removed with the first record, and the
    route answers for the second that the file is not on the server.
    Two uploads of the same file name within one second make such a
    pair. *)
Theorem shared_file_lost (rf : str -> bool) (d : disk) (w1 w2 : whitepaper) (p : str) :
  store_ok (db d) ->
  w1 ∈ rows (db d) -> w2 ∈ rows (db d) -> id w1 <> id w2 ->
  file_path w1 = Some p -> file_path w2 = Some p ->
  Py.truthy p = true -> rf p = false ->
  download_whitepaper (id w2) (delete_whitepaper rf (id w1) d)
  = NotFound (py "File not found on server.").
Proof.
  intros Hok H1 H2 Hne Hp1 Hp2 Hp Hrf.
  rewrite download_row; [|by apply store_ok_delete|].
  - rewrite Hp2, Hp, delete_files, select_row, Hp1, Hp, Hrf by done.
    simpl. by rewrite lookup_delete_eq.
  - simpl. apply elem_of_filter_bool. split; [done|].
    by destruct (Z.eqb_spec (id w2) (id w1)).
Qed.

Lemma shared_file_lost_witness :
  let d := disk_ two_uploads in
  rows (db d) = [row 1 "File: a.pdf" (Some staged); row 2 "File: a.pdf" (Some staged)]
  /\ download_whitepaper 2 d = SendFile staged pdf (py "1700000000_a.pdf")
  /\ download_whitepaper 2 (delete_whitepaper (fun _ => false) 1 d)
     = NotFound (py "File not found on server.").
Proof.
  intros d. split; [vm_compute; reflexivity|]. split; [vm_compute; reflexivity|].
  apply (shared_file_lost (fun _ => false) d
           (row 1 "File: a.pdf" (Some staged)) (row 2 "File: a.pdf" (Some staged))
           staged);
    [by_decide | vm_compute; left | vm_compute; right; left | discriminate
    | reflexivity | reflexivity | reflexivity | reflexivity].
Defined.

End store_properties.

(** ** The page and the requests *)

Section page_properties.
Import Store App Download Template Scenario.
Import AppFacts ViewFacts StoreFacts TextFacts PipelineFacts RouteFacts.
Import DownloadFacts ListingFacts.

(** X10.  The Source cell of a new row.  The row a successful upload
    appends is shown with a download link to its own id when it came
    from a file, and with a link to the URL it was fetched from, the
    source without its [URL: ] prefix, when it came from a URL. *)
Theorem source_cell_of_new_row (env : Env) (rq : Request) (s s' : state) :
  upload env rq s = (s', Redirected) ->
  exists w,
    rows (db (disk_ s')) = rows (db (disk_ s)) ++ [w]
    /\ id w = last_id (db (disk_ s)) + 1
    /\ source_of w =
         match pdf_file_of rq with
         | Some f =>
             if Py.truthy (filename f) then DownloadPDF (id w)
             else OpenSource (pdf_url_of rq)
         | None => OpenSource (pdf_url_of rq)
         end.
Proof.
  intros H. destruct (upload_new_row _ _ _ _ H) as (w & Hrows & _ & Hid & _).
  exists w. split; [done|]. split; [done|]. by eapply upload_new_row_cell.
Qed.

Lemma source_cell_of_new_row_witness :
  (exists w, rows (db (disk_ (upload good upload_file initial).1)) = [w]
     /\ source_of w = DownloadPDF 1)
  /\ (exists w, rows (db (disk_ (upload good upload_url initial).1)) = [w]
        /\ source_of w = OpenSource (py "http://x.test/b.pdf")).
Proof.
  split.
  - destruct (source_cell_of_new_row good upload_file initial
                (upload good upload_file initial).1) as (w & Hrows & Hid & Hcell);
      [vm_compute; reflexivity|].
    exists w. split; [exact Hrows|]. rewrite Hcell, Hid. reflexivity.
  - destruct (source_cell_of_new_row good upload_url initial
                (upload good upload_url initial).1) as (w & Hrows & Hid & Hcell);
      [vm_compute; reflexivity|].
    exists w. split; [exact Hrows|]. rewrite Hcell. vm_compute. reflexivity.
Defined.

(** X11.  Every row has a link.  In a table reached from the empty one
    no row falls to the last branch of the Source cell, the plain
    text: its source starts with [URL: ] or it has a staged file. *)
Theorem source_cell_never_plain (trace : list (Env * Request)) :
  Forall (fun w => source_of w <> SmallText (source w))
    (rows (db (disk_ (serve trace initial)))).
Proof. apply serve_rows_linked. constructor. Qed.

(** X12.  A download link leads to the record it is shown for.  When
    the Source cell of a row is a download link, the link carries the
    row's id and the row has a file path; on a table with distinct ids
    the route then sends that file, or answers that the file is not on
    the server when it is gone from the disk, and never that no local
    file is available. *)
Theorem download_link_target (d : disk) (w : whitepaper) (i : Z) :
  store_ok (db d) -> w ∈ rows (db d) -> source_of w = DownloadPDF i ->
  i = id w
  /\ exists p, file_path w = Some p
       /\ download_whitepaper i d =
            match files d !! p with
            | Some c => SendFile p c (basename p)
            | None => NotFound (py "File not found on server.")
            end.
Proof.
  intros Hok Hw Hcell. apply source_of_download in Hcell as (-> & p & Hp & Ht).
  split; [done|]. exists p. split; [done|].
  by rewrite download_row, Hp, Ht.
Qed.

Lemma download_link_target_witness :
  let d := disk_ one_upload in
  exists p, file_path (row 1 "File: a.pdf" (Some staged)) = Some p
    /\ download_whitepaper 1 d =
         match files d !! p with
         | Some c => SendFile p c (basename p)
         | None => NotFound (py "File not found on server.")
         end.
Proof.
  intros d.
  destruct (download_link_target d (row 1 "File: a.pdf" (Some staged)) 1)
    as (_ & H); [by_decide | vm_compute; left | vm_compute; reflexivity|].
  exact H.
Defined.

(** X13.  The banner is an error or absent.  A page that [index]
    renders lists the rows of the state the request left, under the
    filters and the order of the request; on GET it has no banner and
    the state is unchanged; on POST its banner has the class [error]
    and a message that is not empty.  The class [success] is never
    used: a request that succeeds is answered with a redirect. *)
Theorem banner_only_errors (env : Env) (rq : Request) (s s' : state)
    (message : option str) (error : bool) (l : list whitepaper) (fm fi so : str) :
  index env rq s = (s', Rendered message error l fm fi so) ->
  l = listing fm fi so (disk_ s')
  /\ fm = filter_main_category_of rq /\ fi = filter_industry_of rq
  /\ so = sort_order_of rq
  /\ ((method rq = GET /\ s' = s /\ banner message error = None)
      \/ (method rq = POST
          /\ exists m, m <> [] /\ banner message error = Some (py "error", m))).
Proof.
  intros H. apply index_rendered in H as (Hl & Hfm & Hfi & Hso & H).
  repeat (split; [done|]).
  destruct H as [(Hg & -> & -> & ->)|(Hp & -> & m & -> & Hm)].
  - by left.
  - right. split; [done|]. exists m. split; [by intros ->|].
    simpl. by rewrite Hm.
Qed.

Lemma banner_only_errors_witness :
  exists m, m <> []
    /\ banner (Some (py "OpenAI API key is required.")) true = Some (py "error", m).
Proof.
  destruct (banner_only_errors good upload_no_key initial initial
              (Some (py "OpenAI API key is required.")) true [] [] [] (py "newest"))
    as (_ & _ & _ & _ & [(Hg & _)|(_ & H)]);
    [vm_compute; reflexivity | discriminate Hg | exact H].
Defined.

(** X14.  A document without text is turned away before the model is
    called.  The text of a document is blank exactly when every page
    is blank or has no text, the page separators being white space;
    an upload of such a file stages it, opens it, answers that no text
    could be extracted, calls no model and writes no record. *)
Theorem blank_document_rejected (env : Env) (rq : Request) (s : state)
    (f : FileStorage) (pages : list (option str)) :
  (Py.truthy (Py.strip (text_of pages)) = false
   <-> Forall (fun p => blank (default [] p)) pages)
  /\ (Py.truthy (api_key_of rq) = true ->
      pdf_file_of rq = Some f -> Py.truthy (filename f) = true ->
      pdf_pages env (stream f) = Ok pages ->
      Forall (fun p => blank (default [] p)) pages ->
      upload env rq s
      = ({| disk_ := {| db := db (disk_ s);
                        files := <[staged_path env f := stream f]> (files (disk_ s)) |};
            calls := calls s ++ [FileSaved (staged_path env f); PdfOpened (stream f)] |},
         Message (py "Could not extract any text from the PDF."))).
Proof.
  assert (Hblank : Py.truthy (Py.strip (text_of pages)) = false
                   <-> Forall (fun p => blank (default [] p)) pages)
    by by rewrite strip_truthy, text_of_blank.
  split; [done|]. intros Hkey Hfile Hname Hpages Hall.
  apply Hblank in Hall. unfold upload, upload_body.
  fold (api_key_of rq) (pdf_url_of rq) (pdf_file_of rq).
  rewrite Hkey, Hfile. cbn [negb file_truthy]. rewrite Hname. cbn [negb andb].
  fold (staged_path env f).
  cbv beta iota zeta delta [bind ret lift log on_disk save_and_read extract_text].
  cbn [disk_ calls db files]. rewrite Hpages. fold (text_of pages).
  rewrite Hall. cbn [negb]. by rewrite <- app_assoc.
Qed.

Lemma blank_document_rejected_witness :
  upload unreadable upload_file initial
  = ({| disk_ := {| db := empty_table; files := <[staged := pdf]> ∅ |};
        calls := [FileSaved staged; PdfOpened pdf] |},
     Message (py "Could not extract any text from the PDF.")).
Proof.
  destruct (blank_document_rejected unreadable upload_file initial
              {| filename := py "a.pdf"; stream := pdf |}
              [Some (py "  "); None; Some [NEWLINE]]) as [_ H].
  refine (eq_trans (H _ _ _ _ _) _);
    [vm_compute; reflexivity | vm_compute; reflexivity | vm_compute; reflexivity
    | vm_compute; reflexivity | | vm_compute; reflexivity].
  repeat (apply Forall_cons_2; [repeat constructor|]). apply Forall_nil_2.
Defined.


(** X16.  White space around the reply is ignored: the model's reply
    with blank text before and after it is parsed to the same result,
    or fails with the same error, as the reply itself. *)
Theorem reply_margins_ignored (a reply b : str) :
  blank a -> blank b ->
  Classifier.parse_reply (a ++ reply ++ b) = Classifier.parse_reply reply.
Proof.
  intros Ha Hb. rewrite !ClassifierFacts.parse_reply_load.
  by rewrite strip_blank_app.
Qed.

Lemma reply_margins_ignored_witness :
  Classifier.parse_reply ([NEWLINE; 32%N] ++ py "not json" ++ [NEWLINE])
  = Classifier.parse_reply (py "not json").
Proof.
  apply (reply_margins_ignored [NEWLINE; 32%N] (py "not json") [NEWLINE]);
    repeat constructor.
Defined.

(** X17.  Filtering and sorting commute.  Sorting the rows that pass a
    test gives the rows of the sorted list that pass it, in either
    direction; so a filtered listing is the unfiltered listing with
    the filters applied to it, and rows keep their relative order when
    a filter is set or cleared. *)
Theorem filter_then_sort (l : list whitepaper) (p : whitepaper -> bool) (reverse : bool)
    (fm fi so : str) (d : disk) :
  sorted (List.filter p l) created_at reverse
    = List.filter p (sorted l created_at reverse)
  /\ listing fm fi so d = apply_filters fm fi (listing [] [] so d)
  /\ listing fm fi so d `sublist_of` listing [] [] so d.
Proof.
  split; [by rewrite sorted_filter|]. split; [apply listing_filters|].
  rewrite (listing_filters fm fi). unfold apply_filters. cbv zeta.
  destruct (Py.truthy fm), (Py.truthy fi); try done;
    repeat (etrans; [apply sublist_filter_bool|]); done.
Qed.

(** X18.  Sorting and filtering are idempotent: a sorted list sorted
    again in the same direction is unchanged, and so is a filtered
    list filtered again by the same filters. *)
Theorem sorting_twice (l : list whitepaper) (reverse : bool) (fm fi : str) :
  sorted (sorted l created_at reverse) created_at reverse
    = sorted l created_at reverse
  /\ apply_filters fm fi (apply_filters fm fi l) = apply_filters fm fi l.
Proof. split; [apply sorted_idem | apply apply_filters_idem]. Qed.

(** X19.  Any sort order but [newest] lists oldest first.  The order
    read from the request is never empty; only the string [newest]
    reverses the listing, and every other value gives the listing of
    [oldest]. *)
Theorem unknown_sort_order (rq : Request) (fm fi so : str) (d : disk) :
  sort_order_of rq <> []
  /\ (so <> py "newest" -> listing fm fi so d = listing fm fi (py "oldest") d).
Proof.
  split; [|apply listing_other_order].
  pose proof (sort_order_truthy rq) as H. by destruct (sort_order_of rq).
Qed.

Lemma unknown_sort_order_witness :
  let d := disk_ two_uploads in
  listing [] [] (py "Newest") d = listing [] [] (py "oldest") d.
Proof.
  intros d.
  destruct (unknown_sort_order (browse "Retail" "Newest") [] [] (py "Newest") d)
    as [_ H].
  apply H. by_decide.
Defined.

(** X20.  A filter outside the lists shows nothing.  On a table
    reached from the empty one, a main-category filter that is not one
    of the three main categories, or an industry filter that is not a
    listed industry, gives an empty listing. *)
Theorem foreign_filter_lists_nothing (trace : list (Env * Request)) (fm fi so : str) :
  (fm <> [] -> fm ∉ Classifier.MAIN_CATEGORIES ->
     listing fm fi so (disk_ (serve trace initial)) = [])
  /\ (fi <> [] -> fi ∉ Classifier.INDUSTRIES ->
        listing fm fi so (disk_ (serve trace initial)) = []).
Proof.
  assert (H : Forall closed (rows (db (disk_ (serve trace initial)))))
    by (apply serve_closed; constructor).
  split; intros Hne Hout;
    [by apply listing_foreign_main | by apply listing_foreign_industry].
Qed.

Lemma foreign_filter_lists_nothing_witness :
  listing (py "retail") [] (py "newest") (disk_ two_uploads) = []
  /\ listing [] (py "Retail") (py "newest") (disk_ two_uploads) = [].
Proof.
  split.
  - destruct (foreign_filter_lists_nothing [(good, upload_file); (good, upload_file)]
                (py "retail") [] (py "newest")) as [H _].
    apply H; [discriminate | by_decide].
  - destruct (foreign_filter_lists_nothing [(good, upload_file); (good, upload_file)]
                [] (py "Retail") (py "newest")) as [_ H].
    apply H; [discriminate | by_decide].
Defined.

(** X21.  What each kind of request can touch.  A GET changes
    nothing.  A delete makes no external call, leaves the counter,
    keeps the remaining rows in their order, and adds or changes no
    file.  An upload keeps every row in place, at most appending one,
    and removes no file.  No request shortens the log of calls. *)
Theorem request_frames (env : Env) (rq : Request) (s : state) :
  let s' := (index env rq s).1 in
  (method rq = GET -> s' = s)
  /\ (is_delete rq ->
        calls s' = calls s
        /\ last_id (db (disk_ s')) = last_id (db (disk_ s))
        /\ rows (db (disk_ s')) `sublist_of` rows (db (disk_ s))
        /\ files (disk_ s') ⊆ files (disk_ s))
  /\ (is_upload rq ->
        rows (db (disk_ s)) `prefix_of` rows (db (disk_ s'))
        /\ (length (rows (db (disk_ s'))) <= S (length (rows (db (disk_ s)))))%nat
        /\ forall q, is_Some (files (disk_ s) !! q) -> is_Some (files (disk_ s') !! q))
  /\ calls s `prefix_of` calls s'.
Proof.
  intros s'. split; [|split; [|split]].
  - intros Hg. unfold s'. by rewrite index_get.
  - intros Hd. unfold s'. rewrite index_delete by done.
    destruct (builtin_int env _) as [i|e]; simpl; [|done].
    split; [done|]. split; [done|]. split; [apply sublist_filter_bool|].
    apply delete_files_subseteq.
  - intros Hu. split; [|split].
    + unfold s'. rewrite index_upload by done.
      destruct (upload env rq s) as [s1 o] eqn:E.
      destruct (upload_rows _ _ _ _ _ E) as [Hr|(w & Hr & _)];
        destruct o; simpl; rewrite Hr; try done; by apply prefix_app_r.
    + unfold s'. rewrite index_upload by done.
      destruct (upload env rq s) as [s1 o] eqn:E.
      destruct (upload_rows _ _ _ _ _ E) as [Hr|(w & Hr & _)];
        destruct o; simpl; rewrite Hr, ?length_app; simpl; lia.
    + intros q Hq. destruct (index_files env rq s q Hq) as [[_ Hd]|H]; [|done].
      by destruct Hu as [_ Hu].
  - apply index_calls_prefix.
Qed.

Lemma request_frames_witness :
  (index good (browse "Retail" "oldest") two_uploads).1 = two_uploads
  /\ calls (index good delete_first two_uploads).1 = calls two_uploads
  /\ rows (db (disk_ two_uploads))
       `prefix_of` rows (db (disk_ (index good upload_url two_uploads).1)).
Proof.
  split; [|split].
  - destruct (request_frames good (browse "Retail" "oldest") two_uploads) as (H & _).
    apply H. reflexivity.
  - destruct (request_frames good delete_first two_uploads) as (_ & H & _).
    destruct H as [H _]; [split; [reflexivity | vm_compute; reflexivity]|].
    exact H.
  - destruct (request_frames good upload_url two_uploads) as (_ & _ & H & _).
    destruct H as [H _]; [split; [reflexivity | by_decide]|].
    exact H.
Defined.

End page_properties.

(** ** The delete button *)

Section button_properties.
Import Store App Template Scenario.
Import AppFacts ViewFacts StoreFacts.

Lemma delete_form_action (w : whitepaper) :
  get (delete_form w) (py "action") (py "upload") = py "delete".
Proof. reflexivity. Qed.

Lemma delete_form_id (w : whitepaper) :
  get (delete_form w) (py "delete_id") (py "0") = Py.str_of_Z (id w).
Proof.
  unfold delete_form, get. cbn [lookup_first].
  rewrite decide_False by by_decide. by rewrite decide_True by by_decide.
Qed.

Lemma filter_remove_row (l : list whitepaper) w :
  NoDup (id <$> l) -> w ∈ l ->
  exists l1 l2, l = l1 ++ w :: l2
    /\ List.filter (fun r => negb (id r =? id w)) l = l1 ++ l2.
Proof.
  intros Hnd Hw. apply list_elem_of_split in Hw as (l1 & l2 & ->).
  exists l1, l2. split; [done|].
  rewrite fmap_app, fmap_cons in Hnd.
  apply NoDup_app in Hnd as (_ & H1 & Hnd). apply NoDup_cons in Hnd as [H2 _].
  rewrite List.filter_app. cbn [List.filter]. rewrite Z.eqb_refl. cbn [negb].
  rewrite !filter_all; [done| |].
  - intros v Hv. destruct (Z.eqb_spec (id v) (id w)) as [E|]; [|done].
    destruct H2. rewrite <- E. by apply list_elem_of_fmap_2.
  - intros v Hv. destruct (Z.eqb_spec (id v) (id w)) as [E|]; [|done].
    destruct (H1 (id v)); [by apply list_elem_of_fmap_2|]. rewrite E. left.
Qed.

(** X22.  The delete button removes its row and no other.  The form
    shown with a row posts the action [delete] and the row's id; on a
    table with distinct ids, and with [int] reading back the id that
    [str] wrote, the request removes exactly that row, keeps the other
    rows in their order, and is answered by a redirect that carries
    the filters and the order of the page. *)
Theorem delete_button (env : Env) (rq : Request) (s : state) (w : whitepaper) :
  store_ok (db (disk_ s)) -> w ∈ rows (db (disk_ s)) ->
  method rq = POST -> form rq = delete_form w ->
  builtin_int env (Py.str_of_Z (id w)) = Ok (id w) ->
  (exists l1 l2,
     rows (db (disk_ s)) = l1 ++ w :: l2
     /\ rows (db (disk_ (index env rq s).1)) = l1 ++ l2
     /\ w ∉ l1 ++ l2)
  /\ (index env rq s).2
     = Redirect (Some (filter_main_category_of rq)) (Some (filter_industry_of rq))
         (Some (sort_order_of rq)).
Proof.
  intros (Hnd & _) Hw Hm Hf Hint.
  rewrite index_delete by (split; [done|]; rewrite Hf; apply delete_form_action).
  rewrite Hf, delete_form_id, Hint. cbn [fst snd disk_ delete_whitepaper db rows].
  split; [|done].
  destruct (filter_remove_row _ _ Hnd Hw) as (l1 & l2 & Hl & Hfl).
  exists l1, l2. split; [done|]. split; [done|].
  rewrite <- Hfl. intros Hin. apply elem_of_filter_bool in Hin as [_ Hin].
  by rewrite Z.eqb_refl in Hin.
Qed.

Lemma delete_button_witness :
  let rq := {| method := POST; args := [(py "sort_order", py "oldest")];
               form := delete_form (row 1 "File: a.pdf" (Some staged));
               files_ := [] |} in
  rows (db (disk_ two_uploads))
    = [row 1 "File: a.pdf" (Some staged); row 2 "File: a.pdf" (Some staged)]
  /\ (exists l1 l2,
        rows (db (disk_ two_uploads)) = l1 ++ row 1 "File: a.pdf" (Some staged) :: l2
        /\ rows (db (disk_ (index good rq two_uploads).1)) = l1 ++ l2
        /\ row 1 "File: a.pdf" (Some staged) ∉ l1 ++ l2)
  /\ (index good rq two_uploads).2 = Redirect (Some []) (Some []) (Some (py "oldest")).
Proof.
  intros rq. split; [vm_compute; reflexivity|].
  destruct (delete_button good rq two_uploads (row 1 "File: a.pdf" (Some staged)))
    as [Hrows Hredirect];
    [by_decide | vm_compute; left | reflexivity | reflexivity
    | vm_compute; reflexivity|].
  split; [exact Hrows|].
  refine (eq_trans Hredirect _). vm_compute. reflexivity.
Defined.

End button_properties.
